(* ===== verification/_CoqProject ===== *)
-Q . S2P
Prelude.v
JsDate.v
JsNumber.v
JsString.v
Ledger.v
Budget.v
AlertRoute.v
MonthlyStats.v
UseFetch.v
BudgetProgress.v
PeriodCalculator.v
Aggregator.v
AlertEvaluator.v
Recurrence.v
Scheduler.v
Dashboard.v
TransactionTable.v
AccountChart.v
TransactionOverview.v
AccountCard.v
AccountPage.v
CreateAccountDrawer.v
Presentation.v
TableView.v
DashboardView.v
OverviewView.v
