(* ===== verification/Prelude.v ===== *)
(** * A verification development of Hdewani/finance-manager

    The repository is a Next.js personal-finance tracker (accounts,
    transactions, a monthly budget).  Under [src/] it holds:
    - a server action module [src/actions/budget.js] with
      [getCurrentBudget] (the budget of the signed-in user and the sum of
      the current month's expenses of one account) and [updateBudget]
      (upsert of the user's budget);
    - two API routes: [src/app/api/test-budget-alerts/route.js] ([POST]:
      the 80 % budget-alert computation, an Inngest event and a direct
      e-mail) and [src/app/api/test-monthly-stats/route.js]
      ([getMonthlyStats] and [GET]: income, expenses and a per-category
      breakdown for this month and the previous one);
    - client components that compute what they display: the dashboard
      ([dashboard/page.jsx], [transaction-overview.jsx],
      [budget-progress.jsx], [account-card.jsx]), the account page
      ([account/[id]/page.jsx], [account-chart.jsx],
      [transaction-table.jsx]) and the [useFetch] hook
      ([src/hooks/use-fetch.js]);
    - the create-account drawer ([src/components/create-account-drawer.jsx]);
    - presentation: [header.jsx] (links by sign-in state), [hero.jsx]
      (a scroll effect), and markup only in [app/page.js],
      [app/layout.js], [dashboard/layout.js].

    The spec describes a "core" (recurrence advancer, budget alert
    evaluator with at-most-once-per-period state, a scheduler) whose code
    is not under [src/] (it lives in the repository's Inngest functions and
    Prisma schema): that part is modelled from the spec and marked so in
    the manifest.

    ** Files and what they model

    - [Prelude] (this file): the [result] error type of the server code
      with stdpp's monad notation, [sumZ] (the JavaScript [reduce] of a sum
      and Prisma's [_sum] aggregate) with its lemmas on filters and
      permutations, the [zdiv_elim] tactic that turns [Z.div]/[Z.modulo]
      by constants into linear facts for [lia], and the [finance] hint
      databases.
    - [JsDate]: the ECMAScript [Date] semantics the code relies on
      (ECMA-262 21.4.1: [Day], [DayFromYear], [YearFromTime],
      [MonthFromTime], [DateFromTime], [MakeDay], [MakeDate], the
      constructor [new Date(y, m, d, h, mi, s, ms)], [setDate],
      [setMonth] and the getters), with the calendar round-trip theorems.
    - [JsNumber]: the numbers of the percentage computations, with
      [Infinity], [-Infinity] and [NaN] for a division by zero.
    - [JsString]: [parseFloat] and [Number.prototype.toString] on amounts
      of cents, with their round trip.
    - [Ledger]: the Prisma rows ([User], [Account], [Transaction],
      [Budget]), the store as a record of tables, and the queries the code
      issues ([findUnique], [findFirst], [aggregate] with [_sum],
      [upsert]).
    - [Budget]: [getCurrentBudget] and [updateBudget] of
      [src/actions/budget.js] (Module [BudgetAction]).
    - [AlertRoute]: [POST] of [src/app/api/test-budget-alerts/route.js].
    - [MonthlyStats]: [getMonthlyStats] and [GET] of
      [src/app/api/test-monthly-stats/route.js].
    - [UseFetch]: the [useFetch] hook of [src/hooks/use-fetch.js] as a
      step relation over interleaved calls.
    - [BudgetProgress]: the budget card ([budget-progress.jsx]): status
      thresholds and its editing state machine, calling
      [BudgetAction.updateBudget] through [UseFetch].
    - [PeriodCalculator], [Aggregator], [AlertEvaluator], [Recurrence],
      [Scheduler]: the spec's core, modelled from the spec (its code is
      not under [src/]): period bounds and the clamping [advance];
      [sumByType] and [groupByCategory] with the [ExpenseSource]
      interface (a [Class]) the evaluator is proved against; the alert
      evaluator's at-most-once record; settlement of recurring rows with
      its crash points; the dispatcher with isolated failures.  The
      refinement theorems connect them to the code: the monthly-stats
      route implements the Aggregator, the alert route and the evaluator
      agree on positive budgets, a settled row is seen by
      [getCurrentBudget].
    - [Dashboard]: the dashboard page's data ([dashboard/page.jsx]).
    - [TransactionTable]: the account page's table
      ([transaction-table.jsx]): filters, stable sort, pagination,
      selection and deletion through [UseFetch], as a step function with
      the guards of the rendered buttons.
    - [AccountChart]: the account chart ([account-chart.jsx]): date
      ranges, grouping by an ["MMM dd"] label, totals.
    - [TransactionOverview]: the dashboard's overview card
      ([transaction-overview.jsx]), composed with [Dashboard] and proved
      to refine the [Aggregator].
    - [AccountCard]: the default-account switch ([account-card.jsx]),
      composed with [updateDefaultAccount] modelled from the spec's
      one-default invariant.
    - [AccountPage]: the account page ([account/[id]/page.jsx]), which
      feeds [AccountChart] and [TransactionTable].
    - [CreateAccountDrawer]: the drawer's form ([create-account-drawer.jsx])
      as a step function, with the zod resolver as a Section [Variable]
      and the call to [createAccount] through [UseFetch].
    - [Presentation]: the hero's scroll effect ([hero.jsx], Module
      [Hero]) and the header's links ([header.jsx], Module [Header]).
    - [TableView], [DashboardView], [OverviewView]: what the table, the
      dashboard page and the overview card render from the state and data
      of [TransactionTable], [Dashboard] and [TransactionOverview]: the
      counts, messages, row cells, the pagination's range, the props
      handed to the child components, the legend's colours.

    The files are composed as the code composes them: the actions and
    routes call the [Ledger] queries and the [JsDate] functions; the
    client components call the actions through [UseFetch]; the pages pass
    their data to the components, and the theorems about a page are
    stated on the composition.

    ** Modelling choices

    - Money: Prisma stores amounts as decimals; they are modelled as
      integers of minor units ([Z], cents).  The client code converts them
      with [toNumber()] and adds doubles; that rounding is not modelled:
      sums are exact.  Percentages are exact rationals, with the
      IEEE/JavaScript outcomes of a division by zero kept ([Infinity],
      [NaN]), since the code divides by a budget it never checks.
    - Time: a JavaScript time value is a [Z] of milliseconds since the
      epoch.  The local time zone is taken as UTC (the server actions and
      routes run on a UTC host); daylight-saving shifts and [TimeClip]'s
      range limit of 8.64e15 ms are not modelled.  The month windows are
      proved for years of 100 and more, where [new Date(y, ...)] does not
      remap [y] to [1900 + y].
    - Authentication ([auth()] of Clerk) is an input: the signed-in user's
      id or none.  The clock ([new Date()]) is an input.
    - Errors: a thrown [Error] is an [Err msg] of [result], with the
      code's message.  The store never fails in the model, so the
      [catch] blocks that turn a store failure into a 500 are not
      exercised.
    - React: a component is a record of its state cells and a step
      function per event, with the guards of what the rendered page lets
      the user click; the effects it causes (toasts, server calls) are the
      step's output.  An [await] splits a handler into two steps.
    - [Array.prototype.sort] is stdpp's [merge_sort] with the code's
      comparator (both are stable); where the comparator parses a string
      whose value is implementation-defined ([new Date("Mar 05")]), the
      parse is a Section [Variable] and the theorems hold for every one.
    - JavaScript objects used as maps with insertion order (the chart's
      bars, the overview's categories) are association lists.
    - Every recursion is structural (lists, the sort of stdpp): no fuel
      is needed, and every function of the development is total.

    ** Theorems

    Each component file ends with its theorems.  The manifest's claims
    C1 to C40 are, in order: the budget actions and the alert route
    (C1-C11), the monthly-stats route (C12-C18), [useFetch] (C19-C21), the
    budget card (C22-C27), the refinements of the spec's Aggregator and
    evaluator and the settlement seen by the budget (C28-C31), the
    dashboard (C32), the transaction table (C33-C38), the chart (C39) and
    the overview (C40): the functional behaviour of each handler on every
    branch (errors included), the invariants its writes or events
    preserve, equivalences of windows and totals computed in different
    ways, round trips, and the places where the code departs from the
    spec or from its own intent.  Every claim with hypotheses has a
    witness that applies it to a concrete store.  Other theorems (the
    period calculator's [advance], the alert record, settlement, the
    dispatcher, the account card, the account page, the drawer, the hero
    and header, and the rendered views) are proved beside them: among
    them, that the drawer calls [createAccount] only with values the
    resolver accepted and never twice at once, that the table's
    "Showing a to b of n" names the page's rows and turns inverted past
    the last page, and that the overview's legend colours repeat every
    seven categories.

    ** Not modelled

    - [app/page.js], [app/layout.js], [dashboard/layout.js]: markup and
      static data only, no state the rest reads.
    - The zod [accountSchema] ([src/app/lib/schema]) and [checkUser]
      ([src/lib/checkUser]) are not in the snapshot: the first is a
      Section [Variable] of the drawer, the second an effect of the header.
    - The console logs of [useFetch] and the routes, the number and date
      formatting ([toFixed], [toLocaleDateString], date-fns [format]: the
      views keep the time value) and the JSX layout, icons and charts'
      drawing.
    - The actions of [src/actions/account] and [src/actions/dashboard] and
      the Inngest functions are not in the snapshot: where the code calls
      them they are modelled from their use and the spec, and marked so
      in the manifest. *)

From stdpp Require Export base list gmap strings.
From Stdlib Require Export ZArith Lia.

Declare Scope finance_scope.
Delimit Scope finance_scope with finance.

Create HintDb finance.
Create Rewrite HintDb finance_rw.

(** ** Errors of the server code

    A server action or route either returns a value or throws an [Error]
    with a message; the message is kept because the routes copy it into
    their responses. *)
Inductive result (A : Type) : Type :=
  | Ok (a : A)
  | Err (msg : string).
Arguments Ok {A} a.
Arguments Err {A} msg.

#[export] Instance result_ret : MRet result := λ A a, Ok a.
#[export] Instance result_bind : MBind result :=
  λ A B f r, match r with Ok a => f a | Err m => Err m end.

Lemma result_bind_Ok {A B} (a : A) (f : A → result B) :
  (Ok a ≫= f) = f a.
Proof. reflexivity. Qed.

Lemma result_bind_Err {A B} (m : string) (f : A → result B) :
  (Err m ≫= f) = Err m.
Proof. reflexivity. Qed.

#[export] Hint Rewrite @result_bind_Ok @result_bind_Err : finance_rw.

(** ** Sums

    [sumZ f l] is [l.reduce((s, x) => s + f(x), 0)] computed exactly, and
    Prisma's [_sum] over the rows [l]. *)
Section Sums.
Context {A : Type}.
Implicit Types (f g : A → Z) (l : list A).

Definition sumZ f l : Z := foldr (λ x acc, (f x + acc)%Z) 0%Z l.

Lemma sumZ_nil f : sumZ f [] = 0%Z.
Proof. reflexivity. Qed.

Lemma sumZ_cons f x l : sumZ f (x :: l) = (f x + sumZ f l)%Z.
Proof. reflexivity. Qed.

Lemma sumZ_app f l1 l2 : sumZ f (l1 ++ l2) = (sumZ f l1 + sumZ f l2)%Z.
  Proof. induction l1 as [|x l1 IH]; simpl; lia. Qed.

Lemma sumZ_ext_in f g l :
    (∀ x, x ∈ l → f x = g x) → sumZ f l = sumZ g l.
  Proof.
    induction l as [|x l IH]; intros Hfg; simpl; [done|].
    rewrite Hfg by set_solver. rewrite IH; [done|].
    intros; apply Hfg; set_solver.
  Qed.

Lemma sumZ_nonneg f l : (∀ x, x ∈ l → 0 ≤ f x)%Z → (0 ≤ sumZ f l)%Z.
  Proof.
    induction l as [|x l IH]; intros Hf; simpl; [lia|].
    assert (0 ≤ f x)%Z by (apply Hf; set_solver).
    assert (0 ≤ sumZ f l)%Z by (apply IH; intros; apply Hf; set_solver).
    lia.
  Qed.

  (** A left fold that adds [f x] to an accumulator ([Array.reduce]) is
      the sum. *)
Lemma fold_left_add_sumZ f l (a : Z) :
    fold_left (λ acc x, (acc + f x)%Z) l a = (a + sumZ f l)%Z.
  Proof. revert a; induction l as [|x l IH]; intros a; simpl; [lia|]. rewrite IH; lia. Qed.

  (** Splitting a list by a boolean test splits its sum. *)
Lemma sumZ_filter_split f (p : A → bool) l :
    (sumZ f (List.filter p l) + sumZ f (List.filter (λ x, negb (p x)) l))%Z = sumZ f l.
  Proof. induction l as [|x l IH]; simpl; [done|]. destruct (p x); simpl; lia. Qed.

  (** The sum of [f] over the elements selected by [p] is the sum of
      [if p x then f x else 0]. *)
Lemma sumZ_filter f (p : A → bool) l :
    sumZ f (List.filter p l) = sumZ (λ x, if p x then f x else 0%Z) l.
  Proof. induction l as [|x l IH]; simpl; [done|]. destruct (p x); simpl; lia. Qed.

Lemma sumZ_sub f g l : sumZ (λ x, f x - g x)%Z l = (sumZ f l - sumZ g l)%Z.
  Proof. induction l as [|x l IH]; simpl; lia. Qed.

Lemma filter_ext_in (p q : A → bool) l :
    (∀ x, x ∈ l → p x = q x) → List.filter p l = List.filter q l.
  Proof.
    induction l as [|x l IH]; intros Hpq; simpl; [done|].
    rewrite (Hpq x) by set_solver. rewrite IH; [done|].
    intros; apply Hpq; set_solver.
  Qed.

Lemma List_filter_filter (p q : A → bool) l :
  List.filter p (List.filter q l) = List.filter (λ x, q x && p x) l.
Proof. induction l as [|x l IH]; simpl; [done|]. destruct (q x); simpl; [destruct (p x)|]; by rewrite IH. Qed.

Lemma existsb_filter (p q : A → bool) l :
  existsb p (List.filter q l) = existsb (λ x, q x && p x) l.
Proof. induction l as [|x l IH]; simpl; [done|]. destruct (q x); simpl; by rewrite IH. Qed.

(** A map that keeps the filter's test and the summand keeps the sum. *)
Lemma sumZ_filter_map_same f (p : A → bool) (g : A → A) l :
  (∀ x, p (g x) = p x) → (∀ x, f (g x) = f x) →
  sumZ f (List.filter p (map g l)) = sumZ f (List.filter p l).
Proof.
  intros Hp Hf. induction l as [|x l IH]; simpl; [done|]. rewrite Hp.
  destruct (p x); simpl; [rewrite Hf|]; lia.
Qed.

Lemma existsb_ext (p q : A → bool) l : (∀ x, p x = q x) → existsb p l = existsb q l.
Proof. intros H. induction l as [|x l IH]; simpl; [done|]. by rewrite H, IH. Qed.

Lemma filter_existsb_false (p : A → bool) l :
  existsb p l = false → List.filter p l = [].
Proof.
  induction l as [|x l IH]; simpl; [done|]. intros H.
  apply orb_false_iff in H as [-> H]. auto.
Qed.

(** Sums, filters and [existsb] do not depend on the order of the rows. *)
Lemma List_filter_Permutation (p : A → bool) l l' :
  l ≡ₚ l' → List.filter p l ≡ₚ List.filter p l'.
Proof.
  induction 1 as [|x l l' _ IH|x y l|l l' l'' _ IH1 _ IH2]; simpl.
  - done.
  - destruct (p x); [by constructor|done].
  - destruct (p x), (p y); try constructor; done.
  - by etrans.
Qed.

Lemma sumZ_Permutation f l l' : l ≡ₚ l' → sumZ f l = sumZ f l'.
Proof. induction 1; simpl; lia. Qed.

Lemma existsb_Permutation (p : A → bool) l l' : l ≡ₚ l' → existsb p l = existsb p l'.
Proof.
  induction 1; simpl; [done|congruence| |congruence].
  by rewrite !orb_assoc, (orb_comm (p y)).
Qed.
End Sums.

#[export] Hint Rewrite @sumZ_nil @sumZ_cons @sumZ_app @fold_left_add_sumZ : finance_rw.
#[export] Hint Resolve sumZ_nonneg : finance.

(** ** Integer division by constants

    The calendar arithmetic of [JsDate] divides by 4, 12, 100, 400 and
    86400000.  [zdiv_elim] names each quotient and remainder and records
    the Euclidean facts, after which [lia] decides the goal. *)
Ltac zdiv_elim_one a c :=
  let q := fresh "q" in
  let r := fresh "r" in
  pose proof (Z.div_mod a c ltac:(lia));
  pose proof (Z.mod_pos_bound a c ltac:(lia));
  set (q := Z.div a c) in *; set (r := Z.modulo a c) in *; clearbody q r.

Ltac zdiv_elim :=
  repeat match goal with
  | |- context [ Z.div ?a ?c ] => zdiv_elim_one a c
  | H : context [ Z.div ?a ?c ] |- _ => zdiv_elim_one a c
  | |- context [ Z.modulo ?a ?c ] => zdiv_elim_one a c
  | H : context [ Z.modulo ?a ?c ] |- _ => zdiv_elim_one a c
  end.

(** Close a goal about concrete values by evaluation. *)
Ltac by_eval := vm_compute; first [reflexivity | congruence | discriminate | lia].

(** Case analysis on every boolean integer comparison of the goal. *)
Ltac zcmp_cases :=
  repeat match goal with
  | |- context [ (?a <? ?b)%Z ] => destruct (Z.ltb_spec a b)
  | |- context [ (?a <=? ?b)%Z ] => destruct (Z.leb_spec a b)
  | |- context [ (?a =? ?b)%Z ] => destruct (Z.eqb_spec a b)
  end.
