(* ===== verification/JsDate.v ===== *)
(** * JsDate: the ECMAScript [Date] arithmetic the code relies on

    A JavaScript [Date] is a time value: milliseconds since 1970-01-01
    00:00 UTC.  The definitions below follow ECMA-262, section 21.4.1
    (Day, TimeWithinDay, DaysInYear, DayFromYear, YearFromTime,
    InLeapYear, DayWithinYear, MonthFromTime, DateFromTime, MakeTime,
    MakeDay, MakeDate) and the methods the repository calls: the
    constructor [new Date(y, m, d, h, mi, s, ms)], [setDate], [setMonth],
    [getFullYear], [getMonth], [getDate].  Local time is UTC (see the
    header of [Prelude]).

    The theorems are the calendar facts the month windows of the code
    depend on: [YearFromDay] is the largest year starting on or before a
    day (the specification's definition), [MakeDay] and the getters are
    inverse, "day 0" of a month is the last day of the month before, and
    the time values of one calendar month form a half-open interval. *)

From S2P Require Import Prelude.
Local Open Scope Z_scope.

Module JsDate.

Definition msPerDay : Z := 86400000.

Definition Day (t : Z) : Z := t / msPerDay.
Definition TimeWithinDay (t : Z) : Z := t mod msPerDay.

Definition DaysInYear (y : Z) : Z :=
  if negb (y mod 4 =? 0) then 365
  else if negb (y mod 100 =? 0) then 366
  else if negb (y mod 400 =? 0) then 365
  else 366.

Definition DayFromYear (y : Z) : Z :=
  365 * (y - 1970) + (y - 1969) / 4 - (y - 1901) / 100 + (y - 1601) / 400.

(** [InLeapYear] as the number it adds to the month boundaries. *)
Definition leap (y : Z) : Z := DaysInYear y - 365.

(** YearFromTime(t) is "the largest integer y such that TimeFromYear(y) <=
    t".  It is computed from the mean year length (146097 days in 400
    years) and corrected by one year at most. *)
Definition year_estimate (d : Z) : Z := 1970 + (400 * d) / 146097.

Definition YearFromDay (d : Z) : Z :=
  let e := year_estimate d in
  if DayFromYear (e + 1) <=? d then e + 1
  else if DayFromYear e <=? d then e
  else e - 1.

(** The first day of month [m] (0 to 12) within a year, [l] = 1 in a leap
    year: the thresholds of MonthFromTime. *)
Definition month_start (l m : Z) : Z :=
  nth (Z.to_nat m) [0; 31; 59; 90; 120; 151; 181; 212; 243; 273; 304; 334; 365] 0
  + (if 2 <=? m then l else 0).

Definition DaysInMonth (y m : Z) : Z :=
  month_start (leap y) (m + 1) - month_start (leap y) m.

(** MonthFromTime, on the day within the year, as the specification's
    chain of cases. *)
Definition MonthFromDWY (l dwy : Z) : Z :=
  if dwy <? 31 then 0
  else if dwy <? 59 + l then 1
  else if dwy <? 90 + l then 2
  else if dwy <? 120 + l then 3
  else if dwy <? 151 + l then 4
  else if dwy <? 181 + l then 5
  else if dwy <? 212 + l then 6
  else if dwy <? 243 + l then 7
  else if dwy <? 273 + l then 8
  else if dwy <? 304 + l then 9
  else if dwy <? 334 + l then 10
  else 11.

Definition DayWithinYear (d : Z) : Z := d - DayFromYear (YearFromDay d).

Definition MonthFromDay (d : Z) : Z :=
  MonthFromDWY (leap (YearFromDay d)) (DayWithinYear d).

(** DateFromTime: the day within the month, from 1. *)
Definition DateFromDay (d : Z) : Z :=
  DayWithinYear d - month_start (leap (YearFromDay d)) (MonthFromDay d) + 1.

Definition YearFromTime (t : Z) : Z := YearFromDay (Day t).
Definition MonthFromTime (t : Z) : Z := MonthFromDay (Day t).
Definition DateFromTime (t : Z) : Z := DateFromDay (Day t).

Definition MakeTime (h mi s ms : Z) : Z := h * 3600000 + mi * 60000 + s * 1000 + ms.

(** MakeDay(year, month, date): the day number of the first day of month
    [month mod 12] of year [year + floor(month / 12)], plus [date - 1];
    months and dates out of range roll over into the neighbouring ones. *)
Definition MakeDay (year month date : Z) : Z :=
  let ym := year + month / 12 in
  let mn := month mod 12 in
  DayFromYear ym + month_start (leap ym) mn + date - 1.

Definition MakeDate (day time : Z) : Z := day * msPerDay + time.

(** [new Date(y, m, d, h, mi, s, ms)] in local time; a year from 0 to 99
    means 1900 to 1999. *)
Definition new_Date (y m d h mi s ms : Z) : Z :=
  let yr := if (0 <=? y) && (y <=? 99) then 1900 + y else y in
  MakeDate (MakeDay yr m d) (MakeTime h mi s ms).

Definition getFullYear (t : Z) : Z := YearFromTime t.
Definition getMonth (t : Z) : Z := MonthFromTime t.
Definition getDate (t : Z) : Z := DateFromTime t.

(** [d.setDate(dt)]: same year, month and time of day, date [dt]. *)
Definition setDate (t dt : Z) : Z :=
  MakeDate (MakeDay (YearFromTime t) (MonthFromTime t) dt) (TimeWithinDay t).

(** [d.setMonth(m)]: same year, date and time of day, month [m]. *)
Definition setMonth (t m : Z) : Z :=
  MakeDate (MakeDay (YearFromTime t) m (DateFromTime t)) (TimeWithinDay t).

(** ** Years *)

Lemma DayFromYear_succ y : DayFromYear (y + 1) = DayFromYear y + DaysInYear y.
Proof.
  unfold DayFromYear, DaysInYear.
  destruct (Z.eqb_spec (y mod 4) 0), (Z.eqb_spec (y mod 100) 0),
    (Z.eqb_spec (y mod 400) 0); simpl; zdiv_elim; lia.
Qed.

Lemma leap_range y : 0 <= leap y <= 1.
Proof. unfold leap, DaysInYear. repeat case_match; lia. Qed.

Lemma DayFromYear_bounds y :
  146097 * (y - 1970) - 607 <= 400 * DayFromYear y <= 146097 * (y - 1970) + 593.
Proof. unfold DayFromYear. zdiv_elim. lia. Qed.

Lemma DayFromYear_mono y1 y2 : y1 <= y2 → DayFromYear y1 <= DayFromYear y2.
Proof. unfold DayFromYear. intros. zdiv_elim. lia. Qed.

Lemma DayFromYear_mono_succ y1 y2 : y1 < y2 → DayFromYear (y1 + 1) <= DayFromYear y2.
Proof. intros. apply DayFromYear_mono. lia. Qed.

(** YearFromDay meets the specification: the year starts on or before the
    day, and the next year starts after it. *)
Lemma YearFromDay_spec d :
  DayFromYear (YearFromDay d) <= d < DayFromYear (YearFromDay d + 1).
Proof.
  unfold YearFromDay, year_estimate.
  assert (He : 146097 * (400 * d / 146097) <= 400 * d
               < 146097 * (400 * d / 146097) + 146097) by (zdiv_elim; lia).
  set (e := 1970 + 400 * d / 146097).
  replace (400 * d / 146097) with (e - 1970) in He by (subst e; lia).
  pose proof (DayFromYear_bounds (e - 1)).
  pose proof (DayFromYear_bounds (e + 2)).
  destruct (Z.leb_spec (DayFromYear (e + 1)) d).
  { replace (e + 1 + 1) with (e + 2) by lia. lia. }
  destruct (Z.leb_spec (DayFromYear e) d); [lia|].
  replace (e - 1 + 1) with e by lia. lia.
Qed.

Lemma YearFromDay_unique y d :
  DayFromYear y <= d < DayFromYear (y + 1) → YearFromDay d = y.
Proof.
  intros Hd. pose proof (YearFromDay_spec d) as Hs.
  destruct (Z.lt_trichotomy (YearFromDay d) y) as [Hlt|[Heq|Hgt]]; [|done|].
  - pose proof (DayFromYear_mono_succ _ _ Hlt). lia.
  - pose proof (DayFromYear_mono_succ _ _ Hgt). lia.
Qed.

(** ** Months *)

(** Split a month index known to lie in [lo, hi] into its values. *)
Ltac month_cases m :=
  let H := fresh in
  assert (H : m = 0 ∨ m = 1 ∨ m = 2 ∨ m = 3 ∨ m = 4 ∨ m = 5 ∨ m = 6
              ∨ m = 7 ∨ m = 8 ∨ m = 9 ∨ m = 10 ∨ m = 11) by lia;
  destruct_or! H; subst m.

(** Walk the chain of [MonthFromDWY], closing each case by arithmetic. *)
Ltac month_chain :=
  unfold MonthFromDWY;
  repeat (match goal with
          | |- context [ if (?a <? ?b) then _ else _ ] => destruct (Z.ltb_spec a b)
          end; cbn -[Z.add Z.sub] in *; try lia).

Lemma month_start_0 l : month_start l 0 = 0.
Proof. reflexivity. Qed.

Lemma month_start_12 l : month_start l 12 = 365 + l.
Proof. unfold month_start; simpl; lia. Qed.

Lemma month_start_bounds l m :
  0 <= l <= 1 → 0 <= m <= 11 →
  0 <= month_start l m ∧ month_start l m + 28 <= month_start l (m + 1) <= 365 + l
  ∧ month_start l (m + 1) <= month_start l m + 31.
Proof. intros Hl Hm. month_cases m; unfold month_start; simpl; lia. Qed.

Lemma DaysInMonth_range y m : 0 <= m <= 11 → 28 <= DaysInMonth y m <= 31.
Proof.
  intros Hm. unfold DaysInMonth.
  pose proof (month_start_bounds (leap y) m (leap_range y) Hm). lia.
Qed.

(** MonthFromTime picks the month whose range holds the day. *)
Lemma MonthFromDWY_spec l dwy :
  0 <= l <= 1 → 0 <= dwy < 365 + l →
  0 <= MonthFromDWY l dwy <= 11 ∧
  month_start l (MonthFromDWY l dwy) <= dwy < month_start l (MonthFromDWY l dwy + 1).
Proof. intros Hl Hd. month_chain; unfold month_start; simpl; lia. Qed.

Lemma MonthFromDWY_unique l m dwy :
  0 <= l <= 1 → 0 <= m <= 11 →
  month_start l m <= dwy < month_start l (m + 1) → MonthFromDWY l dwy = m.
Proof.
  intros Hl Hm. month_cases m; unfold month_start; simpl; intros Hd; month_chain.
Qed.

(** ** MakeDay and the getters are inverse *)

Lemma MakeDay_in_range y m d :
  0 <= m <= 11 → MakeDay y m d = DayFromYear y + month_start (leap y) m + d - 1.
Proof.
  intros Hm. unfold MakeDay.
  rewrite (Z.div_small m 12), (Z.mod_small m 12), Z.add_0_r by lia. reflexivity.
Qed.

Lemma DayFromYear_next y : DayFromYear (y + 1) = DayFromYear y + 365 + leap y.
Proof. rewrite DayFromYear_succ. unfold leap. lia. Qed.

(** A valid calendar date is read back by the getters. *)
Lemma MakeDay_getters y m d :
  0 <= m <= 11 → 1 <= d <= DaysInMonth y m →
  YearFromDay (MakeDay y m d) = y ∧ MonthFromDay (MakeDay y m d) = m
  ∧ DateFromDay (MakeDay y m d) = d.
Proof.
  intros Hm Hd. rewrite MakeDay_in_range by done.
  unfold DaysInMonth in Hd.
  pose proof (month_start_bounds (leap y) m (leap_range y) Hm).
  pose proof (DayFromYear_next y). pose proof (leap_range y).
  assert (Hy : YearFromDay (DayFromYear y + month_start (leap y) m + d - 1) = y)
    by (apply YearFromDay_unique; lia).
  assert (Hmo : MonthFromDay (DayFromYear y + month_start (leap y) m + d - 1) = m).
  { unfold MonthFromDay, DayWithinYear. rewrite Hy.
    apply MonthFromDWY_unique; [done|done|lia]. }
  split; [done|split; [done|]].
  unfold DateFromDay, DayWithinYear. rewrite Hmo, Hy. lia.
Qed.

(** Every day number is the [MakeDay] of its year, month and date, and
    the date lies within the month. *)
Lemma getters_range dn :
  0 <= MonthFromDay dn <= 11 ∧
  1 <= DateFromDay dn <= DaysInMonth (YearFromDay dn) (MonthFromDay dn).
Proof.
  pose proof (YearFromDay_spec dn). pose proof (DayFromYear_next (YearFromDay dn)).
  pose proof (leap_range (YearFromDay dn)).
  destruct (MonthFromDWY_spec (leap (YearFromDay dn)) (DayWithinYear dn)) as [Hm Hb];
    [done|unfold DayWithinYear; lia|].
  unfold DateFromDay, DaysInMonth, MonthFromDay. lia.
Qed.

Lemma getters_MakeDay dn :
  MakeDay (YearFromDay dn) (MonthFromDay dn) (DateFromDay dn) = dn.
Proof.
  destruct (getters_range dn) as [Hm _].
  rewrite MakeDay_in_range by done.
  unfold DateFromDay, DayWithinYear. lia.
Qed.

(** Month arithmetic: the first day of the next month is the first day of
    this one plus the length of this one, for any month index (the year
    rolls over after December and before January). *)
Lemma month_succ_div m :
  (m mod 12 = 11 ∧ (m + 1) / 12 = m / 12 + 1 ∧ (m + 1) mod 12 = 0)
  ∨ (0 <= m mod 12 < 11 ∧ (m + 1) / 12 = m / 12 ∧ (m + 1) mod 12 = m mod 12 + 1).
Proof. zdiv_elim. lia. Qed.

Lemma MakeDay_succ_month y m :
  MakeDay y (m + 1) 1 = MakeDay y m 1 + DaysInMonth (y + m / 12) (m mod 12).
Proof.
  unfold MakeDay, DaysInMonth.
  destruct (month_succ_div m) as [(H11 & -> & ->)|(_ & -> & ->)].
  - rewrite H11, Z.add_assoc, DayFromYear_next, month_start_0, month_start_12.
    unfold leap. lia.
  - lia.
Qed.

(** "Day 0" of month [m + 1] is the last day of month [m]. *)
Lemma MakeDay_day0 y m :
  MakeDay y (m + 1) 0 = MakeDay y m (DaysInMonth (y + m / 12) (m mod 12)).
Proof.
  pose proof (MakeDay_succ_month y m) as H. unfold MakeDay in *. lia.
Qed.

Lemma Day_MakeDate dn time :
  0 <= time < msPerDay → Day (MakeDate dn time) = dn ∧ TimeWithinDay (MakeDate dn time) = time.
Proof.
  intros Ht. unfold Day, TimeWithinDay, MakeDate, msPerDay in *.
  split; zdiv_elim; nia.
Qed.

(** ** Calendar months as intervals of time values *)

Lemma Day_bounds t : Day t * msPerDay <= t < Day t * msPerDay + msPerDay.
Proof. unfold Day, msPerDay. zdiv_elim. lia. Qed.

Lemma MakeDay_next_month y m :
  0 <= m <= 11 → MakeDay y (m + 1) 1 = MakeDay y m 1 + DaysInMonth y m.
Proof.
  intros Hm. rewrite MakeDay_succ_month.
  rewrite (Z.div_small m 12), (Z.mod_small m 12), Z.add_0_r by lia. done.
Qed.

(** The time values whose [getFullYear()] is [y] and whose [getMonth()]
    is [m] are those from midnight of the first of the month up to, and
    excluding, midnight of the first of the next month. *)
Lemma month_window y m t :
  0 <= m <= 11 →
  (YearFromTime t = y ∧ MonthFromTime t = m) ↔
  MakeDate (MakeDay y m 1) 0 <= t < MakeDate (MakeDay y (m + 1) 1) 0.
Proof.
  intros Hm. unfold YearFromTime, MonthFromTime, MakeDate.
  pose proof (Day_bounds t) as Ht. set (dn := Day t) in *.
  rewrite (MakeDay_next_month y m Hm).
  assert (Hdim := DaysInMonth_range y m Hm).
  unfold msPerDay in *. split.
  - intros [<- <-].
    pose proof (getters_MakeDay dn) as Hmk. destruct (getters_range dn) as [Hm' Hd].
    rewrite MakeDay_in_range in Hmk by done.
    rewrite (MakeDay_in_range _ _ 1) by done. lia.
  - intros Hwin.
    assert (Hdn : MakeDay y m 1 <= dn < MakeDay y m 1 + DaysInMonth y m) by lia.
    assert (Heq : dn = MakeDay y m (dn - MakeDay y m 1 + 1))
      by (rewrite !MakeDay_in_range by done; lia).
    destruct (MakeDay_getters y m (dn - MakeDay y m 1 + 1)) as (Hy & Hmo & _); [done|lia|].
    rewrite <- Heq in Hy, Hmo. done.
Qed.

(** A time value is its day times [msPerDay] plus its time within the day. *)
Lemma time_split t :
  t = Day t * msPerDay + TimeWithinDay t ∧ 0 <= TimeWithinDay t < msPerDay.
Proof. unfold Day, TimeWithinDay, msPerDay. zdiv_elim. lia. Qed.

(** The day of a time value is the first day of its month plus its date
    minus one, and the date lies within the month. *)
Lemma Day_decompose t :
  Day t = MakeDay (YearFromTime t) (MonthFromTime t) 1 + DateFromTime t - 1
  ∧ 0 <= MonthFromTime t <= 11
  ∧ 1 <= DateFromTime t <= DaysInMonth (YearFromTime t) (MonthFromTime t).
Proof.
  unfold YearFromTime, MonthFromTime, DateFromTime.
  destruct (getters_range (Day t)) as [Hm Hd].
  pose proof (getters_MakeDay (Day t)) as Hmk.
  rewrite MakeDay_in_range in Hmk by done. rewrite MakeDay_in_range by done.
  split; [lia|done].
Qed.

(** With a year of 100 or more, [new Date(y, m, d)] is midnight of
    [MakeDay y m d]. *)
Lemma new_Date_midnight y m d :
  100 <= y → new_Date y m d 0 0 0 0 = MakeDate (MakeDay y m d) 0.
Proof.
  intros Hy. unfold new_Date.
  rewrite (proj2 (Z.leb_gt y 99)) by lia. rewrite andb_false_r. reflexivity.
Qed.

Lemma MakeDate_0 dn : MakeDate dn 0 = dn * msPerDay.
Proof. unfold MakeDate. lia. Qed.

(** [MakeDay] is linear in the date. *)
Lemma MakeDay_date y m d : MakeDay y m d = MakeDay y m 1 + d - 1.
Proof. unfold MakeDay. lia. Qed.

(** With a year of 100 or more, [new Date(y, m, d, h, mi, s, ms)] is
    [MakeDate (MakeDay y m d) (MakeTime h mi s ms)]. *)
Lemma new_Date_eq y m d h mi s ms :
  100 <= y → new_Date y m d h mi s ms = MakeDate (MakeDay y m d) (MakeTime h mi s ms).
Proof.
  intros Hy. unfold new_Date.
  rewrite (proj2 (Z.leb_gt y 99)) by lia. rewrite andb_false_r. reflexivity.
Qed.

(** [MakeDay] depends on the month through the year it falls in and its
    index within that year. *)
Lemma MakeDay_normalize y m d : MakeDay y m d = MakeDay (y + m / 12) (m mod 12) d.
Proof.
  unfold MakeDay. rewrite (Z.div_small (m mod 12) 12), (Z.mod_small (m mod 12) 12)
    by (zdiv_elim; lia).
  rewrite Z.add_0_r. reflexivity.
Qed.

(** The month before month [m] of year [y], for [0 <= m <= 11]. *)
Definition prevYear (y m : Z) : Z := if m =? 0 then y - 1 else y.
Definition prevMonth (m : Z) : Z := if m =? 0 then 11 else m - 1.

Lemma MakeDay_prev y m d :
  0 <= m <= 11 → MakeDay y (m - 1) d = MakeDay (prevYear y m) (prevMonth m) d
  ∧ MakeDay (prevYear y m) (prevMonth m + 1) 1 = MakeDay y m 1.
Proof.
  intros Hm. unfold prevYear, prevMonth. rewrite (MakeDay_normalize y (m - 1) d).
  destruct (Z.eqb_spec m 0) as [->|Hne].
  - split; [reflexivity|]. rewrite MakeDay_normalize.
    replace ((11 + 1) / 12) with 1 by reflexivity. replace ((11 + 1) mod 12) with 0 by reflexivity.
    f_equal. lia.
  - rewrite (Z.div_small (m - 1) 12), (Z.mod_small (m - 1) 12), Z.add_0_r by lia.
    split; [reflexivity|]. f_equal. lia.
Qed.

(** [setMonth(getMonth() - 1)] on a time value of day [D] of month [M]:
    when day [D] exists in the month before, the result is that day of
    the month before; otherwise it rolls over into month [M], on day [D]
    minus the length of the month before. *)
Lemma MakeDay_prev_getters y m d :
  0 <= m <= 11 → 1 <= d <= DaysInMonth y m →
  let dimp := DaysInMonth (prevYear y m) (prevMonth m) in
  let r := MakeDay y (m - 1) d in
  (d <= dimp → YearFromDay r = prevYear y m ∧ MonthFromDay r = prevMonth m ∧ DateFromDay r = d)
  ∧ (dimp < d → YearFromDay r = y ∧ MonthFromDay r = m ∧ DateFromDay r = d - dimp).
Proof.
  intros HM HD. cbv zeta. destruct (MakeDay_prev y m d HM) as [-> Hn].
  assert (Hpm : 0 <= prevMonth m <= 11) by (unfold prevMonth; destruct (Z.eqb_spec m 0); lia).
  pose proof (DaysInMonth_range (prevYear y m) _ Hpm).
  pose proof (DaysInMonth_range y m HM).
  split; intros Hd; [apply MakeDay_getters; [done|lia]|].
  assert (Hsh : MakeDay (prevYear y m) (prevMonth m) d
                = MakeDay y m (d - DaysInMonth (prevYear y m) (prevMonth m))).
  { rewrite MakeDay_date, (MakeDay_date y m), <- Hn, MakeDay_next_month by done. lia. }
  rewrite Hsh. apply MakeDay_getters; [done|lia].
Qed.

(** [t.setMonth(getMonth(t) - 1)]: when the date of [t] exists in the
    previous month, the result is that date of the previous month;
    otherwise it overflows by the missing days into the month of [t]. *)
Lemma setMonth_prev t :
  let Y := YearFromTime t in let M := MonthFromTime t in let D := DateFromTime t in
  let dimp := DaysInMonth (prevYear Y M) (prevMonth M) in
  let r := setMonth t (M - 1) in
  (D <= dimp → YearFromTime r = prevYear Y M ∧ MonthFromTime r = prevMonth M ∧ DateFromTime r = D)
  ∧ (dimp < D → YearFromTime r = Y ∧ MonthFromTime r = M ∧ DateFromTime r = D - dimp).
Proof.
  cbv zeta. destruct (Day_decompose t) as (_ & HM & HD).
  unfold setMonth.
  unfold YearFromTime, MonthFromTime, DateFromTime in *.
  rewrite (proj1 (Day_MakeDate _ _ (proj2 (time_split t)))).
  apply MakeDay_prev_getters; done.
Qed.

#[export] Hint Resolve leap_range : finance.

End JsDate.
