(* ===== verification/JsNumber.v ===== *)
(** * JsNumber: the JavaScript numbers of the percentage computations

    The code computes [(totalExpenses / budgetAmount) * 100] and compares
    it with a threshold ([>= 80], [>= 90], ...).  With amounts in minor
    units the quotient is a rational number; JavaScript also yields
    [Infinity], [-Infinity] or [NaN] when the divisor is zero, and every
    comparison with [NaN] is false.  [JsNum] keeps those four outcomes;
    a finite value is a fraction [num / den] with a positive denominator,
    computed exactly (the rounding of doubles is not modelled).

    The lemmas characterise the comparison of a quotient with a threshold
    as an integer inequality, which is what the alert and progress
    theorems use. *)

From S2P Require Import Prelude.
Local Open Scope Z_scope.

Inductive JsNum :=
  | Finite (num : Z) (den : positive)
  | PosInfinity
  | NegInfinity
  | NaN.

(** [a / b] on two integers. *)
Definition js_div (a b : Z) : JsNum :=
  match b with
  | Z0 => if 0 <? a then PosInfinity else if a <? 0 then NegInfinity else NaN
  | Zpos d => Finite a d
  | Zneg d => Finite (- a) d
  end.

(** [x * k] for an integer [k]. *)
Definition js_mul (x : JsNum) (k : Z) : JsNum :=
  match x with
  | Finite n d => Finite (n * k) d
  | PosInfinity => if 0 <? k then PosInfinity else if k <? 0 then NegInfinity else NaN
  | NegInfinity => if 0 <? k then NegInfinity else if k <? 0 then PosInfinity else NaN
  | NaN => NaN
  end.

(** [x >= c] for an integer [c]. *)
Definition js_ge (x : JsNum) (c : Z) : bool :=
  match x with
  | Finite n d => c * Zpos d <=? n
  | PosInfinity => true
  | NegInfinity | NaN => false
  end.

(** [isNaN(x)]. *)
Definition js_isNaN (x : JsNum) : bool := match x with NaN => true | _ => false end.

(** [x <= c] for an integer [c]; every comparison with [NaN] is false. *)
Definition js_le (x : JsNum) (c : Z) : bool :=
  match x with
  | Finite n d => n <=? c * Zpos d
  | NegInfinity => true
  | PosInfinity | NaN => false
  end.

(** [(a / b) * 100 >= c] with a positive divisor is [100 a >= c b]. *)
Lemma js_percent_ge_pos a b c :
  0 < b → js_ge (js_mul (js_div a b) 100) c = (c * b <=? a * 100).
Proof. intros Hb. destruct b as [|d|d]; [lia| |lia]. reflexivity. Qed.

(** With a zero divisor the percentage is [Infinity] when the dividend
    is positive and [NaN] when it is zero. *)
Lemma js_percent_zero a :
  js_mul (js_div a 0) 100 =
    if 0 <? a then PosInfinity else if a <? 0 then NegInfinity else NaN.
Proof. unfold js_div. destruct (0 <? a), (a <? 0); reflexivity. Qed.

#[export] Hint Rewrite js_percent_zero : finance_rw.
