(* ===== verification/JsString.v ===== *)
(** * JsString: the ECMAScript string/number conversions the client uses

    The budget card fills its input with [amount.toString()] and reads it
    back with [parseFloat(newBudget)].  This file models:
    - [parseFloat] (ECMA-262 19.2.4): skip leading white space, take the
      longest prefix that is a [StrDecimalLiteral] (an optional sign, then
      [Infinity] or digits with an optional fraction and exponent), [NaN]
      when there is none.  The value is kept exact, as a [JsNum]; the
      rounding to the nearest double, and the overflow of huge exponents
      to [Infinity], are not modelled.  White space is the ASCII part of
      [StrWhiteSpaceChar] (tab, line feed, vertical tab, form feed,
      carriage return, space).
    - [Number.prototype.toString] on an amount of cents: the decimal
      digits of [c / 100] without trailing zeros.  This is what JavaScript
      prints for the double nearest to [c / 100] when [|c| < 10^15] (it
      has at most 15 significant digits, so the shortest round-tripping
      representation is its exact decimal).

    The theorem [parseFloat_cents_toString] is the round trip: reading
    back the printed amount gives the amount. *)

From S2P Require Import Prelude JsNumber.
From Stdlib Require Import Ascii.
Local Open Scope Z_scope.

Module JsString.

(** ** [parseFloat] *)

Definition is_ws (c : ascii) : bool :=
  match nat_of_ascii c with
  | 9 | 10 | 11 | 12 | 13 | 32 => true
  | _ => false
  end%nat.

Fixpoint trim_start (s : string) : string :=
  match s with
  | String c s' => if is_ws c then trim_start s' else s
  | EmptyString => EmptyString
  end.

Definition digit_val (c : ascii) : option Z :=
  let n := Z.of_nat (nat_of_ascii c) in
  if (48 <=? n) && (n <=? 57) then Some (n - 48) else None.

(** The longest run of decimal digits at the start of [s]: the value
    [acc * 10^k + digits], the number of digits added to [n], and the
    rest of the string. *)
Fixpoint digits (s : string) (acc : Z) (n : nat) : Z * nat * string :=
  match s with
  | String c s' =>
      match digit_val c with
      | Some d => digits s' (acc * 10 + d) (S n)
      | None => (acc, n, s)
      end
  | EmptyString => (acc, n, EmptyString)
  end.

Definition is_char (c : ascii) (k : nat) : bool := Nat.eqb (nat_of_ascii c) k.

(** [ExponentPart]: [e] or [E], an optional sign and at least one digit;
    without a digit it is not part of the literal (exponent 0). *)
Definition parse_exponent (s : string) : Z :=
  match s with
  | String c s' =>
      if is_char c 101 || is_char c 69 then
        let '(sg, r) :=
          match s' with
          | String c' r => if is_char c' 43 then (1, r) else if is_char c' 45 then (-1, r) else (1, s')
          | EmptyString => (1, s')
          end in
        let '(v, n, _) := digits r 0 0 in
        if Nat.eqb n 0 then 0 else sg * v
      else 0
  | EmptyString => 0
  end.

(** [m * 10^e] as an exact number. *)
Definition scale (m e : Z) : JsNum :=
  if 0 <=? e then Finite (m * 10 ^ e) 1 else Finite m (Z.to_pos (10 ^ (- e))).

(** [StrUnsignedDecimalLiteral]: [Infinity], or [DecimalDigits] with an
    optional [.] and fraction, or [.] and a fraction; then an optional
    exponent. *)
Definition parse_unsigned (s : string) : option JsNum :=
  if String.prefix "Infinity" s then Some PosInfinity else
  let '(ip, ni, r1) := digits s 0 0 in
  let '(m, nf, r2) :=
    match r1 with
    | String c r => if is_char c 46 then digits r ip 0 else (ip, 0%nat, r1)
    | EmptyString => (ip, 0%nat, r1)
    end in
  if Nat.eqb (ni + nf) 0 then None else Some (scale m (parse_exponent r2 - Z.of_nat nf)).

Definition js_neg (x : JsNum) : JsNum :=
  match x with
  | Finite n d => Finite (- n) d
  | PosInfinity => NegInfinity
  | NegInfinity => PosInfinity
  | NaN => NaN
  end.

Definition parseFloat (s : string) : JsNum :=
  match trim_start s with
  | String c r =>
      if is_char c 45 then match parse_unsigned r with Some v => js_neg v | None => NaN end
      else if is_char c 43 then default NaN (parse_unsigned r)
      else default NaN (parse_unsigned (String c r))
  | EmptyString => NaN
  end.

(** ** [Number.prototype.toString] on cents *)

Definition digit_char (d : Z) : ascii := ascii_of_nat (Z.to_nat (48 + d)).

(** The decimal digits of [n >= 0] in front of [acc]; the fuel (the
    number of bits of [n]) is at least the number of decimal digits. *)
Fixpoint decimal_aux (fuel : nat) (n : Z) (acc : string) : string :=
  match fuel with
  | O => acc
  | S f =>
      let acc' := String (digit_char (n mod 10)) acc in
      if n <? 10 then acc' else decimal_aux f (n / 10) acc'
  end.

Definition decimal (n : Z) (acc : string) : string :=
  decimal_aux (S (Z.to_nat (Z.log2 n))) n acc.

(** [(c / 100).toString()]: sign, integer part, and the fraction without
    trailing zeros. *)
Definition cents_toString (c : Z) : string :=
  let a := Z.abs c in
  let f := a mod 100 in
  let frac :=
    if f =? 0 then EmptyString
    else if f mod 10 =? 0 then String "." (String (digit_char (f / 10)) EmptyString)
    else String "." (String (digit_char (f / 10)) (String (digit_char (f mod 10)) EmptyString)) in
  let body := decimal (a / 100) frac in
  if c <? 0 then String "-" body else body.

(** Two numbers with the same value. *)
Definition js_same (x y : JsNum) : Prop :=
  match x, y with
  | Finite n d, Finite n' d' => n * Zpos d' = n' * Zpos d
  | PosInfinity, PosInfinity | NegInfinity, NegInfinity | NaN, NaN => True
  | _, _ => False
  end.

(** ** The round trip *)

Lemma digit_val_char d : 0 <= d <= 9 → digit_val (digit_char d) = Some d.
Proof.
  intros Hd. assert (d = 0 ∨ d = 1 ∨ d = 2 ∨ d = 3 ∨ d = 4 ∨ d = 5 ∨ d = 6 ∨ d = 7 ∨ d = 8 ∨ d = 9)
    as Hc by lia.
  destruct_or! Hc; subst; reflexivity.
Qed.

Lemma digits_digit d s acc n :
  0 <= d <= 9 → digits (String (digit_char d) s) acc n = digits s (acc * 10 + d) (S n).
Proof. intros Hd. cbn [digits]. by rewrite digit_val_char. Qed.

Lemma decimal_aux_S f n acc :
  decimal_aux (S f) n acc =
  if n <? 10 then String (digit_char (n mod 10)) acc
  else decimal_aux f (n / 10) (String (digit_char (n mod 10)) acc).
Proof. reflexivity. Qed.

(** Reading back the digits [decimal_aux] prints. *)
Lemma digits_decimal_aux f n acc a k :
  0 <= n < 10 ^ Z.of_nat (S f) →
  ∃ j, (1 <= j)%nat ∧
       digits (decimal_aux (S f) n acc) a k = digits acc (a * 10 ^ Z.of_nat j + n) (k + j).
Proof.
  revert n acc. induction f as [|f IH]; intros n acc Hn; rewrite decimal_aux_S.
  - rewrite (proj2 (Z.ltb_lt n 10)) by (cbn in Hn; lia). exists 1%nat. split; [lia|].
    rewrite digits_digit by (zdiv_elim; lia). rewrite Z.mod_small by (cbn in Hn; lia).
    f_equal; lia.
  - destruct (Z.ltb_spec n 10) as [Hlt|Hge].
    + exists 1%nat. split; [lia|].
      rewrite digits_digit by (zdiv_elim; lia). rewrite Z.mod_small by lia.
      f_equal; lia.
    + rewrite Nat2Z.inj_succ, Z.pow_succ_r in Hn by lia.
      destruct (IH (n / 10) (String (digit_char (n mod 10)) acc)) as (j & Hj & ->).
      { split; [apply Z.div_pos; lia|]. apply Z.div_lt_upper_bound; lia. }
      exists (S j). split; [lia|]. rewrite digits_digit by (zdiv_elim; lia).
      rewrite Nat2Z.inj_succ, Z.pow_succ_r by lia. f_equal; zdiv_elim; nia.
Qed.

Lemma digits_decimal n acc a k :
  0 <= n → ∃ j, (1 <= j)%nat ∧ digits (decimal n acc) a k = digits acc (a * 10 ^ Z.of_nat j + n) (k + j).
Proof.
  intros Hn. apply digits_decimal_aux. split; [done|].
  rewrite Nat2Z.inj_succ, Z2Nat.id by (apply Z.log2_nonneg).
  destruct (Z.eq_dec n 0) as [->|Hn0]; [cbn; lia|].
  destruct (Z.log2_spec n) as [_ Hlt]; [lia|].
  eapply Z.lt_le_trans; [exact Hlt|]. apply Z.pow_le_mono_l.
  pose proof (Z.log2_nonneg n). lia.
Qed.

Lemma digits_nondigit s a k :
  (∀ c r, s = String c r → digit_val c = None) → digits s a k = (a, k, s).
Proof. destruct s as [|c r]; cbn; [done|]. intros H. by rewrite (H c r eq_refl). Qed.

(** A digit is not white space, not a sign, and does not start
    [Infinity]. *)
Lemma digit_not_special c d s :
  digit_val c = Some d →
  is_ws c = false ∧ is_char c 45 = false ∧ is_char c 43 = false
  ∧ String.prefix "Infinity" (String c s) = false.
Proof.
  unfold digit_val, is_ws, is_char.
  destruct (48 <=? Z.of_nat (nat_of_ascii c)) eqn:H1, (Z.of_nat (nat_of_ascii c) <=? 57) eqn:H2;
    cbn [andb]; intros Hd; try discriminate.
  apply Z.leb_le in H1, H2.
  cbn [String.prefix]. destruct (ascii_dec "I" c) as [<-|_]; [change (nat_of_ascii "I") with 73%nat in H2; lia|].
  assert (nat_of_ascii c = 48 ∨ nat_of_ascii c = 49 ∨ nat_of_ascii c = 50 ∨ nat_of_ascii c = 51
          ∨ nat_of_ascii c = 52 ∨ nat_of_ascii c = 53 ∨ nat_of_ascii c = 54 ∨ nat_of_ascii c = 55
          ∨ nat_of_ascii c = 56 ∨ nat_of_ascii c = 57)%nat as Hn by lia.
  destruct_or! Hn; rewrite Hn; done.
Qed.

Lemma digits_count s a k : (k <= (digits s a k).1.2)%nat.
Proof.
  revert a k. induction s as [|c s IH]; intros a k; cbn; [lia|].
  destruct (digit_val c); [|cbn; lia]. specialize (IH (a * 10 + z) (S k)). lia.
Qed.

Lemma digits_head s a k :
  (k < (digits s a k).1.2)%nat → ∃ c r d, s = String c r ∧ digit_val c = Some d.
Proof. destruct s as [|c r]; cbn; [lia|]. destruct (digit_val c) eqn:Hc; [eauto|cbn; lia]. Qed.

Lemma decimal_head n acc :
  0 <= n → ∃ c r d, decimal n acc = String c r ∧ digit_val c = Some d.
Proof.
  intros Hn. apply (digits_head _ 0 0). destruct (digits_decimal n acc 0 0 Hn) as (j & Hj & ->).
  pose proof (digits_count acc (0 * 10 ^ Z.of_nat j + n) (0 + j)). lia.
Qed.

(** [parse_unsigned] on printed digits followed by a non-digit. *)
Lemma parse_unsigned_decimal q frac :
  0 <= q → (∀ c r, frac = String c r → digit_val c = None) →
  parse_unsigned (decimal q frac) =
    let '(m, nf, r2) :=
      match frac with
      | String c r => if is_char c 46 then digits r q 0 else (q, 0%nat, frac)
      | EmptyString => (q, 0%nat, frac)
      end in
    Some (scale m (parse_exponent r2 - Z.of_nat nf)).
Proof.
  intros Hq Hf. unfold parse_unsigned.
  destruct (decimal_head q frac Hq) as (c & r & d & Hs & Hc).
  replace (String.prefix "Infinity" (decimal q frac)) with false
    by (rewrite Hs; symmetry; apply (digit_not_special c d r Hc)).
  destruct (digits_decimal q frac 0 0 Hq) as (j & Hj & ->). rewrite digits_nondigit by done.
  replace (0 * 10 ^ Z.of_nat j + q) with q by lia.
  destruct (match frac with String c r => _ | EmptyString => _ end) as [[m nf] r2].
  rewrite (proj2 (Nat.eqb_neq _ _)) by lia. reflexivity.
Qed.

(** Reading back a printed amount gives the amount:
    [parseFloat((c / 100).toString())] is [c / 100] for every amount of
    cents [c]. *)
Lemma parseFloat_cents_toString c : js_same (parseFloat (cents_toString c)) (Finite c 100).
Proof.
  unfold cents_toString. set (a := Z.abs c). set (f := a mod 100).
  assert (Hq : 0 <= a / 100) by (apply Z.div_pos; lia).
  assert (Hf : 0 <= f < 100) by (apply Z.mod_pos_bound; lia).
  assert (Ha : a = 100 * (a / 100) + f) by (apply Z.div_mod; lia).
  set (frac := if f =? 0 then _ else _).
  assert (Hbody : ∃ m e, parse_unsigned (decimal (a / 100) frac) = Some (Finite m e)
                         ∧ m * 100 = a * Zpos e).
  { rewrite parse_unsigned_decimal by (done || (unfold frac; intros c' r Hr;
      destruct (f =? 0), (f mod 10 =? 0); simplify_eq; reflexivity)).
    unfold frac. destruct (Z.eqb_spec f 0) as [Hf0|Hf0].
    - exists (a / 100 * 1), 1%positive. split; [reflexivity|]. lia.
    - destruct (Z.eqb_spec (f mod 10) 0) as [Hm|Hm]; cbn [is_char nat_of_ascii].
      + rewrite digits_digit by (zdiv_elim; lia).
        exists (a / 100 * 10 + f / 10), 10%positive. split; [reflexivity|]. zdiv_elim. lia.
      + rewrite !digits_digit by (zdiv_elim; lia).
        exists ((a / 100 * 10 + f / 10) * 10 + f mod 10), 100%positive. split; [reflexivity|].
        zdiv_elim. lia. }
  destruct Hbody as (m & e & Hp & Hm).
  destruct (decimal_head (a / 100) frac Hq) as (ch & r & d & Hs & Hc).
  destruct (digit_not_special ch d r Hc) as (Hws & Hneg & Hpos & _).
  destruct (Z.ltb_spec c 0) as [Hlt|Hge]; unfold parseFloat.
  - cbn [trim_start]. change (is_ws "-") with false. cbn iota. change (is_char "-" 45) with true.
    cbn iota beta. rewrite Hp. cbn. nia.
  - rewrite Hs. cbn [trim_start]. rewrite Hws, Hneg, Hpos, <- Hs, Hp. cbn. nia.
Qed.

(** A number equal to a positive amount is a number, and positive. *)
Lemma js_same_pos x c : js_same x (Finite c 100) → 0 < c → js_isNaN x = false ∧ js_le x 0 = false.
Proof. destruct x as [n d| | |]; cbn; try done. intros H Hc. split; [done|]. apply Z.leb_gt. nia. Qed.

End JsString.
