(* ===== verification/Ledger.v ===== *)
(** * Ledger: the Prisma rows and the queries the code issues

    The repository's Prisma schema (not under [src/]) declares the tables
    [User], [Account], [Transaction] and [Budget]; the fields below are
    those the code under [src/] reads or writes, with the enums of the
    schema.  The store is a record of tables, each a list of rows in
    insertion order.  The queries are Prisma's, as the code calls them:
    - [findUnique]/[findFirst] with an equality filter: the first row that
      matches;
    - [aggregate] with [_sum: { amount: true }]: [null] when no row
      matches, the sum of the amounts otherwise;
    - [budget.upsert] keyed by [userId]: update the user's row, or append
      a new one with a fresh id.
    The theorems state what the code relies on: [upsert] writes a row
    that [findFirst] then returns, keeps one budget row per user, and
    leaves the other users' rows alone. *)

From S2P Require Import Prelude JsDate.
Local Open Scope Z_scope.

Inductive TransactionType := INCOME | EXPENSE.
Inductive AccountType := CURRENT | SAVINGS.
Inductive RecurringInterval := DAILY | WEEKLY | MONTHLY | YEARLY.

#[export] Instance TransactionType_eq_dec : EqDecision TransactionType.
Proof. solve_decision. Defined.
#[export] Instance AccountType_eq_dec : EqDecision AccountType.
Proof. solve_decision. Defined.
#[export] Instance RecurringInterval_eq_dec : EqDecision RecurringInterval.
Proof. solve_decision. Defined.

Module User.
Record t := mk {
    id : string;
    clerkUserId : string;
    name : string;
    email : string;
  }.
End User.

Module Account.
Record t := mk {
    id : string;
    name : string;
    type : AccountType;
    balance : Z;
    isDefault : bool;
    userId : string;
  }.
End Account.

Module Transaction.
Record t := mk {
    id : string;
    type : TransactionType;
    amount : Z;
    description : option string;
    date : Z;
    category : string;
    isRecurring : bool;
    recurringInterval : option RecurringInterval;
    nextRecurringDate : option Z;
    userId : string;
    accountId : string;
  }.
End Transaction.

Module Budget.
Record t := mk {
    id : nat;
    amount : Z;
    userId : string;
    createdAt : Z;
    updatedAt : Z;
  }.
End Budget.

(** The store: one list per table, and the next fresh budget id. *)
Record Db := mkDb {
  db_users : list User.t;
  db_accounts : list Account.t;
  db_transactions : list Transaction.t;
  db_budgets : list Budget.t;
  db_next_id : nat;
}.

(** Clerk's [auth()] gives the signed-in user's id; the code tests it with
    [if (!userId)], which also rejects the empty string. *)
Definition signed_in (userId : option string) : option string :=
  match userId with
  | Some s => if String.eqb s EmptyString then None else Some s
  | None => None
  end.

(** ** Queries *)

(** [db.user.findUnique({ where: { clerkUserId } })] *)
Definition user_findUnique (clerkId : string) (db : Db) : option User.t :=
  List.find (λ u, String.eqb (User.clerkUserId u) clerkId) (db_users db).

(** [db.budget.findFirst({ where: { userId } })] *)
Definition budget_findFirst (uid : string) (db : Db) : option Budget.t :=
  List.find (λ b, String.eqb (Budget.userId b) uid) (db_budgets db).

(** [db.transaction.aggregate({ where, _sum: { amount: true } })._sum.amount] *)
Definition aggregate_sum (where_ : Transaction.t → bool) (db : Db) : option Z :=
  match List.filter where_ (db_transactions db) with
  | [] => None
  | rows => Some (sumZ Transaction.amount rows)
  end.

(** [db.budget.upsert({ where: { userId }, update: { amount },
    create: { userId, amount } })]: the written row and the new store. *)
Definition budget_upsert (uid : string) (amount : Z) (now : Z) (db : Db) : Db * Budget.t :=
  match budget_findFirst uid db with
  | Some b =>
      let b' := Budget.mk (Budget.id b) amount uid (Budget.createdAt b) now in
      (mkDb (db_users db) (db_accounts db) (db_transactions db)
         (map (λ r, if String.eqb (Budget.userId r) uid then b' else r) (db_budgets db))
         (db_next_id db), b')
  | None =>
      let b' := Budget.mk (db_next_id db) amount uid now now in
      (mkDb (db_users db) (db_accounts db) (db_transactions db)
         (db_budgets db ++ [b']) (S (db_next_id db)), b')
  end.

(** At most one budget row per user (the schema's [@unique] on
    [Budget.userId]). *)
Definition budgets_unique (db : Db) : Prop := NoDup (map Budget.userId (db_budgets db)).

(** ** Lemmas on the queries *)

Lemma aggregate_sum_total (where_ : Transaction.t → bool) (db : Db) :
  default 0 (aggregate_sum where_ db) =
  sumZ Transaction.amount (List.filter where_ (db_transactions db)).
Proof. unfold aggregate_sum. by destruct (List.filter where_ _). Qed.

Lemma find_map_hit {A} (p : A → bool) (g : A → A) (l : list A) x :
  (∀ r, p r = true → g r = x) → (∀ r, p r = false → g r = r) → p x = true →
  (∃ r, r ∈ l ∧ p r = true) → List.find p (map g l) = Some x.
Proof.
  intros Hg Hid Hx. induction l as [|r l IH]; intros [r0 [Hin Hr0]]; [set_solver|].
  simpl. destruct (p r) eqn:Hr.
  - rewrite (Hg r Hr), Hx. done.
  - rewrite (Hid r Hr), Hr. apply IH. apply elem_of_cons in Hin as [->|Hin]; [congruence|eauto].
Qed.

Lemma find_app_none {A} (p : A → bool) (l : list A) x :
  List.find p l = None → p x = true → List.find p (l ++ [x]) = Some x.
Proof.
  induction l as [|r l IH]; simpl; intros Hn Hx; [by rewrite Hx|].
  destruct (p r); [done|]. auto.
Qed.

Lemma find_app_miss {A} (p : A → bool) (l : list A) x :
  p x = false → List.find p (l ++ [x]) = List.find p l.
Proof. induction l as [|r l IH]; simpl; intros Hx; [by rewrite Hx|]. by rewrite IH. Qed.

Lemma find_map_frame {A} (p q : A → bool) (g : A → A) (l : list A) :
  (∀ r, q r = true → p r = false) → (∀ r, p r = true → p (g r) = true ∧ q (g r) = false) →
  (∀ r, p r = false → g r = r) → List.find q (map g l) = List.find q l.
Proof.
  intros Hqp Hpg Hid. induction l as [|r l IH]; simpl; [done|].
  destruct (p r) eqn:Hr.
  - destruct (Hpg r Hr) as [_ ->]. destruct (q r) eqn:Hq; [by rewrite (Hqp r Hq) in Hr|done].
  - rewrite (Hid r Hr). destruct (q r); [done|exact IH].
Qed.

Lemma find_app_some {A} (p : A → bool) (l l' : list A) x :
  List.find p l = Some x → List.find p (l ++ l') = Some x.
Proof. induction l as [|r l IH]; simpl; [done|]. destruct (p r); auto. Qed.

(** A map that keeps the search key commutes with [find]. *)
Lemma find_map_same {A} (p : A → bool) (f : A → A) (l : list A) :
  (∀ r, p (f r) = p r) → List.find p (map f l) = option_map f (List.find p l).
Proof. intros Hf. induction l as [|r l IH]; simpl; [done|]. rewrite Hf. by destruct (p r). Qed.

(** After an upsert for [uid], [findFirst] returns the written row. *)
Lemma budget_upsert_findFirst uid amount now db :
  budget_findFirst uid (budget_upsert uid amount now db).1 =
  Some (budget_upsert uid amount now db).2.
Proof.
  unfold budget_upsert. destruct (budget_findFirst uid db) as [b|] eqn:Hf; simpl.
  - unfold budget_findFirst in *; simpl. apply find_map_hit.
    + intros r Hr. cbn beta in *. by rewrite Hr.
    + intros r Hr. cbn beta in *. by rewrite Hr.
    + apply String.eqb_refl.
    + apply List.find_some in Hf as [Hin Hb]. exists b. split; [by apply list_elem_of_In|done].
  - unfold budget_findFirst in *; simpl. apply find_app_none; [done|apply String.eqb_refl].
Qed.

(** The other users' budget rows are left as they were. *)
Lemma budget_upsert_frame uid uid' amount now db :
  uid ≠ uid' → budget_findFirst uid' (budget_upsert uid amount now db).1 = budget_findFirst uid' db.
Proof.
  intros Hne. unfold budget_upsert. destruct (budget_findFirst uid db) eqn:Hf; simpl.
  - unfold budget_findFirst; simpl.
    apply (find_map_frame (λ r, String.eqb (Budget.userId r) uid)).
    + intros r Hr. cbn beta in *. apply String.eqb_eq in Hr.
      apply String.eqb_neq. congruence.
    + intros r Hr. cbn beta in *. rewrite Hr. simpl.
      split; [apply String.eqb_refl|by apply String.eqb_neq].
    + intros r Hr. cbn beta in *. by rewrite Hr.
  - unfold budget_findFirst; simpl. apply find_app_miss. simpl.
    by apply String.eqb_neq.
Qed.

(** The upsert keeps one budget row per user. *)
Lemma budget_upsert_unique uid amount now db :
  budgets_unique db → budgets_unique (budget_upsert uid amount now db).1.
Proof.
  unfold budgets_unique, budget_upsert. intros Hnd.
  destruct (budget_findFirst uid db) eqn:Hf; simpl.
  - rewrite map_map.
    erewrite map_ext; [exact Hnd|]. intros r. simpl.
    destruct (String.eqb_spec (Budget.userId r) uid); done.
  - rewrite map_app. simpl. apply NoDup_app. split; [done|split; [|apply NoDup_singleton]].
    intros u Hu ->%list_elem_of_singleton.
    apply list_elem_of_In, in_map_iff in Hu as (r & Hr & Hin).
    unfold budget_findFirst in Hf. pose proof (List.find_none _ _ Hf r Hin) as Hn.
    cbn beta in Hn. rewrite Hr, String.eqb_refl in Hn. discriminate.
Qed.

(** The upsert writes the budget table only. *)
Lemma budget_upsert_tables uid amount now db :
  db_users (budget_upsert uid amount now db).1 = db_users db ∧
  db_accounts (budget_upsert uid amount now db).1 = db_accounts db ∧
  db_transactions (budget_upsert uid amount now db).1 = db_transactions db.
Proof. unfold budget_upsert. by destruct (budget_findFirst uid db). Qed.

Lemma budget_upsert_row uid amount now db :
  Budget.amount (budget_upsert uid amount now db).2 = amount ∧
  Budget.userId (budget_upsert uid amount now db).2 = uid.
Proof. unfold budget_upsert. by destruct (budget_findFirst uid db). Qed.

(** The queries read one table each. *)
Lemma user_findUnique_users cid db db' :
  db_users db' = db_users db → user_findUnique cid db' = user_findUnique cid db.
Proof. unfold user_findUnique. by intros ->. Qed.

Lemma aggregate_sum_transactions w db db' :
  db_transactions db' = db_transactions db → aggregate_sum w db' = aggregate_sum w db.
Proof. unfold aggregate_sum. by intros ->. Qed.

#[export] Hint Resolve budget_upsert_unique : finance.
#[export] Hint Resolve budget_upsert_findFirst budget_upsert_frame : finance.

(** ** A sample store for the witnesses

    One user with a default checking account and a budget of 1000.00;
    the transactions are chosen per witness.  Dates are in January 2024. *)
Module Sample.
Definition ada : User.t := User.mk "user_1" "clerk_1" "Ada" "ada@example.com".
Definition checking : Account.t := Account.mk "acc_1" "Checking" CURRENT 0 true "user_1".
Definition jan (d h : Z) : Z := JsDate.new_Date 2024 0 d h 0 0 0.
Definition expense (id : string) (amt d : Z) : Transaction.t :=
  Transaction.mk id EXPENSE amt None d "food" false None None "user_1" "acc_1".
Definition income (id : string) (amt d : Z) : Transaction.t :=
  Transaction.mk id INCOME amt None d "salary" false None None "user_1" "acc_1".
Definition budget0 : Budget.t := Budget.mk 0 100000 "user_1" 0 0.
Definition store (txs : list Transaction.t) (budgets : list Budget.t) : Db :=
  mkDb [ada] [checking] txs budgets 1.
End Sample.
