(* ===== verification/Budget.v ===== *)
(** * Budget: the server actions of [src/actions/budget.js]

    [getCurrentBudget(accountId)] authenticates the caller, loads the
    user's budget row and sums the amounts of the user's [EXPENSE]
    transactions of one account dated from the first of the current month
    to the end bound [new Date(y, m + 1, 0)].  [updateBudget(amount)]
    authenticates the caller and upserts the user's budget row; it turns
    every thrown error into [{ success: false, error }].

    The request is the pair of Clerk's [auth()] and the clock
    ([new Date()]).  The logging ([console.log]) and [revalidatePath] have
    no effect on the returned values or the store and are left out.

    Theorems: the end bound is midnight at the start of the last day of
    the month, so the sum leaves out the last day's expenses (a finding);
    the sum is over the calendar month with that exception; the error
    branches; [updateBudget] is read back by [getCurrentBudget], keeps one
    budget row per user, leaves the other users and the transactions
    alone, and accepts any amount, zero and negative ones included. *)

From S2P Require Import Prelude JsDate Ledger.
Import JsDate.
Local Open Scope Z_scope.


Module BudgetAction.

(** What a call sees of the outside world: [auth()] and [new Date()]. *)
Record Request := mkRequest {
  auth : option string;
  now : Z;
}.

(** The value [getCurrentBudget] returns. *)
Record CurrentBudget := mkCurrentBudget {
  budget : option Budget.t;
  currentExpenses : Z;
}.

(** Lines 11-24 (and 100-111): the caller must be signed in and known. *)
Definition require_user (req : Request) (db : Db) : result User.t :=
  match signed_in (auth req) with
  | None => Err "Unauthorized"%string
  | Some uid =>
      match user_findUnique uid db with
      | None => Err "User not found"%string
      | Some u => Ok u
      end
  end.

(** Lines 40-50: [startOfMonth] and [endOfMonth]. *)
Definition monthBounds (now : Z) : Z * Z :=
  (new_Date (getFullYear now) (getMonth now) 1 0 0 0 0,
   new_Date (getFullYear now) (getMonth now + 1) 0 0 0 0 0).

(** Lines 58-71: the [where] clause of the aggregate.  An [accountId] of
    [undefined] drops the account condition, as Prisma does. *)
Definition expenseWhere (uid : string) (accountId : option string)
    (startOfMonth endOfMonth : Z) (t : Transaction.t) : bool :=
  String.eqb (Transaction.userId t) uid
  && bool_decide (Transaction.type t = EXPENSE)
  && (startOfMonth <=? Transaction.date t) && (Transaction.date t <=? endOfMonth)
  && match accountId with
     | Some a => String.eqb (Transaction.accountId t) a
     | None => true
     end.

(** Lines 7-94. *)
Definition getCurrentBudget (req : Request) (accountId : option string) (db : Db)
    : result CurrentBudget :=
  user ← require_user req db;
  let budget := budget_findFirst (User.id user) db in
  let '(startOfMonth, endOfMonth) := monthBounds (now req) in
  let expenses := aggregate_sum (expenseWhere (User.id user) accountId startOfMonth endOfMonth) db in
  mret (mkCurrentBudget budget (default 0 expenses)).

Inductive UpdateResult :=
  | UpdateSuccess (data : Budget.t)
  | UpdateFailure (error : string).

(** Lines 96-154. *)
Definition updateBudget (req : Request) (amount : Z) (db : Db) : Db * UpdateResult :=
  match require_user req db with
  | Err msg => (db, UpdateFailure msg)
  | Ok user =>
      let '(db', b) := budget_upsert (User.id user) amount (now req) db in
      (db', UpdateSuccess b)
  end.

(** ** The month window *)

Lemma getMonth_range t : 0 <= getMonth t <= 11.
Proof. apply (Day_decompose t). Qed.

Lemma monthBounds_spec now :
  100 <= getFullYear now →
  monthBounds now =
    (MakeDate (MakeDay (getFullYear now) (getMonth now) 1) 0,
     MakeDate (MakeDay (getFullYear now) (getMonth now)
                 (DaysInMonth (getFullYear now) (getMonth now))) 0).
Proof.
  intros Hy. unfold monthBounds. rewrite !new_Date_midnight by done.
  rewrite MakeDay_day0. pose proof (getMonth_range now).
  rewrite (Z.div_small (getMonth now) 12), (Z.mod_small (getMonth now) 12), Z.add_0_r by lia.
  done.
Qed.

(** The arithmetic of the window: a day [dn] of the month starting at day
    [D0], as its [date], and a time of day [tod]. *)
Lemma window_arith D0 dim date tod :
  1 <= date <= dim → 0 <= tod < msPerDay →
  (D0 * msPerDay <= (D0 + date - 1) * msPerDay + tod <= (D0 + dim - 1) * msPerDay
   ↔ ¬ (date = dim ∧ tod ≠ 0)).
Proof.
  unfold msPerDay. intros Hd Ht. split.
  - intros Hw [-> Hne]. lia.
  - intros Hn. destruct (Z.eq_dec date dim) as [->|Hne]; [|lia].
    destruct (Z.eq_dec tod 0) as [->|]; [lia|tauto].
Qed.

Lemma window_within_month D0 dim x :
  D0 * msPerDay <= x <= (D0 + dim - 1) * msPerDay → 1 <= dim →
  D0 * msPerDay <= x < (D0 + dim) * msPerDay.
Proof. unfold msPerDay. lia. Qed.

(** C3: [endOfMonth = new Date(y, m + 1, 0)] is midnight at the start of
    the month's last day, and the aggregate's [lte] keeps nothing after
    it: a time value is within [[startOfMonth, endOfMonth]] exactly when
    it lies in the current calendar month and is not on the month's last
    day after midnight. *)
Theorem getCurrentBudget_window now t :
  100 <= getFullYear now →
  ((monthBounds now).1 <= t <= (monthBounds now).2 ↔
   getFullYear t = getFullYear now ∧ getMonth t = getMonth now ∧
   ¬ (getDate t = DaysInMonth (getFullYear now) (getMonth now) ∧ TimeWithinDay t ≠ 0)).
Proof.
  intros Hy. rewrite monthBounds_spec by done. cbn [fst snd].
  pose proof (getMonth_range now) as HM.
  pose proof (month_window (getFullYear now) (getMonth now) t HM) as Hw.
  rewrite MakeDay_next_month in Hw by done.
  rewrite (MakeDay_date _ _ (DaysInMonth _ _)).
  pose proof (DaysInMonth_range (getFullYear now) (getMonth now) HM) as Hdim.
  destruct (Day_decompose t) as (HD & _ & Hdt). destruct (time_split t) as [Ht Htw].
  rewrite !MakeDate_0 in Hw |- *.
  unfold getFullYear, getMonth, getDate in *.
  split.
  - intros Hwin.
    assert (Hin : YearFromTime t = YearFromTime now ∧ MonthFromTime t = MonthFromTime now).
    { apply Hw, window_within_month; [exact Hwin|lia]. }
    destruct Hin as [HYt HMt]. rewrite HYt, HMt in HD, Hdt.
    do 2 (split; [done|]). rewrite HD in Ht. rewrite Ht in Hwin.
    apply (window_arith (MakeDay (YearFromTime now) (MonthFromTime now) 1) _ _ _ Hdt Htw). done.
  - intros (HYt & HMt & Hnot). rewrite HYt, HMt in HD, Hdt.
    rewrite Ht, HD. apply (window_arith (MakeDay (YearFromTime now) (MonthFromTime now) 1) _ _ _ Hdt Htw). done.
Qed.

(** ** The sum of expenses *)

(** The spec's period (section 4.1) is the calendar month of [now]; these
    predicates state the sum the code should compute and the part of it
    the code leaves out. *)
Definition ofUserAccount (uid : string) (accountId : option string) (t : Transaction.t) : bool :=
  String.eqb (Transaction.userId t) uid && bool_decide (Transaction.type t = EXPENSE)
  && match accountId with
     | Some a => String.eqb (Transaction.accountId t) a
     | None => true
     end.

Definition inMonthOf (now d : Z) : bool :=
  (getFullYear d =? getFullYear now) && (getMonth d =? getMonth now).

Definition afterLastMidnight (now d : Z) : bool :=
  (getDate d =? DaysInMonth (getFullYear now) (getMonth now)) && negb (TimeWithinDay d =? 0).

Lemma window_bool now d :
  100 <= getFullYear now →
  ((monthBounds now).1 <=? d) && (d <=? (monthBounds now).2)
  = inMonthOf now d && negb (afterLastMidnight now d).
Proof.
  intros Hy. apply Bool.eq_iff_eq_true.
  rewrite andb_true_iff, !Z.leb_le, getCurrentBudget_window by done.
  unfold inMonthOf, afterLastMidnight.
  destruct (Z.eqb_spec (getFullYear d) (getFullYear now)),
    (Z.eqb_spec (getMonth d) (getMonth now)),
    (Z.eqb_spec (getDate d) (DaysInMonth (getFullYear now) (getMonth now))),
    (Z.eqb_spec (TimeWithinDay d) 0); cbn [andb negb];
    split; intros H; first [done | exfalso; destruct_and? H; tauto | tauto].
Qed.

Lemma expenseWhere_calendar uid acc now t :
  100 <= getFullYear now →
  expenseWhere uid acc (monthBounds now).1 (monthBounds now).2 t
  = ofUserAccount uid acc t && inMonthOf now (Transaction.date t)
    && negb (afterLastMidnight now (Transaction.date t)).
Proof.
  intros Hy. pose proof (window_bool now (Transaction.date t) Hy) as Hw.
  unfold expenseWhere, ofUserAccount.
  rewrite <- (andb_assoc _ ((monthBounds now).1 <=? _)), Hw.
  destruct (String.eqb _ _), (bool_decide _), acc as [a|];
    try destruct (String.eqb (Transaction.accountId t) a);
    destruct (inMonthOf _ _), (afterLastMidnight _ _); reflexivity.
Qed.

(** C1: [getCurrentBudget] returns the user's budget row and, as
    [currentExpenses], the sum of the user's expenses on the account in
    the calendar month of [now] minus those dated on the month's last day
    after midnight. *)
Theorem getCurrentBudget_currentExpenses req acc db r :
  100 <= getFullYear (now req) →
  getCurrentBudget req acc db = Ok r →
  ∃ u, require_user req db = Ok u ∧
    budget r = budget_findFirst (User.id u) db ∧
    currentExpenses r =
      sumZ Transaction.amount
        (List.filter (λ t, ofUserAccount (User.id u) acc t
                           && inMonthOf (now req) (Transaction.date t)) (db_transactions db))
      - sumZ Transaction.amount
        (List.filter (λ t, ofUserAccount (User.id u) acc t
                           && inMonthOf (now req) (Transaction.date t)
                           && afterLastMidnight (now req) (Transaction.date t)) (db_transactions db)).
Proof.
  intros Hy. unfold getCurrentBudget.
  destruct (require_user req db) as [u|msg]; [|done]. rewrite result_bind_Ok.
  pose proof (expenseWhere_calendar (User.id u) acc (now req)) as Hc.
  destruct (monthBounds (now req)) as [s e] eqn:Hb.
  cbn [fst snd] in Hc.
  intros [= <-]. exists u. do 2 (split; [done|]). cbn [currentExpenses].
  rewrite aggregate_sum_total, !sumZ_filter, <- sumZ_sub.
  apply sumZ_ext_in. intros t _. cbv beta. rewrite (Hc t Hy).
  destruct (ofUserAccount _ _ _), (inMonthOf _ _), (afterLastMidnight _ _); cbn [andb negb]; lia.
Qed.

(** ** Errors *)

(** C4: both actions reject a caller who is not signed in with
    ["Unauthorized"] and an unknown user with ["User not found"];
    [updateBudget] then returns the message and writes nothing. *)
Theorem budget_actions_errors req acc amount db :
  (signed_in (auth req) = None →
     getCurrentBudget req acc db = Err "Unauthorized"%string ∧
     updateBudget req amount db = (db, UpdateFailure "Unauthorized"%string)) ∧
  (∀ uid, signed_in (auth req) = Some uid → user_findUnique uid db = None →
     getCurrentBudget req acc db = Err "User not found"%string ∧
     updateBudget req amount db = (db, UpdateFailure "User not found"%string)).
Proof.
  unfold getCurrentBudget, updateBudget, require_user. split.
  - intros ->. done.
  - intros uid -> ->. done.
Qed.

(** ** Writing the budget *)

Lemma require_user_users req db db' :
  db_users db' = db_users db → require_user req db' = require_user req db.
Proof.
  intros H. unfold require_user. destruct (signed_in (auth req)); [|done].
  by rewrite (user_findUnique_users _ _ _ H).
Qed.

(** C5: what [updateBudget] writes is what [getCurrentBudget] reads
    next: the budget row with the new amount, and the same expenses. *)
Theorem updateBudget_readback req amount db db' b :
  updateBudget req amount db = (db', UpdateSuccess b) →
  Budget.amount b = amount ∧
  ∀ acc r, getCurrentBudget req acc db = Ok r →
    getCurrentBudget req acc db' = Ok (mkCurrentBudget (Some b) (currentExpenses r)).
Proof.
  unfold updateBudget. destruct (require_user req db) as [u|msg] eqn:Hu; [|done].
  pose proof (budget_upsert_tables (User.id u) amount (now req) db) as (Hus & _ & Htx).
  pose proof (budget_upsert_findFirst (User.id u) amount (now req) db) as Hf.
  pose proof (budget_upsert_row (User.id u) amount (now req) db) as [Ha _].
  destruct (budget_upsert (User.id u) amount (now req) db) as [db1 b1]. simpl in *.
  intros [= <- <-]. split; [done|]. intros acc r.
  unfold getCurrentBudget. rewrite (require_user_users _ _ _ Hus), Hu. simpl.
  destruct (monthBounds (now req)) as [s e]. rewrite Hf.
  rewrite (aggregate_sum_transactions _ _ _ Htx). by intros [= <-].
Qed.

(** C6: [updateBudget] keeps one budget row per user, writes no other
    table, and leaves the budget rows of the other users unchanged. *)
Theorem updateBudget_invariant req amount db db' res :
  budgets_unique db → updateBudget req amount db = (db', res) →
  budgets_unique db' ∧ db_users db' = db_users db ∧ db_accounts db' = db_accounts db ∧
  db_transactions db' = db_transactions db ∧
  ∀ uid, (∀ u, require_user req db = Ok u → User.id u ≠ uid) →
    budget_findFirst uid db' = budget_findFirst uid db.
Proof.
  intros Hinv. unfold updateBudget. destruct (require_user req db) as [u|msg] eqn:Hu.
  - pose proof (budget_upsert_tables (User.id u) amount (now req) db) as (H1 & H2 & H3).
    pose proof (budget_upsert_unique (User.id u) amount (now req) db Hinv) as Hn.
    pose proof (budget_upsert_frame (User.id u)) as Hfr.
    destruct (budget_upsert (User.id u) amount (now req) db) as [db1 b1] eqn:Hup.
    intros [= <- _]. simpl in *. do 4 (split; [done|]).
    intros uid Hne. specialize (Hfr uid amount (now req) db (Hne u eq_refl)).
    by rewrite Hup in Hfr.
  - intros [= <- _]. done.
Qed.

(** C7: the server accepts every amount, zero and negative ones
    included: the check [amount <= 0] is only made by the form of
    [budget-progress.jsx]. *)
Theorem updateBudget_accepts_any_amount req amount db uid u :
  signed_in (auth req) = Some uid → user_findUnique uid db = Some u →
  ∃ db' b, updateBudget req amount db = (db', UpdateSuccess b)
           ∧ Budget.amount b = amount ∧ Budget.userId b = User.id u.
Proof.
  intros Hs Hu. unfold updateBudget, require_user. rewrite Hs, Hu.
  pose proof (budget_upsert_row (User.id u) amount (now req) db) as [Ha Hid].
  destruct (budget_upsert (User.id u) amount (now req) db) as [db1 b1].
  by exists db1, b1.
Qed.

(** ** A sample store: one user, two January 2024 expenses, one budget *)

Import Sample.
Definition sample_db : Db :=
  store [expense "t1" 5000 (jan 15 12); expense "t2" 2500 (jan 31 12)] [budget0].
Definition sample_req : Request := mkRequest (Some "clerk_1"%string) (jan 20 10).
Definition raised_budget : Budget.t := Budget.mk 0 120000 "user_1" 0 (jan 20 10).
Definition raised_db : Db :=
  store [expense "t1" 5000 (jan 15 12); expense "t2" 2500 (jan 31 12)] [raised_budget].

(** The expense at noon on January 31 lies in January but outside the
    window. *)
Lemma getCurrentBudget_window_witness :
  100 <= getFullYear (jan 20 10) ∧
  ¬ ((monthBounds (jan 20 10)).1 <= jan 31 12 <= (monthBounds (jan 20 10)).2).
Proof.
  assert (Hy : 100 <= getFullYear (jan 20 10)) by by_eval.
  split; [exact Hy|].
  rewrite (getCurrentBudget_window (jan 20 10) (jan 31 12) Hy).
  intros (_ & _ & Hn). apply Hn. split; by_eval.
Defined.

(** January's expenses are 7500; the action reports 7500 - 2500. *)
Lemma getCurrentBudget_currentExpenses_witness :
  100 <= getFullYear (now sample_req) ∧
  getCurrentBudget sample_req (Some "acc_1"%string) sample_db
    = Ok (mkCurrentBudget (Some budget0) 5000) ∧
  currentExpenses (mkCurrentBudget (Some budget0) 5000) = 7500 - 2500.
Proof.
  assert (Hy : 100 <= getFullYear (now sample_req)) by by_eval.
  assert (Hr : getCurrentBudget sample_req (Some "acc_1"%string) sample_db
               = Ok (mkCurrentBudget (Some budget0) 5000)) by by_eval.
  split; [exact Hy|split; [exact Hr|]].
  destruct (getCurrentBudget_currentExpenses _ _ _ _ Hy Hr) as (u & Hu & _ & ->).
  vm_compute in Hu. injection Hu as <-. by_eval.
Defined.

Lemma budget_actions_errors_witness :
  getCurrentBudget (mkRequest None 0) None sample_db = Err "Unauthorized"%string ∧
  updateBudget (mkRequest (Some "clerk_9"%string) 0) 100 sample_db
    = (sample_db, UpdateFailure "User not found"%string).
Proof.
  split.
  - apply (proj1 (budget_actions_errors (mkRequest None 0) None 100 sample_db) eq_refl).
  - apply (proj2 (budget_actions_errors (mkRequest (Some "clerk_9"%string) 0) None 100 sample_db)
             "clerk_9"%string eq_refl eq_refl).
Defined.

Lemma updateBudget_readback_witness :
  updateBudget sample_req 120000 sample_db = (raised_db, UpdateSuccess raised_budget) ∧
  Budget.amount raised_budget = 120000 ∧
  getCurrentBudget sample_req (Some "acc_1"%string) raised_db
    = Ok (mkCurrentBudget (Some raised_budget) 5000).
Proof.
  assert (Hu : updateBudget sample_req 120000 sample_db = (raised_db, UpdateSuccess raised_budget))
    by by_eval.
  destruct (updateBudget_readback _ _ _ _ _ Hu) as [Ha Hr].
  split; [exact Hu|split; [exact Ha|]].
  apply (Hr _ (mkCurrentBudget (Some budget0) 5000)). by_eval.
Defined.

Lemma updateBudget_invariant_witness :
  budgets_unique sample_db ∧
  updateBudget sample_req 120000 sample_db = (raised_db, UpdateSuccess raised_budget) ∧
  budgets_unique raised_db.
Proof.
  assert (Hn : budgets_unique sample_db) by (constructor; [set_solver|constructor]).
  assert (Hu : updateBudget sample_req 120000 sample_db = (raised_db, UpdateSuccess raised_budget))
    by by_eval.
  split; [exact Hn|split; [exact Hu|]].
  apply (updateBudget_invariant _ _ _ _ _ Hn Hu).
Defined.

(** A budget of -5.00 is stored. *)
Lemma updateBudget_accepts_any_amount_witness :
  ∃ db' b, updateBudget sample_req (-500) sample_db = (db', UpdateSuccess b)
           ∧ Budget.amount b = -500 ∧ Budget.userId b = User.id ada.
Proof.
  apply (updateBudget_accepts_any_amount sample_req (-500) sample_db "clerk_1"%string ada);
    by_eval.
Defined.

End BudgetAction.
