(* ===== verification/AlertRoute.v ===== *)
(** * AlertRoute: [POST] of [src/app/api/test-budget-alerts/route.js]

    The route authenticates the caller, loads the user with the default
    account and the budget, sums the account's expenses dated from
    [startDate] on ([new Date()] after [setDate(1)]), computes
    [percentageUsed = (totalExpenses / budgetAmount) * 100], then sends an
    Inngest event and a direct e-mail, and answers with the figures and
    [shouldSendAlert = percentageUsed >= 80].  Every error inside the
    [try] becomes a [500] response with the error's message.

    The outside world is an [Env]: Clerk's [auth()], the clock, and the
    outcome of the two calls that may throw ([inngest.send], [sendEmail]).
    The calls the route makes are returned, in order, as [Effect]s.

    Theorems: the threshold is exactly [100 * total >= 80 * budget] for a
    positive budget; a zero budget gives [Infinity] (alert) or [NaN] (no
    alert) instead of "no alert" (a finding); the e-mail is sent whether
    or not the threshold is reached (a finding); [startDate] keeps the
    time of day, so the sum misses the first day's expenses dated before
    that time, and it has no upper bound; the error answers. *)

From S2P Require Import Prelude JsDate JsNumber Ledger.
Import JsDate.
Local Open Scope Z_scope.

Module AlertRoute.

Record Env := mkEnv {
  auth : option string;
  now : Z;
  inngest_result : result unit;
  email_result : result unit;
}.

(** The external calls, with the fields of their arguments the model
    tracks. *)
Inductive Effect :=
  | InngestSend (name : string) (userId : string) (testMode : bool)
  | SendEmail (to subject : string) (percentageUsed : JsNum)
      (budgetAmount totalExpenses : Z) (accountName : string).

Record AlertData := mkAlertData {
  budgetAmount : Z;
  totalExpenses : Z;
  percentageUsed : JsNum;
  threshold : Z;
  shouldSendAlert : bool;
  inngestTriggered : bool;
  directEmailSent : bool;
  userEmail : string;
}.

Inductive Body :=
  | ErrorBody (error : string)
  | SuccessBody (message : string) (data : AlertData).

Record Response := mkResponse { status : Z; body : Body }.

(** Lines 17-25 and 31: [user.accounts[0]] of the [include] with
    [where: { isDefault: true }]. *)
Definition defaultAccount (u : User.t) (db : Db) : option Account.t :=
  List.find (λ a, String.eqb (Account.userId a) (User.id u) && Account.isDefault a)
    (db_accounts db).

(** Lines 42-43: [startDate = new Date(); startDate.setDate(1)]. *)
Definition startDate (now : Z) : Z := setDate now 1.

(** Lines 45-57: the [where] clause of the aggregate. *)
Definition alertWhere (uid accountId : string) (start : Z) (t : Transaction.t) : bool :=
  String.eqb (Transaction.userId t) uid && String.eqb (Transaction.accountId t) accountId
  && bool_decide (Transaction.type t = EXPENSE) && (start <=? Transaction.date t).

(** Line 61. *)
Definition percentage (totalExpenses budgetAmount : Z) : JsNum :=
  js_mul (js_div totalExpenses budgetAmount) 100.

Definition emailSubject (accountName : string) : string :=
  String.append "DIRECT TEST - Budget Alert for " accountName.

(** Lines 8-124. *)
Definition POST (env : Env) (db : Db) : Response * list Effect :=
  match signed_in (auth env) with
  | None => (mkResponse 401 (ErrorBody "Unauthorized"), [])
  | Some clerkId =>
  match user_findUnique clerkId db with
  | None => (mkResponse 404 (ErrorBody "User not found"), [])
  | Some user =>
  match defaultAccount user db with
  | None => (mkResponse 404 (ErrorBody "No default account found"), [])
  | Some acct =>
  match budget_findFirst (User.id user) db with
  | None => (mkResponse 404 (ErrorBody "No budget found"), [])
  | Some budget =>
      let totalExpenses :=
        default 0 (aggregate_sum (alertWhere (User.id user) (Account.id acct) (startDate (now env))) db) in
      let budgetAmount := Budget.amount budget in
      let percentageUsed := percentage totalExpenses budgetAmount in
      let inngest := InngestSend "test/budget.alert" (User.id user) true in
      let email := SendEmail (User.email user) (emailSubject (Account.name acct))
                     percentageUsed budgetAmount totalExpenses (Account.name acct) in
      match inngest_result env with
      | Err msg => (mkResponse 500 (ErrorBody msg), [])
      | Ok _ =>
      match email_result env with
      | Err msg => (mkResponse 500 (ErrorBody msg), [inngest])
      | Ok _ =>
          (mkResponse 200 (SuccessBody "Budget alert tests completed"
             (mkAlertData budgetAmount totalExpenses percentageUsed 80
                (js_ge percentageUsed 80) true true (User.email user))),
           [inngest; email])
      end end
  end end end end.

(** ** The answers *)

(** C10: the early answers: [401] when not signed in, [404] when the
    user, the default account or the budget is missing; no call is made. *)
Theorem POST_errors env db :
  (signed_in (auth env) = None →
     POST env db = (mkResponse 401 (ErrorBody "Unauthorized"), [])) ∧
  (∀ cid, signed_in (auth env) = Some cid → user_findUnique cid db = None →
     POST env db = (mkResponse 404 (ErrorBody "User not found"), [])) ∧
  (∀ cid u, signed_in (auth env) = Some cid → user_findUnique cid db = Some u →
     defaultAccount u db = None →
     POST env db = (mkResponse 404 (ErrorBody "No default account found"), [])) ∧
  (∀ cid u a, signed_in (auth env) = Some cid → user_findUnique cid db = Some u →
     defaultAccount u db = Some a → budget_findFirst (User.id u) db = None →
     POST env db = (mkResponse 404 (ErrorBody "No budget found"), [])).
Proof.
  unfold POST. split; [intros ->; done|].
  split; [intros cid -> ->; done|].
  split; [intros cid u -> -> ->; done|].
  intros cid u a -> -> -> ->. done.
Qed.

(** The expenses the route sums. *)
Definition routeTotal (env : Env) (u : User.t) (a : Account.t) (db : Db) : Z :=
  sumZ Transaction.amount
    (List.filter (alertWhere (User.id u) (Account.id a) (startDate (now env))) (db_transactions db)).

Section Success.
Context (env : Env) (db : Db) (cid : string) (u : User.t) (a : Account.t) (b : Budget.t).
Hypothesis Hauth : signed_in (auth env) = Some cid.
Hypothesis Huser : user_findUnique cid db = Some u.
Hypothesis Hacct : defaultAccount u db = Some a.
Hypothesis Hbudget : budget_findFirst (User.id u) db = Some b.
Hypothesis Hinngest : inngest_result env = Ok tt.
Hypothesis Hemail : email_result env = Ok tt.

Lemma POST_success :
  POST env db =
    (mkResponse 200 (SuccessBody "Budget alert tests completed"
       (mkAlertData (Budget.amount b) (routeTotal env u a db)
          (percentage (routeTotal env u a db) (Budget.amount b)) 80
          (js_ge (percentage (routeTotal env u a db) (Budget.amount b)) 80)
          true true (User.email u))),
     [InngestSend "test/budget.alert" (User.id u) true;
      SendEmail (User.email u) (emailSubject (Account.name a))
        (percentage (routeTotal env u a db) (Budget.amount b))
        (Budget.amount b) (routeTotal env u a db) (Account.name a)]).
Proof.
  unfold POST. rewrite Hauth, Huser, Hacct, Hbudget, Hinngest, Hemail.
  unfold routeTotal. rewrite <- aggregate_sum_total. done.
Qed.

End Success.


(** C8: a zero budget is not rejected: the percentage is [Infinity] when
    there are expenses, so the alert is flagged, and [NaN] when there are
    none.  The spec asks for no alert when the budget is zero. *)
Theorem POST_zero_budget env db cid u a b :
  signed_in (auth env) = Some cid → user_findUnique cid db = Some u →
  defaultAccount u db = Some a → budget_findFirst (User.id u) db = Some b →
  inngest_result env = Ok tt → email_result env = Ok tt →
  Budget.amount b = 0 → (∀ t, t ∈ db_transactions db → 0 <= Transaction.amount t) →
  ∃ data, fst (POST env db) = mkResponse 200 (SuccessBody "Budget alert tests completed" data)
    ∧ percentageUsed data = (if 0 <? routeTotal env u a db then PosInfinity else NaN)
    ∧ shouldSendAlert data = (0 <? routeTotal env u a db).
Proof.
  intros H1 H2 H3 H4 H5 H6 Hz Hnn. rewrite (POST_success env db cid u a b) by done.
  assert (Ht : 0 <= routeTotal env u a db).
  { unfold routeTotal. apply sumZ_nonneg. intros t Ht.
    apply Hnn. apply list_elem_of_In in Ht. apply List.filter_In in Ht as [Ht _].
    by apply list_elem_of_In. }
  eexists. split; [reflexivity|]. cbn [percentageUsed shouldSendAlert].
  unfold percentage. rewrite Hz, js_percent_zero.
  destruct (Z.ltb_spec 0 (routeTotal env u a db)); [done|].
  rewrite (proj2 (Z.ltb_ge _ 0)) by lia. done.
Qed.

(** C9: the route calls [inngest.send] and then [sendEmail] on every
    successful run, whatever [shouldSendAlert] is: the e-mail does not
    depend on the threshold, and the same condition is reported twice. *)
Theorem POST_always_emails env db cid u a b :
  signed_in (auth env) = Some cid → user_findUnique cid db = Some u →
  defaultAccount u db = Some a → budget_findFirst (User.id u) db = Some b →
  inngest_result env = Ok tt → email_result env = Ok tt →
  snd (POST env db) =
    [InngestSend "test/budget.alert" (User.id u) true;
     SendEmail (User.email u) (emailSubject (Account.name a))
       (percentage (routeTotal env u a db) (Budget.amount b))
       (Budget.amount b) (routeTotal env u a db) (Account.name a)].
Proof. intros. rewrite (POST_success env db cid u a b) by done. reflexivity. Qed.

(** ** The start of the window *)

Lemma start_arith D0 date todt todn :
  1 <= date → 0 <= todt < msPerDay → 0 <= todn < msPerDay →
  (D0 * msPerDay + todn <= (D0 + date - 1) * msPerDay + todt ↔ 1 < date ∨ todn <= todt).
Proof. unfold msPerDay. intros. nia. Qed.

(** C11: [startDate] is the first of the current month at the time of
    day of [now], not at midnight: a time value of the current month is
    counted exactly when it is after the first, or on the first at a time
    of day no earlier than [now]'s.  No upper bound is applied. *)
Theorem startDate_window now t :
  getFullYear t = getFullYear now → getMonth t = getMonth now →
  (startDate now <= t ↔ 1 < getDate t ∨ TimeWithinDay now <= TimeWithinDay t).
Proof.
  intros HY HM. unfold startDate, setDate, getFullYear, getMonth, getDate in *.
  destruct (Day_decompose t) as (HD & _ & Hdt). destruct (time_split t) as [Ht Htw].
  destruct (time_split now) as [_ Hnw].
  rewrite HY, HM in HD.
  set (dn := Day t) in *. set (todt := TimeWithinDay t) in *. set (dt := DateFromTime t) in *.
  clearbody dn todt dt. rewrite Ht, HD. unfold MakeDate.
  apply start_arith; lia.
Qed.

(** ** Witnesses on the sample store *)

Import Sample.
Definition env_ok : Env := mkEnv (Some "clerk_1"%string) (jan 20 10) (Ok tt) (Ok tt).
Definition db_with (txs : list Transaction.t) (b : Budget.t) : Db := store txs [b].

Lemma POST_errors_witness :
  POST (mkEnv None 0 (Ok tt) (Ok tt)) (db_with [] budget0)
    = (mkResponse 401 (ErrorBody "Unauthorized"), []) ∧
  POST env_ok (store [] []) = (mkResponse 404 (ErrorBody "No budget found"), []).
Proof.
  split.
  - apply (proj1 (POST_errors (mkEnv None 0 (Ok tt) (Ok tt)) (db_with [] budget0))).
    reflexivity.
  - apply (proj2 (proj2 (proj2 (POST_errors env_ok (store [] []))))
             "clerk_1"%string ada checking); by_eval.
Defined.


(** With a zero budget, 25.00 of expenses give [Infinity] and an alert. *)
Lemma POST_zero_budget_witness :
  ∃ data, fst (POST env_ok (db_with [expense "t1" 2500 (jan 15 12)] (Budget.mk 0 0 "user_1" 0 0)))
            = mkResponse 200 (SuccessBody "Budget alert tests completed" data)
    ∧ percentageUsed data = PosInfinity ∧ shouldSendAlert data = true.
Proof.
  destruct (POST_zero_budget env_ok (db_with [expense "t1" 2500 (jan 15 12)] (Budget.mk 0 0 "user_1" 0 0))
              "clerk_1"%string ada checking (Budget.mk 0 0 "user_1" 0 0) ltac:(by_eval) ltac:(by_eval) ltac:(by_eval) ltac:(by_eval) ltac:(by_eval) ltac:(by_eval) ltac:(by_eval))
    as (data & Hr & Hp & Hs).
  { intros t Ht. apply list_elem_of_singleton in Ht as ->. by_eval. }
  exists data. split; [exact Hr|]. rewrite Hp, Hs. split; by_eval.
Defined.

(** 10 % of the budget spent: no alert, and the e-mail is sent anyway. *)
Lemma POST_always_emails_witness :
  js_ge (percentage 10000 100000) 80 = false ∧
  snd (POST env_ok (db_with [expense "t1" 10000 (jan 15 12)] budget0)) =
    [InngestSend "test/budget.alert" "user_1" true;
     SendEmail "ada@example.com" (emailSubject "Checking") (percentage 10000 100000)
       100000 10000 "Checking"].
Proof.
  split; [by_eval|].
  rewrite (POST_always_emails env_ok (db_with [expense "t1" 10000 (jan 15 12)] budget0)
             "clerk_1"%string ada checking budget0 ltac:(by_eval) ltac:(by_eval) ltac:(by_eval) ltac:(by_eval) ltac:(by_eval) ltac:(by_eval)).
  reflexivity.
Defined.

(** An expense at 08:00 on January 1 is left out by a run at 10:00. *)
Lemma startDate_window_witness :
  getFullYear (jan 1 8) = getFullYear (jan 20 10) ∧ getMonth (jan 1 8) = getMonth (jan 20 10) ∧
  ¬ (startDate (jan 20 10) <= jan 1 8).
Proof.
  assert (HY : getFullYear (jan 1 8) = getFullYear (jan 20 10)) by by_eval.
  assert (HM : getMonth (jan 1 8) = getMonth (jan 20 10)) by by_eval.
  split; [exact HY|split; [exact HM|]].
  rewrite (startDate_window (jan 20 10) (jan 1 8) HY HM).
  assert (getDate (jan 1 8) = 1) as -> by by_eval.
  assert (TimeWithinDay (jan 20 10) = 36000000) as -> by by_eval.
  assert (TimeWithinDay (jan 1 8) = 28800000) as -> by by_eval.
  lia.
Defined.

End AlertRoute.
