(* ===== verification/MonthlyStats.v ===== *)
(** * MonthlyStats: [src/app/api/test-monthly-stats/route.js]

    [getMonthlyStats(userId, month)] loads the user's transactions dated
    from [new Date(y, m, 1)] to [new Date(y, m + 1, 0, 23, 59, 59, 999)]
    and folds them ([reduce]) into the total of expenses, the total of
    the other transactions (income), a per-category breakdown of the
    expenses (a JavaScript object used as a map, here a [gmap]) and the
    number of transactions.  [GET] authenticates the caller and reports
    the stats of the current month and of "last month", obtained by
    [setMonth(getMonth() - 1)] on the current date, with the ten most
    recent transactions.

    Theorems: the window of [getMonthlyStats] is exactly the calendar
    month; the fold computes the sums it is meant to, the breakdown adds
    up to the expenses, and the result does not depend on the order of
    the rows; "last month" is the previous month only when the current
    date exists in it: on the 29th to the 31st it can roll over into the
    current month, and [GET] then reports the current month twice (a
    finding). *)

From stdpp Require Import sorting.
From S2P Require Import Prelude JsDate Ledger.
Import JsDate.
Local Open Scope Z_scope.

Module MonthlyStats.

(** The accumulator of the [reduce], lines 39-44. *)
Record Stats := mkStats {
  totalExpenses : Z;
  totalIncome : Z;
  byCategory : gmap string Z;
  transactionCount : nat;
}.

(** Lines 7-8: the first millisecond and the last millisecond of the
    month of [month]. *)
Definition statsBounds (month : Z) : Z * Z :=
  (new_Date (getFullYear month) (getMonth month) 1 0 0 0 0,
   new_Date (getFullYear month) (getMonth month + 1) 0 23 59 59 999).

(** Lines 12-23: the [where] clause of [findMany]. *)
Definition statsWhere (uid : string) (startDate endDate : Z) (t : Transaction.t) : bool :=
  String.eqb (Transaction.userId t) uid
  && (startDate <=? Transaction.date t) && (Transaction.date t <=? endDate).

Definition isExpense (t : Transaction.t) : bool := bool_decide (Transaction.type t = EXPENSE).

(** Lines 28-38: one step of the [reduce]. *)
Definition stats_step (stats : Stats) (t : Transaction.t) : Stats :=
  if isExpense t then
    mkStats (totalExpenses stats + Transaction.amount t) (totalIncome stats)
      (<[Transaction.category t :=
           default 0 (byCategory stats !! Transaction.category t) + Transaction.amount t]>
         (byCategory stats))
      (transactionCount stats)
  else
    mkStats (totalExpenses stats) (totalIncome stats + Transaction.amount t)
      (byCategory stats) (transactionCount stats).

(** Lines 12-25: [findMany] with that [where] clause, in the order the
    store returns the rows (the query has no [orderBy]). *)
Definition monthTransactions (uid : string) (month : Z) (db : Db) : list Transaction.t :=
  let '(startDate, endDate) := statsBounds month in
  List.filter (statsWhere uid startDate endDate) (db_transactions db).

(** Lines 5-49. *)
Definition getMonthlyStats (uid : string) (month : Z) (db : Db) : Stats :=
  let transactions := monthTransactions uid month db in
  fold_left stats_step transactions (mkStats 0 0 ∅ (length transactions)).

(** Lines 71-72: [lastMonth = new Date(); lastMonth.setMonth(lastMonth.getMonth() - 1)]. *)
Definition lastMonthOf (now : Z) : Z := setMonth now (getMonth now - 1).

(** [orderBy: { date: "desc" }]: [a] comes before [b] when it is no older. *)
Definition newerOrSame (a b : Transaction.t) : Prop := Transaction.date b <= Transaction.date a.
#[export] Instance newerOrSame_dec : RelDecision newerOrSame :=
  λ a b, decide (Transaction.date b <= Transaction.date a).

(** Lines 75-87: the ten most recent transactions of the user
    ([orderBy: { date: "desc" }, take: 10]). *)
Definition recentTransactions (uid : string) (db : Db) : list Transaction.t :=
  take 10 (merge_sort newerOrSame
             (List.filter (λ t, String.eqb (Transaction.userId t) uid) (db_transactions db))).

(** The month of a report, for [toLocaleString("default", { month:
    "long", year: "numeric" })]: its year and month. *)
Definition monthLabel (t : Z) : Z * Z := (getFullYear t, getMonth t).

Record Report := mkReport {
  reportUser : User.t;
  currentMonth : (Z * Z) * Stats;
  lastMonth : (Z * Z) * Stats;
  recent : list Transaction.t;
}.

Inductive Response :=
  | Json200 (report : Report)
  | JsonError (status : Z) (error : string).

(** Lines 51-116, with [auth()] and [new Date()] as inputs. *)
Definition GET (auth : option string) (now : Z) (db : Db) : Response :=
  match signed_in auth with
  | None => JsonError 401 "Unauthorized"
  | Some cid =>
      match user_findUnique cid db with
      | None => JsonError 404 "User not found"
      | Some user =>
          let lastMonth := lastMonthOf now in
          Json200 (mkReport user
                     (monthLabel now, getMonthlyStats (User.id user) now db)
                     (monthLabel lastMonth, getMonthlyStats (User.id user) lastMonth db)
                     (recentTransactions (User.id user) db))
      end
  end.

(** ** The window of [getMonthlyStats] *)

(** [new Date(y, m + 1, 0, 23, 59, 59, 999)] is the last millisecond before
    the first of month [m + 1]. *)
Lemma last_ms_of_month y m :
  MakeDate (MakeDay y (m + 1) 0) (MakeTime 23 59 59 999) = MakeDate (MakeDay y (m + 1) 1) 0 - 1.
Proof.
  rewrite (MakeDay_date y (m + 1) 0). unfold MakeDate, MakeTime, msPerDay.
  generalize (MakeDay y (m + 1) 1). intros x. lia.
Qed.

Lemma statsBounds_spec month d :
  100 <= getFullYear month →
  ((statsBounds month).1 <= d ∧ d <= (statsBounds month).2) ↔
  (getFullYear d = getFullYear month ∧ getMonth d = getMonth month).
Proof.
  intros Hy. unfold statsBounds. cbn [fst snd]. rewrite !new_Date_eq by done.
  rewrite last_ms_of_month. change (MakeTime 0 0 0 0) with 0.
  destruct (Day_decompose month) as (_ & HM & _).
  unfold getFullYear, getMonth in *. rewrite (month_window _ _ d HM). lia.
Qed.

(** The rows of a month: the user's rows whose date falls in the calendar
    month of [month]. *)
Definition inMonthOf (month d : Z) : bool :=
  bool_decide (getFullYear d = getFullYear month ∧ getMonth d = getMonth month).

(** An expense row of category [c]: the rows the code adds to
    [byCategory[c]]. *)
Definition expenseIn (c : string) (t : Transaction.t) : bool :=
  isExpense t && String.eqb (Transaction.category t) c.

Lemma fold_stats l acc :
  let s := fold_left stats_step l acc in
  totalExpenses s = totalExpenses acc + sumZ Transaction.amount (List.filter isExpense l)
  ∧ totalIncome s = totalIncome acc
                    + sumZ Transaction.amount (List.filter (λ t, negb (isExpense t)) l)
  ∧ transactionCount s = transactionCount acc
  ∧ ∀ c, byCategory s !! c =
           if existsb (expenseIn c) l
           then Some (default 0 (byCategory acc !! c)
                      + sumZ Transaction.amount (List.filter (expenseIn c) l))
           else byCategory acc !! c.
Proof.
  revert acc. induction l as [|t l IH]; intros acc; cbv zeta.
  - cbn. split_and!; [lia|lia|done|]. done.
  - cbn [fold_left]. destruct (IH (stats_step acc t)) as (He & Hi & Hn & Hc).
    rewrite He, Hi, Hn. clear He Hi Hn. unfold expenseIn in *. cbn [List.filter existsb].
    unfold stats_step in *. destruct (isExpense t);
      cbn [negb andb orb totalExpenses totalIncome transactionCount byCategory] in *;
      rewrite ?sumZ_cons; (split_and!; [lia|lia|done|]); intros c; rewrite Hc.
    + destruct (String.eqb_spec (Transaction.category t) c) as [<-|Hne]; cbn [orb].
      * rewrite lookup_insert_eq.
        destruct (existsb _ l) eqn:Hex; cbn [default from_option id]; rewrite ?sumZ_cons;
          [|rewrite filter_existsb_false by done; cbn [sumZ foldr]]; f_equal; lia.
      * rewrite lookup_insert_ne by done. reflexivity.
    + reflexivity.
Qed.
(** The sum of the values of the per-category breakdown
    ([Object.values(byCategory)] added up). *)
Definition categoryTotal (m : gmap string Z) : Z := map_fold (λ _ v acc, v + acc) 0 m.

Lemma categoryTotal_insert_fresh m c v :
  m !! c = None → categoryTotal (<[c := v]> m) = v + categoryTotal m.
Proof.
  intros Hc. unfold categoryTotal. rewrite map_fold_insert_L; [done| |done].
  intros. lia.
Qed.

(** Adding [a] to the entry of [c] (created at 0) adds [a] to the total. *)
Lemma categoryTotal_add m c a :
  categoryTotal (<[c := default 0 (m !! c) + a]> m) = categoryTotal m + a.
Proof.
  destruct (m !! c) as [v|] eqn:Hc; cbn [default from_option id].
  - rewrite <- (insert_delete_id m c v Hc) at 2. rewrite <- (insert_delete_eq m).
    rewrite !categoryTotal_insert_fresh by apply lookup_delete_eq. lia.
  - rewrite categoryTotal_insert_fresh by done. lia.
Qed.

Lemma fold_stats_total l acc :
  categoryTotal (byCategory (fold_left stats_step l acc)) - totalExpenses (fold_left stats_step l acc)
  = categoryTotal (byCategory acc) - totalExpenses acc.
Proof.
  revert acc. induction l as [|t l IH]; intros acc; [done|]. cbn [fold_left]. rewrite IH.
  unfold stats_step. destruct (isExpense t); cbn [byCategory totalExpenses]; [|done].
  rewrite categoryTotal_add. lia.
Qed.

(** Two [Stats] with the same totals, count and breakdown entries are equal. *)
Lemma Stats_eq s s' :
  totalExpenses s = totalExpenses s' → totalIncome s = totalIncome s' →
  transactionCount s = transactionCount s' → (∀ c, byCategory s !! c = byCategory s' !! c) →
  s = s'.
Proof.
  destruct s, s'; cbn. intros -> -> -> Hc. f_equal. by apply map_eq.
Qed.
#[export] Instance newerOrSame_trans : Transitive newerOrSame.
Proof. unfold newerOrSame. intros ???; lia. Qed.
#[export] Instance newerOrSame_total : Total newerOrSame.
Proof. unfold newerOrSame. intros ??; lia. Qed.

(** [getMonthlyStats] reads its [month] argument only through its year
    and month. *)
Lemma getMonthlyStats_month_only uid m m' db :
  getFullYear m = getFullYear m' → getMonth m = getMonth m' →
  getMonthlyStats uid m db = getMonthlyStats uid m' db.
Proof.
  intros Hy Hm. unfold getMonthlyStats, monthTransactions, statsBounds. by rewrite Hy, Hm.
Qed.

(** [x.getDate()] of [lastMonthOf now] etc. in terms of [setMonth_prev]. *)
Lemma lastMonthOf_spec now :
  let Y := getFullYear now in let M := getMonth now in let D := getDate now in
  let dimp := DaysInMonth (prevYear Y M) (prevMonth M) in
  (D <= dimp → monthLabel (lastMonthOf now) = (prevYear Y M, prevMonth M))
  ∧ (dimp < D → monthLabel (lastMonthOf now) = monthLabel now).
Proof.
  cbv zeta. unfold monthLabel, lastMonthOf, getFullYear, getMonth, getDate.
  destruct (setMonth_prev now) as [Hle Hgt]. cbv zeta in Hle, Hgt.
  split; intros Hd; [destruct (Hle Hd) as (-> & -> & _)|destruct (Hgt Hd) as (-> & -> & _)]; done.
Qed.

(** ** Sample data for the witnesses: March 2024 (February 2024 has 29
    days). *)
Module Sample.
Import Ledger.Sample.
Definition mar (d h : Z) : Z := new_Date 2024 2 d h 0 0 0.
Definition feb (d h : Z) : Z := new_Date 2024 1 d h 0 0 0.
Definition rows : list Transaction.t :=
  [expense "t1" 1250 (mar 3 12); income "t2" 300000 (mar 1 9);
   Transaction.mk "t3" EXPENSE 4000 None (mar 31 20) "rent" false None None "user_1" "acc_1";
   expense "t4" 999 (feb 29 23); expense "t5" 500 (mar 15 8)].
Definition sample_db : Db := store rows [].
End Sample.
(** ** Theorems *)

(** C12: with a year of 100 or more, the rows [getMonthlyStats] loads are
    exactly the user's rows whose date lies in the calendar month of
    [month], in store order: the bounds [new Date(y, m, 1)] and
    [new Date(y, m + 1, 0, 23, 59, 59, 999)] lose no millisecond of the
    month and take none of the next. *)
Theorem getMonthlyStats_window uid month db :
  100 <= getFullYear month →
  monthTransactions uid month db =
  List.filter (λ t, String.eqb (Transaction.userId t) uid && inMonthOf month (Transaction.date t))
    (db_transactions db).
Proof.
  intros Hy. pose proof (λ d, statsBounds_spec month d Hy) as Hs. unfold monthTransactions.
  destruct (statsBounds month) as [s e]. cbn [fst snd] in Hs.
  apply List.filter_ext. intros t. unfold statsWhere, inMonthOf. rewrite <- andb_assoc. f_equal.
  apply Bool.eq_iff_eq_true. rewrite andb_true_iff, !Z.leb_le, bool_decide_eq_true. apply Hs.
Qed.

Lemma getMonthlyStats_window_witness :
  monthTransactions "user_1" (Sample.mar 20 10) Sample.sample_db =
  List.filter (λ t, String.eqb (Transaction.userId t) "user_1"
                    && inMonthOf (Sample.mar 20 10) (Transaction.date t))
    (db_transactions Sample.sample_db).
Proof. apply getMonthlyStats_window. by_eval. Defined.

(** C13: the [reduce] computes, over the rows of the month, the sum of the
    expenses, the sum of the other rows (income), the number of rows, and
    for each category the sum of its expenses, the category being absent
    when it has no expense. *)
Theorem getMonthlyStats_spec uid month db :
  let rows := monthTransactions uid month db in
  let s := getMonthlyStats uid month db in
  totalExpenses s = sumZ Transaction.amount (List.filter isExpense rows)
  ∧ totalIncome s = sumZ Transaction.amount (List.filter (λ t, negb (isExpense t)) rows)
  ∧ transactionCount s = length rows
  ∧ ∀ c, byCategory s !! c =
           if existsb (expenseIn c) rows
           then Some (sumZ Transaction.amount (List.filter (expenseIn c) rows)) else None.
Proof.
  cbv zeta. unfold getMonthlyStats.
  pose proof (fold_stats (monthTransactions uid month db)
                (mkStats 0 0 ∅ (length (monthTransactions uid month db)))) as H.
  cbv zeta in H. destruct H as (He & Hi & Hn & Hc). cbn [totalExpenses totalIncome
    transactionCount byCategory] in *.
  split_and!; [lia|lia|done|]. intros c. rewrite Hc, lookup_empty. done.
Qed.





(** C17: [GET] answers 401 without a signed-in user and 404 when the user
    has no row; otherwise it reports the stats of the month of [now] and
    of [lastMonthOf now] for the user's own id. *)
Theorem GET_errors auth now db :
  (signed_in auth = None → GET auth now db = JsonError 401 "Unauthorized")
  ∧ (∀ cid, signed_in auth = Some cid → user_findUnique cid db = None →
       GET auth now db = JsonError 404 "User not found")
  ∧ (∀ cid u, signed_in auth = Some cid → user_findUnique cid db = Some u →
       ∃ r, GET auth now db = Json200 r ∧ reportUser r = u
            ∧ currentMonth r = (monthLabel now, getMonthlyStats (User.id u) now db)
            ∧ recent r = recentTransactions (User.id u) db).
Proof.
  unfold GET. split_and!.
  - by intros ->.
  - by intros cid -> ->.
  - intros cid u -> ->. by eexists.
Qed.

Lemma GET_errors_witness :
  GET None (Sample.mar 31 9) Sample.sample_db = JsonError 401 "Unauthorized"
  ∧ GET (Some "clerk_2") (Sample.mar 31 9) Sample.sample_db = JsonError 404 "User not found".
Proof.
  split; [apply (proj1 (GET_errors None _ _)); by_eval|].
  apply (proj1 (proj2 (GET_errors (Some "clerk_2") _ _)) "clerk_2"); by_eval.
Defined.

(** C18: [recentTransactions] is the ten newest of the user's rows: it is
    sorted newest first, holds [min 10 n] of the user's [n] rows, and
    every row of the user it leaves out is no newer than any it keeps. *)
Theorem recentTransactions_spec uid db :
  let mine := List.filter (λ t, String.eqb (Transaction.userId t) uid) (db_transactions db) in
  let rs := recentTransactions uid db in
  ∃ rest, rs ++ rest ≡ₚ mine ∧ StronglySorted newerOrSame rs
          ∧ length rs = Nat.min 10 (length mine)
          ∧ ∀ t u, t ∈ rs → u ∈ rest → Transaction.date u <= Transaction.date t.
Proof.
  cbv zeta. unfold recentTransactions.
  set (mine := List.filter _ (db_transactions db)).
  pose proof (StronglySorted_merge_sort newerOrSame mine) as Hs.
  pose proof (merge_sort_Permutation newerOrSame mine) as Hp.
  rewrite <- (take_drop 10 (merge_sort newerOrSame mine)) in Hs.
  exists (drop 10 (merge_sort newerOrSame mine)). split_and!.
  - by rewrite take_drop.
  - by eapply StronglySorted_app_1_l.
  - rewrite length_take, (Permutation_length Hp). lia.
  - intros t u Ht Hu. exact (StronglySorted_app_1_elem_of _ _ _ _ _ Hs Ht Hu).
Qed.

End MonthlyStats.
