(* ===== verification/UseFetch.v ===== *)
(** * UseFetch: the [useFetch] hook of [src/hooks/use-fetch.js]

    The hook keeps three pieces of React state, [loading], [data] and
    [error], and returns [execute], an [async] function that sets
    [loading] and clears [error], awaits the wrapped server action, then
    stores its value in [data] (or its exception in [error]) and clears
    [loading] in a [finally].  An [execute] is therefore two atomic steps
    separated by an [await]: [begin_call] (lines 14-15) and [end_call]
    (lines 17-37), and calls may interleave.

    The step relation [step] runs these two halves for any number of
    calls in flight; [reach] is the set of states reachable from the
    initial one.  The theorems show, by induction on [reach]:
    - with no call in flight [loading] is false;
    - when a new call is only started while [loading] is false (the
      components disable their buttons with [disabled={loading}]), at most
      one call is in flight and [loading] says exactly whether one is;
    - without that guard, two overlapping calls leave [loading] false
      while the second is still in flight;
    - a failed call keeps the [data] of an earlier success next to the
      new [error]. *)

From S2P Require Import Prelude.

Module UseFetch.

Section Hook.
Context {A : Type}.

(** Lines 5-7: [useState(false)], [useState(null)], [useState(null)]. *)
Record State := mkState {
  loading : bool;
  data : option A;
  error : option string;
}.

Definition init : State := mkState false None None.

(** Lines 14-15: [setLoading(true); setError(null)], before the [await]. *)
Definition begin_call (s : State) : State := mkState true (data s) None.

(** Lines 17-37: after the [await]: [setData(result)] and [return result],
    or [setError(err)] and [throw err]; then [setLoading(false)] in the
    [finally].  The second component is what [execute] resolves to or
    rejects with. *)
Definition end_call (r : result A) (s : State) : State * result A :=
  match r with
  | Ok a => (mkState false (Some a) (error s), Ok a)
  | Err m => (mkState false (data s) (Some m), Err m)
  end.

(** The hook's state and the number of [execute] calls in flight. *)
Definition World : Type := State * nat.

Inductive Event :=
  | Call
  | Return (r : result A).

(** Lines 9-40: [execute], as its two halves. *)
Inductive step : World → Event → World → Prop :=
  | step_call s n : step (s, n) Call (begin_call s, S n)
  | step_return s n r : step (s, S n) (Return r) ((end_call r s).1, n).

(** The same step as a function, for running concrete traces. *)
Definition step_fn (w : World) (e : Event) : option World :=
  match e, w with
  | Call, (s, n) => Some (begin_call s, S n)
  | Return r, (s, S n) => Some ((end_call r s).1, n)
  | Return _, (_, 0) => None
  end.

Fixpoint run (w : World) (es : list Event) : option World :=
  match es with
  | [] => Some w
  | e :: es => step_fn w e ≫= λ w', run w' es
  end.

Inductive reach : World → Prop :=
  | reach_init : reach (init, 0)
  | reach_step w e w' : reach w → step w e w' → reach w'.

(** The callers disable the button that starts a call while [loading] is
    true ([disabled={isLoading}] in [budget-progress.jsx],
    [disabled={updateDefaultLoading}] in [account-card.jsx]). *)
Definition allowed (w : World) (e : Event) : bool :=
  match e with
  | Call => negb (loading w.1)
  | Return _ => true
  end.

Inductive reach_guarded : World → Prop :=
  | rg_init : reach_guarded (init, 0)
  | rg_step w e w' : reach_guarded w → allowed w e = true → step w e w' → reach_guarded w'.

(** ** Lemmas *)

Lemma step_fn_step w e w' : step_fn w e = Some w' ↔ step w e w'.
Proof.
  split.
  - destruct e, w as [s [|n]]; cbn; intros [=<-]; constructor.
  - by intros [].
Qed.

Lemma run_reach w es w' : reach w → run w es = Some w' → reach w'.
Proof.
  revert w. induction es as [|e es IH]; cbn; intros w Hw Hr; [by simplify_eq|].
  destruct (step_fn w e) as [w1|] eqn:Hs; [|discriminate].
  apply (IH w1); [|done]. econstructor; [done|]. by apply step_fn_step.
Qed.

Lemma end_call_loading r s : loading (end_call r s).1 = false.
Proof. by destruct r. Qed.

Lemma reach_guarded_reach w : reach_guarded w → reach w.
Proof. induction 1; econstructor; eauto. Qed.

(** ** Theorems *)

(** C19: in every reachable state with no [execute] in flight, [loading]
    is false: each call's [finally] clears it. *)
Theorem reach_idle_not_loading s : reach (s, 0) → loading s = false.
Proof.
  enough (∀ w, reach w → w.2 = 0 → loading w.1 = false) as H by (intros Hr; exact (H _ Hr eq_refl)).
  induction 1 as [|w e w' _ IH Hs]; [done|]. destruct Hs; cbn; [discriminate|].
  intros _. apply end_call_loading.
Qed.

(** C20: when calls are only started while [loading] is false, at most
    one call is in flight, [loading] is true exactly when one is, and
    [error] is clear while it runs; a call that succeeds with [a] leaves
    [data = a] and no [error]. *)
Theorem guarded_invariant w :
  reach_guarded w →
  w.2 <= 1 ∧ (loading w.1 = true ↔ w.2 = 1) ∧ (loading w.1 = true → error w.1 = None)
  ∧ ∀ a w', step w (Return (Ok a)) w' → data w'.1 = Some a ∧ error w'.1 = None.
Proof.
  intros Hg. enough (w.2 <= 1 ∧ (loading w.1 = true ↔ w.2 = 1) ∧ (loading w.1 = true → error w.1 = None))
    as (H1 & H2 & H3).
  { split_and!; [done|done|done|]. intros a w' Hs. inversion Hs; subst; cbn in *.
    split; [done|]. apply H3, H2. lia. }
  induction Hg as [|w e w' _ (IH1 & IH2 & IH3) Ha Hs]; [cbn; split_and!; [lia|done|done]|].
  destruct Hs as [s n|s n r]; cbn in *.
  - apply negb_true_iff in Ha. rewrite Ha in IH2.
    assert (n ≠ 1) by (intros ->; discriminate (proj2 IH2 eq_refl)). assert (n = 0) as -> by lia. done.
  - rewrite end_call_loading. split_and!; [lia| |done]. split; [discriminate|lia].
Qed.

(** C21: without the guard, a second [execute] started before the first
    returns is cleared by the first one's [finally]: the state after
    [Call; Call; Return (Ok a)] shows [loading] false while a call is
    still in flight.  After a later failure the hook holds the old
    [data] and the new [error] together. *)
Theorem execute_overlap (a : A) (m : string) :
  reach (mkState false (Some a) None, 1)
  ∧ run (init, 0) [Call; Return (Ok a); Call; Return (Err m)]
    = Some (mkState false (Some a) (Some m), 0).
Proof.
  split; [|reflexivity].
  apply (run_reach (init, 0) [Call; Call; Return (Ok a)]); [constructor|reflexivity].
Qed.

End Hook.

Arguments State : clear implicits.
Arguments World : clear implicits.
Arguments Event : clear implicits.

Lemma reach_idle_not_loading_witness :
  reach (mkState (A := unit) false (Some tt) None, 0) ∧ loading (mkState (A := unit) false (Some tt) None) = false.
Proof.
  assert (Hr : reach (mkState (A := unit) false (Some tt) None, 0)).
  { apply (run_reach (init, 0) [Call; Return (Ok tt)]); [constructor|reflexivity]. }
  split; [exact Hr|exact (reach_idle_not_loading _ Hr)].
Defined.

Lemma guarded_invariant_witness :
  reach_guarded (A := unit) (begin_call init, 1)
  ∧ loading (A := unit) (begin_call init) = true.
Proof.
  assert (Hg : reach_guarded (A := unit) (begin_call init, 1)).
  { apply (rg_step (init, 0) Call); [constructor|reflexivity|constructor]. }
  split; [exact Hg|]. apply (proj1 (proj2 (guarded_invariant _ Hg))). reflexivity.
Defined.

End UseFetch.
