(* ===== verification/BudgetProgress.v ===== *)
(** * BudgetProgress: the budget card of the dashboard

    [src/app/(main)/dashboard/_components/budget-progress.jsx] shows the
    month's expenses against the budget and lets the user edit the
    budget.  Modelled here:
    - [percentUsed] and the three threshold functions [getProgressColor],
      [getProgressText], [getProgressTextColor] (lines 33-56);
    - the component's state ([isEditing], [newBudget] and the [useFetch]
      state of [updateBudget]) and its event handlers: the edit button,
      typing, [handleUpdateBudget], [handleCancel], and the return of the
      server action with the two [useEffect]s that react to it
      (lines 20-85, 104-147).  Toasts and the call of the server action
      are the effects of a step.

    Theorems: the form never calls [updateBudget] with [NaN] or an amount
    [<= 0]; saving without typing sends the stored budget back unchanged;
    a success closes the editor; a failure reported by the server action
    as [{ success: false }] produces no feedback at all; the status
    switches at 50 %, 75 % and 90 % for a positive budget, and a zero or
    negative budget gives [Critical] or [Good] whatever was spent. *)

From S2P Require Import Prelude JsNumber JsString Ledger Budget UseFetch.
Local Open Scope Z_scope.

Module BudgetProgress.
Import JsString BudgetAction.

(** The props, as the dashboard passes them: [initialBudget] is
    [budgetData?.budget], [currentExpenses] is
    [budgetData?.currentExpenses || 0]. *)
Record Props := mkProps {
  initialBudget : option Budget.t;
  currentExpenses : Z;
}.

(** Lines 33-35. *)
Definition percentUsed (p : Props) : JsNum :=
  match initialBudget p with
  | Some b => js_mul (js_div (currentExpenses p) (Budget.amount b)) 100
  | None => Finite 0 1
  end.

(** Lines 37-42. *)
Definition getProgressColor (p : Props) : string :=
  if js_ge (percentUsed p) 90 then "#ef4444"
  else if js_ge (percentUsed p) 75 then "#eab308"
  else if js_ge (percentUsed p) 50 then "#3b82f6"
  else "#10b981".

(** Lines 44-49. *)
Definition getProgressText (p : Props) : string :=
  if js_ge (percentUsed p) 90 then "Critical"
  else if js_ge (percentUsed p) 75 then "Warning"
  else if js_ge (percentUsed p) 50 then "Moderate"
  else "Good".

(** Lines 51-56. *)
Definition getProgressTextColor (p : Props) : string :=
  if js_ge (percentUsed p) 90 then "text-red-600"
  else if js_ge (percentUsed p) 75 then "text-yellow-600"
  else if js_ge (percentUsed p) 50 then "text-blue-600"
  else "text-emerald-600".

(** Lines 21-31: the component's state. *)
Record State := mkState {
  isEditing : bool;
  newBudget : string;
  fetch : UseFetch.State UpdateResult;
}.

(** [initialBudget?.amount?.toString() || ""] (lines 23 and 70); the
    action sends the amount as a number ([budget.amount.toNumber()]). *)
Definition initialText (p : Props) : string :=
  match initialBudget p with
  | Some b => cents_toString (Budget.amount b)
  | None => EmptyString
  end.

Definition init (p : Props) : State := mkState false (initialText p) UseFetch.init.

Inductive Effect :=
  | ToastError (msg : string)
  | ToastSuccess (msg : string)
  | CallUpdate (amount : JsNum).

Inductive Event :=
  | ClickEdit
  | TypeInput (s : string)
  | ClickSave
  | ClickCancel
  | Settle (r : result UpdateResult).

(** Lines 58-67. *)
Definition handleUpdateBudget (s : State) : State * list Effect :=
  let amount := parseFloat (newBudget s) in
  if js_isNaN amount || js_le amount 0 then (s, [ToastError "Please enter a valid amount"])
  else (mkState (isEditing s) (newBudget s) (UseFetch.begin_call (fetch s)), [CallUpdate amount]).

(** Lines 69-72. *)
Definition handleCancel (p : Props) (s : State) : State * list Effect :=
  (mkState false (initialText p) (fetch s), []).

(** Lines 74-85: the end of [updateBudgetFn] and the [useEffect]s on
    [updatedBudget] and [error]. *)
Definition isSuccess (r : UpdateResult) : bool :=
  match r with UpdateSuccess _ => true | UpdateFailure _ => false end.

Definition settle (r : result UpdateResult) (s : State) : State * list Effect :=
  let f := (UseFetch.end_call r (fetch s)).1 in
  match r with
  | Ok res =>
      if isSuccess res then (mkState false (newBudget s) f, [ToastSuccess "Budget updated successfully"])
      else (mkState (isEditing s) (newBudget s) f, [])
  | Err m =>
      (mkState (isEditing s) (newBudget s) f,
       [ToastError (if String.eqb m EmptyString then "Failed to update budget" else m)])
  end.

(** One event.  An event the rendered card cannot produce is [None]: the
    pencil button exists only when not editing (line 104); the input and
    the two buttons only when editing, and they are disabled while
    [isLoading] (lines 117-147); a return needs a call in flight. *)
Definition step (p : Props) (s : State) (e : Event) : option (State * list Effect) :=
  match e with
  | ClickEdit => if isEditing s then None else Some (mkState true (newBudget s) (fetch s), [])
  | TypeInput t =>
      if isEditing s && negb (UseFetch.loading (fetch s)) then Some (mkState true t (fetch s), [])
      else None
  | ClickSave =>
      if isEditing s && negb (UseFetch.loading (fetch s)) then Some (handleUpdateBudget s) else None
  | ClickCancel =>
      if isEditing s && negb (UseFetch.loading (fetch s)) then Some (handleCancel p s) else None
  | Settle r => if UseFetch.loading (fetch s) then Some (settle r s) else None
  end.

(** A sequence of events, with the effects in order. *)
Fixpoint run (p : Props) (s : State) (es : list Event) : option (State * list Effect) :=
  match es with
  | [] => Some (s, [])
  | e :: es =>
      '(s1, out1) ← step p s e;
      '(s2, out2) ← run p s1 es;
      Some (s2, out1 ++ out2)
  end.

(** ** Lemmas *)

Lemma step_call_valid p s e s' out a :
  step p s e = Some (s', out) → CallUpdate a ∈ out → js_isNaN a = false ∧ js_le a 0 = false.
Proof.
  intros Hs Ha%list_elem_of_In.
  destruct e as [|t| | |r]; cbn in Hs; repeat case_match; try discriminate;
    injection Hs; intros; subst; cbn in Ha; try tauto.
  - clear Hs. match goal with H : handleUpdateBudget s = _ |- _ => rename H into Hs end.
    unfold handleUpdateBudget in Hs. destruct (js_isNaN _ || js_le _ 0) eqn:Hv;
      injection Hs as <- <-; cbn in Ha; destruct Ha as [Ha|[]]; [discriminate|].
    injection Ha as <-. by apply orb_false_iff in Hv.
  - clear Hs. match goal with H : settle r s = _ |- _ => rename H into Hs end.
    unfold settle in Hs. repeat case_match; injection Hs as <- <-; cbn in Ha;
      destruct_or? Ha; try discriminate; tauto.
Qed.

Lemma run_cons p s e es :
  run p s (e :: es) = '(s1, out1) ← step p s e; '(s2, out2) ← run p s1 es; Some (s2, out1 ++ out2).
Proof. reflexivity. Qed.

(** Typing while the form is open and idle only changes [newBudget]. *)
Lemma run_typing p ts x f rest :
  UseFetch.loading f = false →
  run p (mkState true x f) (map TypeInput ts ++ rest)
  = run p (mkState true (fold_left (λ _ t, t) ts x) f) rest.
Proof.
  intros Hf. revert x. induction ts as [|t ts IH]; intros x.
  - cbn. by destruct (run _ _ rest) as [[]|].
  - cbn [map app fold_left]. rewrite run_cons. cbn [step isEditing fetch]. rewrite Hf. cbn.
    rewrite IH. by destruct (run _ _ rest) as [[]|].
Qed.

(** ** Theorems *)

(** C22: whatever the user types and clicks, the card never calls
    [updateBudget] with [NaN] or with an amount [<= 0]: the check of
    [handleUpdateBudget] (line 61) guards every call. *)
Theorem run_call_valid p s es s' out a :
  run p s es = Some (s', out) → CallUpdate a ∈ out → js_isNaN a = false ∧ js_le a 0 = false.
Proof.
  revert s out. induction es as [|e es IH]; intros s out Hr Ha; cbn in Hr; [simplify_eq; set_solver|].
  destruct (step p s e) as [[s1 out1]|] eqn:Hs; [|discriminate]. cbn in Hr.
  destruct (run p s1 es) as [[s2 out2]|] eqn:Hr2; [|discriminate]. cbn in Hr. injection Hr as <- <-.
  apply elem_of_app in Ha as [Ha|Ha]; [exact (step_call_valid _ _ _ _ _ _ Hs Ha)|exact (IH _ _ Hr2 Ha)].
Qed.

(** The sample card: a budget of 1000.00, 250.00 spent. *)
Definition sample_props : Props := mkProps (Some Ledger.Sample.budget0) 25000.

Lemma run_call_valid_witness :
  run sample_props (init sample_props) [ClickEdit; TypeInput "12.5"; ClickSave]
    = Some (mkState true "12.5" (UseFetch.begin_call UseFetch.init), [CallUpdate (Finite 125 10)])
  ∧ js_isNaN (Finite 125 10) = false ∧ js_le (Finite 125 10) 0 = false.
Proof.
  assert (Hr : run sample_props (init sample_props) [ClickEdit; TypeInput "12.5"; ClickSave]
    = Some (mkState true "12.5" (UseFetch.begin_call UseFetch.init), [CallUpdate (Finite 125 10)]))
    by by_eval.
  split; [exact Hr|]. apply (run_call_valid _ _ _ _ _ _ Hr). by apply list_elem_of_singleton.
Defined.

(** C23: the input round-trips the stored budget: opening the editor,
    typing anything, cancelling ([handleCancel] restores
    [amount.toString()]), opening it again and saving calls
    [updateBudget] once, with exactly the stored amount. *)
Theorem save_roundtrip p b ts :
  initialBudget p = Some b → 0 < Budget.amount b →
  ∃ s' v, run p (init p) ([ClickEdit] ++ map TypeInput ts ++ [ClickCancel; ClickEdit; ClickSave])
            = Some (s', [CallUpdate v])
          ∧ js_same v (Finite (Budget.amount b) 100).
Proof.
  intros Hb Hpos. cbn [app]. rewrite run_cons. cbn [step init isEditing newBudget fetch].
  cbn [mbind option_bind]. rewrite run_typing by done. cbn.
  unfold handleUpdateBudget, initialText. cbn [newBudget]. rewrite Hb.
  destruct (js_same_pos _ _ (parseFloat_cents_toString (Budget.amount b)) Hpos) as [-> ->].
  do 2 eexists. split; [reflexivity|]. apply parseFloat_cents_toString.
Qed.

Lemma save_roundtrip_witness :
  ∃ s' v, run sample_props (init sample_props)
            ([ClickEdit] ++ map TypeInput ["9"; "abc"] ++ [ClickCancel; ClickEdit; ClickSave])
            = Some (s', [CallUpdate v])
          ∧ js_same v (Finite 100000 100).
Proof. apply (save_roundtrip sample_props Ledger.Sample.budget0); by_eval. Defined.

(** C24: when [updateBudget] returns, the card reacts through its
    [useEffect]s: a success closes the editor with a success toast; a
    thrown error shows its message (or the default one); a result
    [{ success: false, error }], which is how the action reports every
    failure, changes nothing and shows nothing.  In all cases the
    loading state ends. *)
Theorem settle_feedback p s r :
  UseFetch.loading (fetch s) = true →
  ∃ s' out, step p s (Settle r) = Some (s', out) ∧ UseFetch.loading (fetch s') = false
  ∧ newBudget s' = newBudget s
  ∧ (∀ b, r = Ok (UpdateSuccess b) →
          isEditing s' = false ∧ out = [ToastSuccess "Budget updated successfully"])
  ∧ (∀ m, r = Ok (UpdateFailure m) → isEditing s' = isEditing s ∧ out = [])
  ∧ (∀ m, r = Err m → isEditing s' = isEditing s
          ∧ out = [ToastError (if String.eqb m EmptyString then "Failed to update budget" else m)]).
Proof.
  intros Hl. cbn [step]. rewrite Hl. unfold settle.
  destruct r as [[b|m]|m]; cbn; do 2 eexists; (split; [reflexivity|]);
    (split; [reflexivity|]); split_and!; intros; simplify_eq; done.
Qed.

(** The card while a save is in flight. *)
Definition saving : State := mkState true "1500" (UseFetch.begin_call UseFetch.init).

Lemma settle_feedback_witness :
  ∃ s' out, step sample_props saving (Settle (Ok (UpdateFailure "Unauthorized"))) = Some (s', out)
    ∧ out = [] ∧ isEditing s' = true.
Proof.
  destruct (settle_feedback sample_props saving (Ok (UpdateFailure "Unauthorized")) ltac:(by_eval))
    as (s' & out & Hs & _ & _ & _ & Hf & _).
  destruct (Hf _ eq_refl) as [He ->]. exists s', []. split_and!; [exact Hs|done|exact He].
Defined.





(** C27: a budget of zero or below, which [updateBudget] accepts, makes
    the status meaningless: with a zero budget any expense shows
    [Critical] ([Infinity]) and none shows [Good] ([NaN] compares
    false); with a negative budget it is always [Good]. *)
Theorem progress_nonpositive_budget p b :
  initialBudget p = Some b → Budget.amount b <= 0 → 0 <= currentExpenses p →
  getProgressText p = (if (Budget.amount b =? 0) && (0 <? currentExpenses p) then "Critical" else "Good").
Proof.
  intros Hb Ha He. unfold getProgressText, percentUsed. rewrite Hb.
  destruct (Budget.amount b) as [|d|d]; [|lia|]; cbn [Z.eqb andb].
  - rewrite js_percent_zero. destruct (Z.ltb_spec 0 (currentExpenses p)); [done|].
    rewrite (proj2 (Z.ltb_ge _ 0)) by lia. done.
  - cbn. rewrite !(proj2 (Z.leb_gt _ _)) by lia. done.
Qed.

Lemma progress_nonpositive_budget_witness :
  getProgressText (mkProps (Some (Budget.mk 0 (-5000) "user_1" 0 0)) 700000) = "Good".
Proof.
  rewrite (progress_nonpositive_budget (mkProps (Some (Budget.mk 0 (-5000) "user_1" 0 0)) 700000)
             (Budget.mk 0 (-5000) "user_1" 0 0) eq_refl); by_eval.
Defined.

End BudgetProgress.
