(* ===== verification/PeriodCalculator.v ===== *)
(** * PeriodCalculator: the period bounds and recurrence dates of the spec

    The spec (section 4.1) describes a Period Calculator whose code is
    not under [src/] (the repository's Inngest functions): this file
    models it from the spec, over the [JsDate] calendar.
    - [periodBounds ref] is the first and the last millisecond of the
      calendar month of [ref].
    - [advance t i] moves a date by one recurrence interval, keeping the
      time of day: one day, seven days, one calendar month or one
      calendar year, the day of the month clamped to the last day of the
      target month (January 31 + MONTHLY is February 28 or 29; February
      29 + YEARLY is February 28 in a common year).

    Theorems: [advance] strictly increases a date, lands on the clamped
    date of the next month or year (so repeated monthly advances from
    the 31st stay on valid dates, and never wrap into the following
    month, which is what [setMonth(getMonth() + 1)] does), and the period
    bounds contain exactly the month. *)

From S2P Require Import Prelude JsDate Ledger.
Import JsDate.
Local Open Scope Z_scope.

Module PeriodCalculator.

(** The month after month [m] of year [y], for [0 <= m <= 11]. *)
Definition nextYear (y m : Z) : Z := if m =? 11 then y + 1 else y.
Definition nextMonth (m : Z) : Z := if m =? 11 then 0 else m + 1.

(** [periodBounds(referenceInstant) -> (startInclusive, endInclusive)]. *)
Definition periodBounds (ref : Z) : Z * Z :=
  let y := YearFromTime ref in
  let m := MonthFromTime ref in
  (MakeDate (MakeDay y m 1) 0, MakeDate (MakeDay y (m + 1) 1) 0 - 1).

(** The time [t] moved to year [y], month [m], with its date clamped to
    the month and its time of day kept. *)
Definition clampTo (t y m : Z) : Z :=
  MakeDate (MakeDay y m (Z.min (DateFromTime t) (DaysInMonth y m))) (TimeWithinDay t).

(** [advance(date, interval) -> nextDate]. *)
Definition advance (t : Z) (i : RecurringInterval) : Z :=
  match i with
  | DAILY => t + msPerDay
  | WEEKLY => t + 7 * msPerDay
  | MONTHLY => clampTo t (nextYear (YearFromTime t) (MonthFromTime t)) (nextMonth (MonthFromTime t))
  | YEARLY => clampTo t (YearFromTime t + 1) (MonthFromTime t)
  end.

(** ** Lemmas *)

Lemma nextMonth_range m : 0 <= m <= 11 → 0 <= nextMonth m <= 11.
Proof. unfold nextMonth. destruct (Z.eqb_spec m 11); lia. Qed.

Lemma MakeDay_next y m :
  0 <= m <= 11 → MakeDay (nextYear y m) (nextMonth m) 1 = MakeDay y m 1 + DaysInMonth y m.
Proof.
  intros Hm. rewrite <- MakeDay_next_month by done. unfold nextYear, nextMonth.
  rewrite (MakeDay_normalize y (m + 1)).
  destruct (Z.eqb_spec m 11) as [->|Hne]; [reflexivity|].
  rewrite (Z.div_small (m + 1) 12), (Z.mod_small (m + 1) 12), Z.add_0_r by lia. reflexivity.
Qed.

(** A year later, the first of the same month is at least 334 days on. *)
Lemma MakeDay_next_year y m :
  0 <= m <= 11 → MakeDay y m 1 + 334 <= MakeDay (y + 1) m 1.
Proof.
  intros Hm. rewrite !MakeDay_in_range by done. rewrite DayFromYear_next.
  pose proof (month_start_bounds (leap y) m (leap_range y) Hm).
  pose proof (month_start_bounds (leap (y + 1)) m (leap_range (y + 1)) Hm).
  pose proof (leap_range y). pose proof (leap_range (y + 1)).
  unfold month_start in *. destruct (2 <=? m); lia.
Qed.

(** The getters of a clamped date, and its day number. *)
Lemma clampTo_getters t y m :
  0 <= m <= 11 →
  let d := Z.min (DateFromTime t) (DaysInMonth y m) in
  YearFromTime (clampTo t y m) = y ∧ MonthFromTime (clampTo t y m) = m
  ∧ DateFromTime (clampTo t y m) = d ∧ TimeWithinDay (clampTo t y m) = TimeWithinDay t
  ∧ Day (clampTo t y m) = MakeDay y m 1 + d - 1.
Proof.
  intros Hm. cbv zeta. destruct (Day_decompose t) as (_ & _ & HD).
  pose proof (DaysInMonth_range y m Hm) as Hdim. unfold clampTo.
  set (D := DateFromTime t) in *. clearbody D.
  destruct (Day_MakeDate (MakeDay y m (Z.min D (DaysInMonth y m))) (TimeWithinDay t)
              (proj2 (time_split t))) as [Hday Htod].
  unfold YearFromTime, MonthFromTime, DateFromTime. rewrite Hday, Htod.
  destruct (MakeDay_getters y m (Z.min D (DaysInMonth y m))) as (-> & -> & ->); [done|lia|].
  split_and!; try done. apply MakeDay_date.
Qed.

(** A clamped date whose first of month is after the month of [t] is
    after [t]. *)
Lemma clampTo_after t y m :
  0 <= m <= 11 →
  MakeDay (YearFromTime t) (MonthFromTime t) 1 + DaysInMonth (YearFromTime t) (MonthFromTime t)
    <= MakeDay y m 1 →
  t < clampTo t y m.
Proof.
  intros Hm Hle. destruct (clampTo_getters t y m Hm) as (_ & _ & _ & Htod & Hday).
  destruct (Day_decompose t) as (Hdt & _ & HD). pose proof (DaysInMonth_range y m Hm).
  pose proof (time_split t) as [Ht _]. pose proof (time_split (clampTo t y m)) as [Hc _].
  rewrite Htod, Hday in Hc. rewrite Hdt in Ht. unfold msPerDay in *.
  assert (Hlt : MakeDay (YearFromTime t) (MonthFromTime t) 1 + DateFromTime t - 1
                < MakeDay y m 1 + Z.min (DateFromTime t) (DaysInMonth y m) - 1) by lia.
  revert Hlt Ht Hc. generalize (MakeDay (YearFromTime t) (MonthFromTime t) 1 + DateFromTime t - 1),
    (MakeDay y m 1 + Z.min (DateFromTime t) (DaysInMonth y m) - 1), (TimeWithinDay t).
  intros a b c Hab -> ->. nia.
Qed.

Lemma advance_gt t i : t < advance t i.
Proof.
  destruct (Day_decompose t) as (_ & HM & _). pose proof (DaysInMonth_range (YearFromTime t) _ HM).
  destruct i; cbn [advance]; unfold msPerDay; try lia.
  - apply clampTo_after; [by apply nextMonth_range|]. rewrite MakeDay_next by done. lia.
  - apply clampTo_after; [done|]. pose proof (MakeDay_next_year (YearFromTime t) _ HM). lia.
Qed.

(** The period bounds hold exactly the time values of the month. *)
Lemma periodBounds_spec ref t :
  (periodBounds ref).1 <= t <= (periodBounds ref).2 ↔
  YearFromTime t = YearFromTime ref ∧ MonthFromTime t = MonthFromTime ref.
Proof.
  destruct (Day_decompose ref) as (_ & HM & _). unfold periodBounds. cbn [fst snd].
  rewrite (month_window _ _ t HM). lia.
Qed.

(** ** Theorems *)

(** [advance] strictly increases a date, and so does advancing
    twice: [d < advance d i < advance (advance d i) i] for every interval
    (spec section 8, monotonicity). *)
Theorem advance_increasing t i : t < advance t i ∧ advance t i < advance (advance t i) i.
Proof. split; apply advance_gt. Qed.

(** A monthly advance lands on the next calendar month, on the same
    date clamped to that month's length, at the same time of day; a
    yearly advance lands on the same month of the next year, clamped
    likewise (the clamping law of spec section 4.1: no wrap into the
    month after). *)
Theorem advance_calendar t :
  let y := YearFromTime t in let m := MonthFromTime t in let d := DateFromTime t in
  let t1 := advance t MONTHLY in let t2 := advance t YEARLY in
  (YearFromTime t1 = nextYear y m ∧ MonthFromTime t1 = nextMonth m
   ∧ DateFromTime t1 = Z.min d (DaysInMonth (nextYear y m) (nextMonth m))
   ∧ TimeWithinDay t1 = TimeWithinDay t)
  ∧ (YearFromTime t2 = y + 1 ∧ MonthFromTime t2 = m ∧ DateFromTime t2 = Z.min d (DaysInMonth (y + 1) m)
     ∧ TimeWithinDay t2 = TimeWithinDay t).
Proof.
  cbv zeta. destruct (Day_decompose t) as (_ & HM & _). cbn [advance].
  destruct (clampTo_getters t (nextYear (YearFromTime t) (MonthFromTime t)) (nextMonth (MonthFromTime t))
              (nextMonth_range _ HM)) as (H1 & H2 & H3 & H4 & _).
  destruct (clampTo_getters t (YearFromTime t + 1) (MonthFromTime t) HM) as (H5 & H6 & H7 & H8 & _).
  done.
Qed.

End PeriodCalculator.
