(* ===== verification/Recurrence.v ===== *)
(** * Recurrence: the recurrence advancer of the spec

    Spec section 4.3 describes the settlement of recurring transactions;
    its code is not under [src/] (the repository's Inngest functions), so
    it is modelled here from the spec, over the [Ledger] store.  A
    recurring transaction is a row with [isRecurring], an interval and a
    [nextRecurringDate]; it is [DUE] when that date is at or before now.
    Settling a due row is three writes, in this order:
    (a) insert a new, non-recurring transaction with the same account,
        category, kind and amount, dated at the due date;
    (b) move the row's [nextRecurringDate] on by [advance];
    (c) add the new transaction's signed amount to the account's balance.
    [settle] applies the three as one atomic unit.  [crash_atomic] and
    [crash_durable] describe a crash after [k] of the writes, with the
    writes committed together or each made durable at once.

    Theorems: settling twice with the same clock makes exactly one new
    occurrence when, and only when, the due date is not already past
    [now] after one advance; the spec's scenario (January 31, 2024,
    monthly, 50.00); a crash anywhere in an atomic settlement followed by
    a retry settles the due date exactly once, while with durable
    individual writes a crash after (a) makes a retry settle it twice;
    and settlement keeps every account's balance equal to its opening
    balance plus the signed amounts of its transactions.  The budget card
    of the code observes a settlement: [getCurrentBudget] of the account
    grows by the settled expense when its date is in the card's window. *)

From stdpp Require Import pretty.
From S2P Require Import Prelude JsDate Ledger Budget PeriodCalculator.
Local Open Scope Z_scope.

Module Recurrence.
Import PeriodCalculator.

(** The signed effect of a transaction on its account. *)
Definition signed (t : Transaction.t) : Z :=
  match Transaction.type t with
  | INCOME => Transaction.amount t
  | EXPENSE => - Transaction.amount t
  end.

(** The due date and interval of a recurring row. *)
Definition schedule (t : Transaction.t) : option (Z * RecurringInterval) :=
  if Transaction.isRecurring t then
    match Transaction.nextRecurringDate t, Transaction.recurringInterval t with
    | Some n, Some i => Some (n, i)
    | _, _ => None
    end
  else None.

Definition due (now : Z) (t : Transaction.t) : bool :=
  match schedule t with Some (n, _) => n <=? now | None => false end.

Definition findTx (tid : string) (db : Db) : option Transaction.t :=
  List.find (λ t, String.eqb (Transaction.id t) tid) (db_transactions db).

(** A fresh id for a settled occurrence. *)
Definition freshId (db : Db) : string := "rec_" +:+ pretty (db_next_id db).

(** The occurrence of [t] dated [n]. *)
Definition occurrence (t : Transaction.t) (n : Z) (id : string) : Transaction.t :=
  Transaction.mk id (Transaction.type t) (Transaction.amount t) (Transaction.description t) n
    (Transaction.category t) false None None (Transaction.userId t) (Transaction.accountId t).

(** The row [r] with its next due date set to [n]. *)
Definition with_next (r : Transaction.t) (n : Z) : Transaction.t :=
  Transaction.mk (Transaction.id r) (Transaction.type r) (Transaction.amount r)
    (Transaction.description r) (Transaction.date r) (Transaction.category r)
    (Transaction.isRecurring r) (Transaction.recurringInterval r) (Some n)
    (Transaction.userId r) (Transaction.accountId r).

(** The account [a] with [d] added to its balance. *)
Definition add_balance (a : Account.t) (d : Z) : Account.t :=
  Account.mk (Account.id a) (Account.name a) (Account.type a) (Account.balance a + d)
    (Account.isDefault a) (Account.userId a).

(** The store writes of a settlement. *)
Inductive Write :=
  | InsertTx (t : Transaction.t)
  | SetNext (tid : string) (n : Z)
  | AddBalance (accountId : string) (delta : Z).

Definition apply_write (db : Db) (w : Write) : Db :=
  match w with
  | InsertTx t =>
      mkDb (db_users db) (db_accounts db) (db_transactions db ++ [t]) (db_budgets db) (S (db_next_id db))
  | SetNext tid n =>
      mkDb (db_users db) (db_accounts db)
        (map (λ r, if String.eqb (Transaction.id r) tid then with_next r n else r) (db_transactions db))
        (db_budgets db) (db_next_id db)
  | AddBalance aid d =>
      mkDb (db_users db)
        (map (λ a, if String.eqb (Account.id a) aid then add_balance a d else a) (db_accounts db))
        (db_transactions db) (db_budgets db) (db_next_id db)
  end.

(** The writes that settle row [tid] at [now]: none when it is not due. *)
Definition settle_writes (now : Z) (tid : string) (db : Db) : list Write :=
  match findTx tid db with
  | Some t =>
      match schedule t with
      | Some (n, i) =>
          if n <=? now then
            [InsertTx (occurrence t n (freshId db)); SetNext tid (advance n i);
             AddBalance (Transaction.accountId t) (signed t)]
          else []
      | None => []
      end
  | None => []
  end.

(** [DUE -> SETTLED], atomically. *)
Definition settle (now : Z) (tid : string) (db : Db) : Db :=
  foldl apply_write db (settle_writes now tid db).

(** A crash after [k] writes: with one transaction for the three writes
    nothing is kept unless all were made; with each write durable at
    once the first [k] are kept. *)
Definition crash_atomic (k : nat) (now : Z) (tid : string) (db : Db) : Db :=
  if (length (settle_writes now tid db) <=? k)%nat then settle now tid db else db.

Definition crash_durable (k : nat) (now : Z) (tid : string) (db : Db) : Db :=
  foldl apply_write db (take k (settle_writes now tid db)).

(** The rows a run appended to the store, and those of them dated [n]. *)
Definition appended (db db' : Db) : list Transaction.t :=
  drop (length (db_transactions db)) (db_transactions db').

Definition settledAt (n : Z) (db db' : Db) : nat :=
  length (List.filter (λ t, Transaction.date t =? n) (appended db db')).

(** An account's balance is its opening balance plus the signed amounts
    of its transactions. *)
Definition balances_consistent (opening : string → Z) (db : Db) : Prop :=
  ∀ a, a ∈ db_accounts db →
    Account.balance a = opening (Account.id a)
      + sumZ signed (List.filter (λ t, String.eqb (Transaction.accountId t) (Account.id a))
                                 (db_transactions db)).

(** ** Lemmas *)

Definition setNext (tid : string) (m : Z) (r : Transaction.t) : Transaction.t :=
  if String.eqb (Transaction.id r) tid then with_next r m else r.

Definition addTo (aid : string) (d : Z) (a : Account.t) : Account.t :=
  if String.eqb (Account.id a) aid then add_balance a d else a.

Lemma setNext_fields tid m r :
  Transaction.id (setNext tid m r) = Transaction.id r ∧ Transaction.date (setNext tid m r) = Transaction.date r
  ∧ Transaction.accountId (setNext tid m r) = Transaction.accountId r ∧ signed (setNext tid m r) = signed r.
Proof. unfold setNext. by destruct (String.eqb _ _). Qed.

Lemma schedule_with_next t n i m : schedule t = Some (n, i) → schedule (with_next t m) = Some (m, i).
Proof.
  unfold schedule, with_next. cbn. destruct (Transaction.isRecurring t); [|done].
  destruct (Transaction.nextRecurringDate t), (Transaction.recurringInterval t); by intros [= -> ->].
Qed.

Lemma settle_not_due now tid db t n i :
  findTx tid db = Some t → schedule t = Some (n, i) → now < n → settle now tid db = db.
Proof.
  intros Hf Hs Hn. unfold settle, settle_writes. rewrite Hf, Hs.
  by rewrite (proj2 (Z.leb_gt n now) Hn).
Qed.

Lemma settle_due now tid db t n i :
  findTx tid db = Some t → schedule t = Some (n, i) → n <= now →
  db_transactions (settle now tid db)
    = map (setNext tid (advance n i)) (db_transactions db ++ [occurrence t n (freshId db)])
  ∧ db_accounts (settle now tid db) = map (addTo (Transaction.accountId t) (signed t)) (db_accounts db)
  ∧ findTx tid (settle now tid db) = Some (with_next t (advance n i)).
Proof.
  intros Hf Hs Hn. unfold settle, settle_writes. rewrite Hf, Hs, (proj2 (Z.leb_le n now) Hn).
  cbn [foldl apply_write db_transactions db_accounts]. split_and!; [done|done|].
  unfold findTx. cbn [db_transactions].
  rewrite (find_map_same _ (setNext tid (advance n i))) by (intros r; by rewrite (proj1 (setNext_fields _ _ r))).
  unfold findTx in Hf. rewrite (find_app_some _ _ _ _ Hf). cbn.
  apply List.find_some in Hf as [_ Ht]. unfold setNext. by rewrite Ht.
Qed.

Lemma length_appended db db' :
  length (appended db db') = (length (db_transactions db') - length (db_transactions db))%nat.
Proof. unfold appended. apply length_drop. Qed.

Lemma appended_settle_due now tid db t n i :
  findTx tid db = Some t → schedule t = Some (n, i) → n <= now →
  appended db (settle now tid db) = [setNext tid (advance n i) (occurrence t n (freshId db))].
Proof.
  intros Hf Hs Hn. destruct (settle_due now tid db t n i Hf Hs Hn) as (Htx & _ & _).
  unfold appended. rewrite Htx, map_app, drop_app_length'; [done|]. by rewrite length_map.
Qed.

Lemma settledAt_one now tid db t n i :
  findTx tid db = Some t → schedule t = Some (n, i) → n <= now →
  settledAt n db (settle now tid (settle now tid db)) = 1%nat.
Proof.
  intros Hf Hs Hn. destruct (settle_due now tid db t n i Hf Hs Hn) as (Htx & _ & Hf1).
  pose proof (schedule_with_next t n i (advance n i) Hs) as Hs1.
  pose proof (proj1 (PeriodCalculator.advance_increasing n i)) as Hgt.
  unfold settledAt, appended.
  destruct (Z.lt_ge_cases now (advance n i)) as [Hlt|Hge].
  - rewrite (settle_not_due now tid _ _ _ _ Hf1 Hs1 Hlt), Htx, map_app, drop_app_length' by (by rewrite length_map).
    cbn. rewrite (proj1 (proj2 (setNext_fields _ _ _))). cbn. by rewrite Z.eqb_refl.
  - destruct (settle_due now tid _ _ _ _ Hf1 Hs1 Hge) as (Htx2 & _ & _).
    rewrite Htx2, Htx, map_app, map_app, map_app, <- app_assoc, drop_app_length' by (by rewrite !length_map).
    cbn. rewrite !(proj1 (proj2 (setNext_fields _ _ _))). cbn.
    rewrite Z.eqb_refl, (proj2 (Z.eqb_neq (advance n i) n)) by lia. done.
Qed.

(** ** Theorems *)

(** Settling a recurring row twice with the same clock creates
    exactly one new occurrence if and only if the row is due and its next
    due date after one advance is past [now] (spec sections 4.3 and 8,
    idempotence); a row that is not due creates none, and one that is
    two periods behind creates two. *)
Theorem settle_twice_once now tid db t n i :
  findTx tid db = Some t → schedule t = Some (n, i) →
  length (appended db (settle now tid (settle now tid db))) = 1%nat ↔ n <= now < advance n i.
Proof.
  intros Hf Hs. rewrite length_appended.
  destruct (Z.lt_ge_cases now n) as [Hlt|Hge].
  - rewrite !(settle_not_due now tid db t n i) by done. split; [lia|lia].
  - destruct (settle_due now tid db t n i Hf Hs Hge) as (Htx & _ & Hf1).
    pose proof (schedule_with_next t n i (advance n i) Hs) as Hs1.
    destruct (Z.lt_ge_cases now (advance n i)) as [Hlt'|Hge'].
    + rewrite (settle_not_due now tid _ _ _ _ Hf1 Hs1 Hlt'), Htx, length_map, length_app. cbn. lia.
    + destruct (settle_due now tid _ _ _ _ Hf1 Hs1 Hge') as (Htx2 & _ & _).
      rewrite Htx2, length_map, length_app, Htx, length_map, length_app. cbn. lia.
Qed.

(** A monthly expense of 50.00 due on January 31, 2024, on an account
    holding 1000.00. *)
Module Sample.
Definition rent : Transaction.t :=
  Transaction.mk "r1" EXPENSE 5000 None (JsDate.new_Date 2023 11 31 0 0 0 0) "rent" true
    (Some MONTHLY) (Some (JsDate.new_Date 2024 0 31 0 0 0 0)) "user_1" "acc_1".
Definition account : Account.t := Account.mk "acc_1" "Checking" CURRENT 100000 true "user_1".
Definition db : Db := mkDb [Ledger.Sample.ada] [account] [rent] [] 0.
End Sample.

Lemma settle_twice_once_witness :
  length (appended Sample.db (settle (JsDate.new_Date 2024 0 31 12 0 0 0) "r1"
                                (settle (JsDate.new_Date 2024 0 31 12 0 0 0) "r1" Sample.db))) = 1%nat.
Proof.
  apply (settle_twice_once _ _ _ Sample.rent (JsDate.new_Date 2024 0 31 0 0 0 0) MONTHLY);
    [by_eval|by_eval|split; by_eval].
Defined.

(** The spec's scenario: settling that expense on January 31, 2024
    creates one transaction dated January 31, takes 50.00 from the
    account, and moves the next due date to February 29, 2024 (a leap
    year: the 31st is clamped). *)
Theorem settle_scenario :
  let db' := settle (JsDate.new_Date 2024 0 31 12 0 0 0) "r1" Sample.db in
  map Transaction.date (appended Sample.db db') = [JsDate.new_Date 2024 0 31 0 0 0 0]
  ∧ map Account.balance (db_accounts db') = [95000]
  ∧ option_map Transaction.nextRecurringDate (findTx "r1" db') = Some (Some (JsDate.new_Date 2024 1 29 0 0 0 0)).
Proof. vm_compute. split_and!; reflexivity. Qed.

(** A crash anywhere inside an atomic settlement followed by a
    retry settles the due date exactly once; if instead each write is
    durable at once (spec section 4.3 without the atomic unit), a crash
    after the insertion (a) and before the advance (b) makes the retry
    settle the same date a second time. *)
Theorem settle_crash now tid db t n i :
  findTx tid db = Some t → schedule t = Some (n, i) → n <= now →
  (∀ k, settledAt n db (settle now tid (crash_atomic k now tid db)) = 1%nat)
  ∧ settledAt n db (settle now tid (crash_durable 1 now tid db)) = 2%nat.
Proof.
  intros Hf Hs Hn. split.
  - intros k. unfold crash_atomic.
    assert (Hw : length (settle_writes now tid db) = 3%nat)
      by (unfold settle_writes; rewrite Hf, Hs, (proj2 (Z.leb_le n now) Hn); done).
    rewrite Hw. destruct (3 <=? k)%nat; [exact (settledAt_one now tid db t n i Hf Hs Hn)|].
    unfold settledAt. rewrite (appended_settle_due now tid db t n i Hf Hs Hn). cbn.
    rewrite (proj1 (proj2 (setNext_fields _ _ _))). cbn. by rewrite Z.eqb_refl.
  - unfold crash_durable, settle_writes. rewrite Hf, Hs, (proj2 (Z.leb_le n now) Hn). cbn [take foldl apply_write].
    set (db1 := mkDb _ _ _ _ _).
    assert (Hf1 : findTx tid db1 = Some t) by (unfold findTx; cbn; by apply find_app_some).
    destruct (settle_due now tid db1 t n i Hf1 Hs Hn) as (Htx & _ & _).
    unfold settledAt, appended. rewrite Htx. cbn [db_transactions db1].
    rewrite <- app_assoc, map_app, drop_app_length' by (by rewrite length_map).
    cbn. rewrite !(proj1 (proj2 (setNext_fields _ _ _))). cbn. by rewrite Z.eqb_refl.
Qed.

Lemma settle_crash_witness :
  settledAt (JsDate.new_Date 2024 0 31 0 0 0 0) Sample.db
    (settle (JsDate.new_Date 2024 0 31 12 0 0 0) "r1"
       (crash_durable 1 (JsDate.new_Date 2024 0 31 12 0 0 0) "r1" Sample.db)) = 2%nat.
Proof.
  apply (settle_crash _ _ _ Sample.rent (JsDate.new_Date 2024 0 31 0 0 0 0) MONTHLY); by_eval.
Defined.

(** Settlement keeps every account's balance equal to its opening
    balance plus the signed amounts of its transactions: the balance
    write (c) matches the inserted transaction (a). *)
Theorem settle_balances opening now tid db :
  balances_consistent opening db → balances_consistent opening (settle now tid db).
Proof.
  intros Hc. destruct (findTx tid db) as [t|] eqn:Hf; [|unfold settle, settle_writes; by rewrite Hf].
  destruct (schedule t) as [[n i]|] eqn:Hs; [|unfold settle, settle_writes; by rewrite Hf, Hs].
  destruct (Z.lt_ge_cases now n) as [Hlt|Hn]; [by rewrite (settle_not_due now tid db t n i Hf Hs Hlt)|].
  destruct (settle_due now tid db t n i Hf Hs Hn) as (Htx & Hacc & _).
  intros a Ha. rewrite Hacc in Ha. apply list_elem_of_In, in_map_iff in Ha as (a0 & <- & Ha0).
  apply list_elem_of_In in Ha0. specialize (Hc a0 Ha0). rewrite Htx.
  rewrite sumZ_filter_map_same.
  2: { intros r. by rewrite (proj1 (proj2 (proj2 (setNext_fields _ _ _)))). }
  2: { intros r. apply setNext_fields. }
  rewrite List.filter_app, sumZ_app. unfold addTo.
  destruct (String.eqb_spec (Account.id a0) (Transaction.accountId t)) as [He|Hne]; cbn.
  - rewrite He in *. rewrite String.eqb_refl. cbn. rewrite Hc. unfold signed. cbn. lia.
  - rewrite (proj2 (String.eqb_neq _ _)) by congruence. cbn. lia.
Qed.

Lemma settle_balances_witness :
  balances_consistent (λ _, 105000) (settle (JsDate.new_Date 2024 0 31 12 0 0 0) "r1" Sample.db).
Proof.
  apply settle_balances. intros a Ha. cbn in Ha. apply list_elem_of_singleton in Ha as ->. by_eval.
Defined.

(** ** Settlements seen by the code *)

Lemma getCurrentBudget_Ok req acc db u :
  BudgetAction.require_user req db = Ok u →
  BudgetAction.getCurrentBudget req acc db
  = Ok (BudgetAction.mkCurrentBudget (budget_findFirst (User.id u) db)
          (sumZ Transaction.amount
             (List.filter (BudgetAction.expenseWhere (User.id u) acc (BudgetAction.monthBounds (BudgetAction.now req)).1
                             (BudgetAction.monthBounds (BudgetAction.now req)).2) (db_transactions db)))).
Proof.
  intros Hu. unfold BudgetAction.getCurrentBudget. rewrite Hu. cbn [mbind result_bind].
  destruct (BudgetAction.monthBounds _) as [s e]. cbn. by rewrite aggregate_sum_total.
Qed.

Lemma expenseWhere_setNext uid acc s e tid m r :
  BudgetAction.expenseWhere uid acc s e (setNext tid m r) = BudgetAction.expenseWhere uid acc s e r.
Proof. unfold setNext. by destruct (String.eqb _ _). Qed.

(** C31: the budget card sees a settlement: after settling a due row,
    [getCurrentBudget] for its account reports the same budget and
    [currentExpenses] grown by the row's amount exactly when the row is
    an expense of the signed-in user dated inside the card's month
    window, and unchanged otherwise. *)
Theorem settle_observed_by_budget req db now' tid t n i u :
  BudgetAction.require_user req db = Ok u → findTx tid db = Some t → schedule t = Some (n, i) → n <= now' →
  let acc := Some (Transaction.accountId t) in
  let '(s, e) := BudgetAction.monthBounds (BudgetAction.now req) in
  ∃ c c', BudgetAction.getCurrentBudget req acc db = Ok c
    ∧ BudgetAction.getCurrentBudget req acc (settle now' tid db) = Ok c'
    ∧ BudgetAction.budget c' = BudgetAction.budget c
    ∧ BudgetAction.currentExpenses c' = BudgetAction.currentExpenses c
        + (if String.eqb (Transaction.userId t) (User.id u) && bool_decide (Transaction.type t = EXPENSE)
              && (s <=? n) && (n <=? e)
           then Transaction.amount t else 0).
Proof.
  intros Hu Hf Hs Hn. cbv zeta. destruct (settle_due now' tid db t n i Hf Hs Hn) as (Htx & _ & _).
  assert (Hu' : BudgetAction.require_user req (settle now' tid db) = Ok u).
  { rewrite (BudgetAction.require_user_users req db); [done|]. unfold settle, settle_writes. rewrite Hf, Hs.
    by rewrite (proj2 (Z.leb_le n now') Hn). }
  assert (Hb : db_budgets (settle now' tid db) = db_budgets db).
  { unfold settle, settle_writes. rewrite Hf, Hs. by rewrite (proj2 (Z.leb_le n now') Hn). }
  rewrite (getCurrentBudget_Ok _ _ _ _ Hu), (getCurrentBudget_Ok _ _ _ _ Hu').
  destruct (BudgetAction.monthBounds _) as [s e]. cbn [fst snd].
  do 2 eexists. split_and!; [reflexivity|reflexivity| |].
  - cbn. unfold budget_findFirst. by rewrite Hb.
  - cbn [BudgetAction.currentExpenses]. rewrite Htx.
    rewrite sumZ_filter_map_same; [|intros r; apply expenseWhere_setNext|intros r; unfold setNext; by destruct (String.eqb _ _)].
    rewrite List.filter_app, sumZ_app. f_equal. cbn.
    unfold BudgetAction.expenseWhere. cbn. rewrite String.eqb_refl, andb_true_r.
    destruct (_ && _ && _ && _); cbn; lia.
Qed.

Lemma settle_observed_by_budget_witness :
  let req := BudgetAction.mkRequest (Some "clerk_1") (JsDate.new_Date 2024 0 31 12 0 0 0) in
  let '(s, e) := BudgetAction.monthBounds (BudgetAction.now req) in
  ∃ c c', BudgetAction.getCurrentBudget req (Some "acc_1") Sample.db = Ok c
    ∧ BudgetAction.getCurrentBudget req (Some "acc_1") (settle (JsDate.new_Date 2024 0 31 12 0 0 0) "r1" Sample.db) = Ok c'
    ∧ BudgetAction.budget c' = BudgetAction.budget c
    ∧ BudgetAction.currentExpenses c' = BudgetAction.currentExpenses c
        + (if String.eqb "user_1" "user_1" && bool_decide (EXPENSE = EXPENSE)
              && (s <=? JsDate.new_Date 2024 0 31 0 0 0 0) && (JsDate.new_Date 2024 0 31 0 0 0 0 <=? e)
           then 5000 else 0).
Proof.
  exact (settle_observed_by_budget (BudgetAction.mkRequest (Some "clerk_1") (JsDate.new_Date 2024 0 31 12 0 0 0))
           Sample.db (JsDate.new_Date 2024 0 31 12 0 0 0) "r1" Sample.rent (JsDate.new_Date 2024 0 31 0 0 0 0)
           MONTHLY Ledger.Sample.ada ltac:(by_eval) ltac:(by_eval) ltac:(by_eval) ltac:(by_eval)).
Defined.

End Recurrence.
