(* ===== verification/Scheduler.v ===== *)
(** * Scheduler: the dispatcher of the spec

    Spec section 4.5 describes a dispatcher, run by a periodic trigger,
    that settles every recurring transaction due at [now] (section 4.3)
    and then evaluates every budget (section 4.4), sending the
    notifications; each entity is processed independently, and a failure
    on one does not stop the others (sections 5 and 7).  Its code is not
    under [src/]; it is modelled here from the spec, on top of
    [Recurrence.settle] and [AlertEvaluator.ticks].

    Failures are an input of a run ([fails tid]: the store refused the
    settlement of row [tid] in this run); a failed settlement leaves the
    store as it was and is reported.  The settlements all happen before
    the evaluations, so the alert evaluation observes the settled
    transactions.

    Theorem: a run reports exactly the failed entities, in order, and
    settles every other due row: its next due date moves on by one
    interval, whatever the other rows do. *)

From S2P Require Import Prelude JsDate Ledger PeriodCalculator Aggregator AlertEvaluator Recurrence.
Local Open Scope Z_scope.

Module Scheduler.
Import PeriodCalculator Recurrence AlertEvaluator Aggregator.

(** The ids of the rows due at [now], in store order. *)
Definition dueIds (now : Z) (db : Db) : list string :=
  map Transaction.id (List.filter (due now) (db_transactions db)).

(** Settle one row; a failing one is skipped and reported. *)
Definition settleStep (fails : string → bool) (now : Z) (acc : Db * list string) (tid : string)
    : Db * list string :=
  if fails tid then (acc.1, acc.2 ++ [tid]) else (settle now tid acc.1, acc.2).

(** Settle each due row in turn. *)
Definition settleAll (fails : string → bool) (now : Z) (ids : list string) (db : Db) : Db * list string :=
  fold_left (settleStep fails now) ids (db, []).

(** One run of the dispatcher: all settlements, then all evaluations
    on the settled store. *)
Definition dispatch (fails : string → bool) (now : Z) (st : AlertStore)
    (budgets : list (Budget.t * Scope * string)) (db : Db)
    : Db * AlertStore * list Notification * list string :=
  let '(db', failed) := settleAll fails now (dueIds now db) db in
  let '(st', ns) := ticks st (map (λ '(b, sc, name), (db', b, sc, name, now)) budgets) in
  (db', st', ns, failed).

(** ** Lemmas *)

Lemma settleAll_failed fails now ids db acc :
  (fold_left (settleStep fails now) ids (db, acc)).2 = acc ++ List.filter fails ids.
Proof.
  revert db acc. induction ids as [|tid ids IH]; intros db acc; cbn; [by rewrite app_nil_r|].
  unfold settleStep at 2. destruct (fails tid); cbn; rewrite IH; [by rewrite <- app_assoc|done].
Qed.

(** Settling another row leaves the row found for [tid] alone. *)
Lemma settle_other now tid tid' db r :
  findTx tid db = Some r → tid' ≠ tid → findTx tid (settle now tid' db) = Some r.
Proof.
  intros Hf Hne. destruct (findTx tid' db) as [t|] eqn:Hf'; [|unfold settle, settle_writes; by rewrite Hf'].
  destruct (schedule t) as [[n i]|] eqn:Hs; [|unfold settle, settle_writes; by rewrite Hf', Hs].
  destruct (Z.lt_ge_cases now n) as [Hlt|Hn]; [by rewrite (settle_not_due now tid' db t n i Hf' Hs Hlt)|].
  destruct (settle_due now tid' db t n i Hf' Hs Hn) as (Htx & _ & _).
  unfold findTx in *. rewrite Htx.
  rewrite (find_map_same _ (setNext tid' (advance n i))) by (intros x; by rewrite (proj1 (setNext_fields _ _ x))).
  rewrite (find_app_some _ _ _ _ Hf). cbn. f_equal.
  apply List.find_some in Hf as [_ Hr]. unfold setNext.
  apply String.eqb_eq in Hr. rewrite (proj2 (String.eqb_neq _ _)); [done|congruence].
Qed.

Lemma fold_others fails now tid ids acc r :
  tid ∉ ids → findTx tid acc.1 = Some r → findTx tid (fold_left (settleStep fails now) ids acc).1 = Some r.
Proof.
  revert acc. induction ids as [|x ids IH]; intros acc Hn Hf; cbn; [done|].
  apply not_elem_of_cons in Hn as [Hx Hn]. apply IH; [done|].
  unfold settleStep. destruct (fails x); cbn; [done|]. by apply settle_other.
Qed.

Lemma NoDup_map_filter {A B} (f : A → B) (p : A → bool) (l : list A) :
  NoDup (map f l) → NoDup (map f (List.filter p l)).
Proof.
  induction l as [|x l IH]; cbn; [done|]. intros [Hx Hnd]%NoDup_cons.
  destruct (p x); cbn; [|auto]. constructor; [|auto].
  intros (y & Hy & Hin)%list_elem_of_In%in_map_iff. apply Hx, list_elem_of_In, in_map_iff.
  exists y. split; [done|]. apply List.filter_In in Hin. tauto.
Qed.

(** ** Theorems *)

(** With row ids unique, a run of the dispatcher reports exactly
    the due rows whose settlement failed, in store order, and every other
    due row is settled: its next due date has moved on by one interval,
    whatever failed or was settled around it (spec sections 4.5 and 7,
    failures isolated). *)
Theorem dispatch_isolation fails now st budgets db :
  NoDup (map Transaction.id (db_transactions db)) →
  let r := dispatch fails now st budgets db in
  r.2 = List.filter fails (dueIds now db)
  ∧ ∀ tid t n i, findTx tid db = Some t → schedule t = Some (n, i) → n <= now → fails tid = false →
      option_map Transaction.nextRecurringDate (findTx tid r.1.1.1) = Some (Some (advance n i)).
Proof.
  intros Hnd. cbv zeta. unfold dispatch, settleAll.
  destruct (fold_left (settleStep fails now) (dueIds now db) (db, [])) as [db' failed] eqn:Hfold.
  destruct (ticks _ _) as [st' ns]. cbn [fst snd]. split.
  - pose proof (settleAll_failed fails now (dueIds now db) db []) as H. rewrite Hfold in H. exact H.
  - intros tid t n i Hf Hs Hn Hok.
    assert (Hin : tid ∈ dueIds now db).
    { unfold findTx in Hf. apply List.find_some in Hf as [Ht Hid]. apply String.eqb_eq in Hid.
      apply list_elem_of_In, in_map_iff. exists t. split; [done|]. apply List.filter_In.
      split; [done|]. unfold due. rewrite Hs. by apply Z.leb_le. }
    assert (Hnd' : NoDup (dueIds now db)) by (by apply NoDup_map_filter).
    apply list_elem_of_split in Hin as (pre & post & Hids).
    rewrite Hids in Hnd'. apply NoDup_app in Hnd' as (_ & Hpre & Hpost%NoDup_cons).
    rewrite Hids, fold_left_app in Hfold. cbn [fold_left] in Hfold.
    assert (Hf1 : findTx tid (fold_left (settleStep fails now) pre (db, [])).1 = Some t).
    { apply fold_others; [|done]. intros Hp. exact (Hpre tid Hp (list_elem_of_here _ _)). }
    destruct (fold_left (settleStep fails now) pre (db, [])) as [db1 f1]. cbn in Hf1.
    unfold settleStep at 2 in Hfold. rewrite Hok in Hfold. cbn [fst snd] in Hfold.
    destruct (settle_due now tid db1 t n i Hf1 Hs Hn) as (_ & _ & Hf2).
    pose proof (fold_others fails now tid post (settle now tid db1, f1) _ (proj1 Hpost) Hf2) as Hf3.
    rewrite Hfold in Hf3. cbn in Hf3. by rewrite Hf3.
Qed.

Lemma dispatch_isolation_witness :
  option_map Transaction.nextRecurringDate
    (findTx "r1" (dispatch (λ _, false) (JsDate.new_Date 2024 0 31 12 0 0 0) ∅ [] Recurrence.Sample.db).1.1.1)
  = Some (Some (advance (JsDate.new_Date 2024 0 31 0 0 0 0) MONTHLY)).
Proof.
  apply (proj2 (dispatch_isolation (λ _, false) (JsDate.new_Date 2024 0 31 12 0 0 0) ∅ []
                  Recurrence.Sample.db ltac:(vm_compute; apply NoDup_singleton)) "r1" Recurrence.Sample.rent _ MONTHLY);
    by_eval.
Defined.

End Scheduler.
