(* ===== verification/Dashboard.v ===== *)
(** * Dashboard: the dashboard page

    [src/app/(main)/dashboard/page.jsx] is a server component: it loads
    the user's accounts and transactions ([getUserAccounts] and
    [getDashboardData] of [src/actions/dashboard], which are not under
    [src/]: modelled from their use, the signed-in user's rows), the
    budget of the default account ([getCurrentBudget]), and computes the
    total balance and this month's income and expenses, the month being
    compared with [getMonth()] and [getFullYear()].

    Theorem: the page's monthly income and expenses are those of the
    monthly-stats route ([MonthlyStats.getMonthlyStats]) for the same user
    and clock: two code paths that compute the same month in different
    ways agree. *)

From S2P Require Import Prelude JsDate Ledger Budget MonthlyStats.
Import JsDate.
Local Open Scope Z_scope.

Module Dashboard.
Import BudgetAction.

(** [getUserAccounts()]: the signed-in user's accounts. *)
Definition getUserAccounts (req : Request) (db : Db) : result (list Account.t) :=
  user ← require_user req db;
  mret (List.filter (λ a, String.eqb (Account.userId a) (User.id user)) (db_accounts db)).

(** [getDashboardData()]: the signed-in user's transactions. *)
Definition getDashboardData (req : Request) (db : Db) : result (list Transaction.t) :=
  user ← require_user req db;
  mret (List.filter (λ t, String.eqb (Transaction.userId t) (User.id user)) (db_transactions db)).

(** What the page shows. *)
Record Page := mkPage {
  accounts : list Account.t;
  transactions : list Transaction.t;
  defaultAccount : option Account.t;
  budgetData : option CurrentBudget;
  totalBalance : Z;
  monthlyIncome : Z;
  monthlyExpenses : Z;
}.

(** Lines 31-35: the transactions of the month of [now]. *)
Definition inCurrentMonth (now : Z) (t : Transaction.t) : bool :=
  (getMonth (Transaction.date t) =? getMonth now) && (getFullYear (Transaction.date t) =? getFullYear now).

Definition isType (k : TransactionType) (t : Transaction.t) : bool := bool_decide (Transaction.type t = k).

(** Lines 12-43: the data of the page.  [Promise.all] fails when either
    call fails; [getCurrentBudget] is called only with a default
    account. *)
Definition DashboardPage (req : Request) (db : Db) : result Page :=
  accounts ← getUserAccounts req db;
  transactions ← getDashboardData req db;
  let defaultAccount := List.find Account.isDefault accounts in
  budgetData ←
    match defaultAccount with
    | Some a => r ← getCurrentBudget req (Some (Account.id a)) db; mret (Some r)
    | None => mret None
    end;
  let totalBalance := fold_left (λ sum a, sum + Account.balance a) accounts 0 in
  let monthlyTransactions := List.filter (inCurrentMonth (now req)) transactions in
  let monthlyIncome :=
    fold_left (λ sum t, sum + Transaction.amount t) (List.filter (isType INCOME) monthlyTransactions) 0 in
  let monthlyExpenses :=
    fold_left (λ sum t, sum + Transaction.amount t) (List.filter (isType EXPENSE) monthlyTransactions) 0 in
  mret (mkPage accounts transactions defaultAccount budgetData totalBalance monthlyIncome monthlyExpenses).

(** ** Lemmas *)

Lemma stats_window_bool now d :
  100 <= getFullYear now →
  ((MonthlyStats.statsBounds now).1 <=? d) && (d <=? (MonthlyStats.statsBounds now).2)
  = (getMonth d =? getMonth now) && (getFullYear d =? getFullYear now).
Proof.
  intros Hy. apply Bool.eq_iff_eq_true. rewrite !andb_true_iff, !Z.leb_le, !Z.eqb_eq.
  rewrite (MonthlyStats.statsBounds_spec now d Hy). tauto.
Qed.

Lemma month_rows uid now db (k : TransactionType) :
  100 <= getFullYear now →
  List.filter (isType k) (List.filter (inCurrentMonth now)
    (List.filter (λ t, String.eqb (Transaction.userId t) uid) (db_transactions db)))
  = List.filter (λ t, MonthlyStats.statsWhere uid (MonthlyStats.statsBounds now).1
                        (MonthlyStats.statsBounds now).2 t && isType k t) (db_transactions db).
Proof.
  intros Hy. rewrite !List_filter_filter. apply List.filter_ext. intros t.
  unfold MonthlyStats.statsWhere, inCurrentMonth. rewrite <- (stats_window_bool now _ Hy).
  destruct (String.eqb _ _), (_ <=? _), (_ <=? _), (isType k t); reflexivity.
Qed.

(** What a successful page holds: the signed-in user's accounts and
    transactions, and the month's sums of those transactions. *)
Lemma DashboardPage_shape req db pg u :
  require_user req db = Ok u → DashboardPage req db = Ok pg →
  let mine := List.filter (λ t, String.eqb (Transaction.userId t) (User.id u)) (db_transactions db) in
  accounts pg = List.filter (λ a, String.eqb (Account.userId a) (User.id u)) (db_accounts db)
  ∧ transactions pg = mine
  ∧ monthlyExpenses pg = sumZ Transaction.amount
                           (List.filter (isType EXPENSE) (List.filter (inCurrentMonth (now req)) mine))
  ∧ monthlyIncome pg = sumZ Transaction.amount
                         (List.filter (isType INCOME) (List.filter (inCurrentMonth (now req)) mine)).
Proof.
  intros Hu Hp. unfold DashboardPage, getUserAccounts, getDashboardData in Hp. rewrite Hu in Hp.
  cbn [mbind result_bind mret result_ret] in Hp.
  destruct (List.find _ _) as [a|]; cbn [mbind result_bind mret result_ret] in Hp.
  - destruct (getCurrentBudget _ _ _); cbn [mbind result_bind mret result_ret] in Hp; [|discriminate].
    injection Hp as <-. cbn. by rewrite !fold_left_add_sumZ.
  - injection Hp as <-. cbn. by rewrite !fold_left_add_sumZ.
Qed.

Lemma DashboardPage_monthly req db pg u :
  require_user req db = Ok u → DashboardPage req db = Ok pg →
  let mine := List.filter (λ t, String.eqb (Transaction.userId t) (User.id u)) (db_transactions db) in
  monthlyExpenses pg = sumZ Transaction.amount
                         (List.filter (isType EXPENSE) (List.filter (inCurrentMonth (now req)) mine))
  ∧ monthlyIncome pg = sumZ Transaction.amount
                         (List.filter (isType INCOME) (List.filter (inCurrentMonth (now req)) mine)).
Proof. intros Hu Hp. by destruct (DashboardPage_shape req db pg u Hu Hp) as (_ & _ & -> & ->). Qed.

(** ** Theorems *)

(** C32: the dashboard's "Monthly Expenses" and "Monthly Income" are the
    [totalExpenses] and [totalIncome] the monthly-stats route computes
    for the same user and clock (with a year of 100 or more): the
    page's [getMonth]/[getFullYear] comparison and the route's
    millisecond window select the same rows. *)
Theorem dashboard_matches_stats req db pg u :
  require_user req db = Ok u → 100 <= getFullYear (now req) → DashboardPage req db = Ok pg →
  monthlyExpenses pg = MonthlyStats.totalExpenses (MonthlyStats.getMonthlyStats (User.id u) (now req) db)
  ∧ monthlyIncome pg = MonthlyStats.totalIncome (MonthlyStats.getMonthlyStats (User.id u) (now req) db).
Proof.
  intros Hu Hy Hp. destruct (DashboardPage_monthly req db pg u Hu Hp) as [-> ->].
  rewrite !month_rows by done.
  unfold MonthlyStats.getMonthlyStats. cbv zeta.
  pose proof (MonthlyStats.fold_stats (MonthlyStats.monthTransactions (User.id u) (now req) db)
    (MonthlyStats.mkStats 0 0 ∅ (length (MonthlyStats.monthTransactions (User.id u) (now req) db)))) as H.
  cbv zeta in H. destruct H as (He & Hi & _ & _). rewrite He, Hi.
  cbn [MonthlyStats.totalExpenses MonthlyStats.totalIncome].
  unfold MonthlyStats.monthTransactions. destruct (MonthlyStats.statsBounds (now req)) as [s e].
  cbn [fst snd]. rewrite !Z.add_0_l, !List_filter_filter. split; f_equal; apply List.filter_ext; intros t; f_equal;
    unfold isType, MonthlyStats.isExpense; destruct (Transaction.type t); reflexivity.
Qed.

Lemma dashboard_matches_stats_witness :
  match DashboardPage (mkRequest (Some "clerk_1") (MonthlyStats.Sample.mar 20 10)) MonthlyStats.Sample.sample_db with
  | Ok pg => monthlyExpenses pg
             = MonthlyStats.totalExpenses (MonthlyStats.getMonthlyStats "user_1" (MonthlyStats.Sample.mar 20 10)
                                             MonthlyStats.Sample.sample_db)
  | Err _ => False
  end.
Proof.
  destruct (DashboardPage _ _) as [pg|m] eqn:Hp; [|vm_compute in Hp; discriminate].
  exact (proj1 (dashboard_matches_stats (mkRequest (Some "clerk_1") (MonthlyStats.Sample.mar 20 10))
                  MonthlyStats.Sample.sample_db pg Ledger.Sample.ada ltac:(by_eval) ltac:(by_eval) Hp)).
Defined.

End Dashboard.
