(* ===== verification/TransactionTable.v ===== *)
(** * TransactionTable: the transaction table of the account page

    [src/app/(main)/account/_components/transaction-table.jsx] lists an
    account's transactions with a search box, a type filter, a recurring
    filter, sorting by date, amount or category, pages of ten rows,
    row selection and (bulk) deletion through [useFetch].  Modelled here:
    - [filteredAndSorted] (lines 82-128): the three filters, then
      [Array.prototype.sort] with the code's comparator, which is the
      stable sort by that comparator ([merge_sort] of stdpp);
    - [totalPages] and [paginated] (lines 131-140);
    - the state ([selectedIds], [sortConfig], the filters, [currentPage],
      the delete call of [useFetch]) and every handler: [handleSort],
      [handleSelect], [handleSelectAll], [handleBulkDelete] (with the
      answer of [window.confirm] as input), the row delete,
      [handleClearFilters], [handlePageChange], the filter inputs, and the
      [useEffect] that clears the selection after a deletion (lines
      69-204, 245-276);
    - [step]: one event on the rendered table, with the guards of the
      JSX: which buttons exist or are disabled, and the overlay that
      covers the table while a deletion loads (lines 224, 286, 302-311,
      316-321, 390-399, 483, 498-549); [run] folds it over a sequence of
      events, each with the transactions the page passes at that moment.
    [toLowerCase] is modelled on ASCII letters and [localeCompare] as the
    order of code units; the app's categories are lower-case ASCII
    identifiers, on which both agree.

    Theorems: the rows are the filtered transactions, sorted, and the
    pages split them into consecutive runs of at most ten (C33); the
    header checkbox compares only the number of selected rows with the
    page size, so it can show checked with no row of the page selected,
    and clicking it then clears the selection (C34); the filters keep a
    selection they hide, and the bulk delete deletes it (C35); the page
    number stays at 1 or more (C36) but is not clamped when the list
    shrinks, so the table can show an empty page while rows exist, with
    the pagination hidden (C37); and a failed deletion after a
    successful one toasts success and clears the selection (C38). *)

From stdpp Require Import sorting pretty.
From S2P Require Import Prelude Ledger UseFetch.
From Stdlib Require Import Ascii.
Local Open Scope Z_scope.

Module TransactionTable.

(** Line 60. *)
Definition ITEMS_PER_PAGE : Z := 10.

Inductive SortField := SortDate | SortAmount | SortCategory.
Inductive Direction := Asc | Desc.

#[export] Instance SortField_eq_dec : EqDecision SortField.
Proof. solve_decision. Defined.
#[export] Instance Direction_eq_dec : EqDecision Direction.
Proof. solve_decision. Defined.

(** The recurring filter: [""], ["recurring"] or ["non-recurring"]. *)
Inductive RecurringFilter := AllRows | RecurringOnly | NonRecurringOnly.

#[export] Instance RecurringFilter_eq_dec : EqDecision RecurringFilter.
Proof. solve_decision. Defined.

(** [toLowerCase()] on ASCII letters. *)
Definition lower_char (c : ascii) : ascii :=
  let n := nat_of_ascii c in
  if (65 <=? n)%nat && (n <=? 90)%nat then ascii_of_nat (n + 32) else c.

Fixpoint toLowerCase (s : string) : string :=
  match s with
  | String c s' => String (lower_char c) (toLowerCase s')
  | EmptyString => EmptyString
  end.

(** [s.includes(sub)]. *)
Definition includes (s sub : string) : bool :=
  match String.index 0 sub s with Some _ => true | None => false end.

(** [a.localeCompare(b)], as the order of code units. *)
Definition localeCompare (a b : string) : Z :=
  match String.compare a b with Lt => -1 | Eq => 0 | Gt => 1 end.

Record Filters := mkFilters {
  searchTerm : string;
  typeFilter : option TransactionType;
  recurringFilter : RecurringFilter;
}.

(** Lines 85-104. *)
Definition matchesSearch (term : string) (t : Transaction.t) : bool :=
  if String.eqb term EmptyString then true
  else match Transaction.description t with
       | Some d => includes (toLowerCase d) (toLowerCase term)
       | None => false
       end.

Definition matchesType (ty : option TransactionType) (t : Transaction.t) : bool :=
  match ty with Some k => bool_decide (Transaction.type t = k) | None => true end.

Definition matchesRecurring (r : RecurringFilter) (t : Transaction.t) : bool :=
  match r with
  | AllRows => true
  | RecurringOnly => Transaction.isRecurring t
  | NonRecurringOnly => negb (Transaction.isRecurring t)
  end.

(** Lines 106-125: the comparator. *)
Definition comparison (field : SortField) (a b : Transaction.t) : Z :=
  match field with
  | SortDate => Transaction.date a - Transaction.date b
  | SortAmount => Transaction.amount a - Transaction.amount b
  | SortCategory => localeCompare (Transaction.category a) (Transaction.category b)
  end.

Definition compareBy (field : SortField) (dir : Direction) (a b : Transaction.t) : Z :=
  match dir with Asc => comparison field a b | Desc => - comparison field a b end.

(** [a] may stay before [b] in the sorted array. *)
Definition sortedBefore (field : SortField) (dir : Direction) (a b : Transaction.t) : Prop :=
  compareBy field dir a b <= 0.

#[export] Instance sortedBefore_dec field dir : RelDecision (sortedBefore field dir) :=
  λ a b, decide (compareBy field dir a b <= 0).

(** Lines 82-128. *)
Definition filteredAndSorted (txs : list Transaction.t) (f : Filters) (field : SortField) (dir : Direction)
    : list Transaction.t :=
  merge_sort (sortedBefore field dir)
    (List.filter (matchesRecurring (recurringFilter f))
       (List.filter (matchesType (typeFilter f)) (List.filter (matchesSearch (searchTerm f)) txs))).

(** Lines 131-133: [Math.ceil(length / ITEMS_PER_PAGE)]. *)
Definition totalPages (n : nat) : Z := (Z.of_nat n + ITEMS_PER_PAGE - 1) / ITEMS_PER_PAGE.

(** Lines 134-140: [slice(startIndex, startIndex + ITEMS_PER_PAGE)] for a
    page of 1 or more. *)
Definition paginated (rows : list Transaction.t) (page : Z) : list Transaction.t :=
  take (Z.to_nat ITEMS_PER_PAGE) (drop (Z.to_nat ((page - 1) * ITEMS_PER_PAGE)) rows).

(** Lines 70-79 and 166-170: the component's state. *)
Record State := mkState {
  selectedIds : list string;
  sortField : SortField;
  sortDir : Direction;
  filters : Filters;
  currentPage : Z;
  deleting : UseFetch.State bool;
}.

Definition init : State :=
  mkState [] SortDate Desc (mkFilters EmptyString None AllRows) 1 UseFetch.init.

Definition rows (txs : list Transaction.t) (s : State) : list Transaction.t :=
  filteredAndSorted txs (filters s) (sortField s) (sortDir s).

Definition page (txs : list Transaction.t) (s : State) : list Transaction.t :=
  paginated (rows txs s) (currentPage s).

(** Lines 142-148. *)
Definition handleSort (field : SortField) (s : State) : State :=
  mkState (selectedIds s) field
    (if bool_decide (sortField s = field) && bool_decide (sortDir s = Asc) then Desc else Asc)
    (filters s) (currentPage s) (deleting s).

(** Lines 150-156. *)
Definition handleSelect (id : string) (s : State) : State :=
  mkState
    (if bool_decide (id ∈ selectedIds s) then List.filter (λ x, negb (String.eqb x id)) (selectedIds s)
     else selectedIds s ++ [id])
    (sortField s) (sortDir s) (filters s) (currentPage s) (deleting s).

(** Lines 158-164. *)
Definition handleSelectAll (txs : list Transaction.t) (s : State) : State :=
  mkState
    (if Nat.eqb (length (selectedIds s)) (length (page txs s)) then []
     else map Transaction.id (page txs s))
    (sortField s) (sortDir s) (filters s) (currentPage s) (deleting s).

(** Lines 316-321: the header checkbox. *)
Definition headerChecked (txs : list Transaction.t) (s : State) : bool :=
  Nat.eqb (length (selectedIds s)) (length (page txs s)) && negb (Nat.eqb (length (page txs s)) 0).

Inductive Effect :=
  | ToastInfo (msg : string)
  | ToastSuccess (msg : string)
  | CallDelete (ids : list string).

Definition startDelete (ids : list string) (s : State) : State * list Effect :=
  (mkState (selectedIds s) (sortField s) (sortDir s) (filters s) (currentPage s)
     (UseFetch.begin_call (deleting s)), [CallDelete ids]).

(** Lines 172-182, with the answer of [window.confirm]. *)
Definition handleBulkDelete (confirmed : bool) (s : State) : State * list Effect :=
  if confirmed then
    let '(s', out) := startDelete (selectedIds s) s in
    (s', ToastInfo ("Deleting " +:+ pretty (length (selectedIds s)) +:+ " transactions...") :: out)
  else (s, []).

(** Lines 184-189: the effect runs when [deleted] or [deleteLoading]
    changes, and acts when [deleted] holds a value and loading is over;
    [deleted] is the [data] of the hook, which a failed call leaves as it
    was. *)
Definition settleDelete (r : result bool) (s : State) : State * list Effect :=
  let f := (UseFetch.end_call r (deleting s)).1 in
  match UseFetch.data f with
  | Some _ =>
      (mkState [] (sortField s) (sortDir s) (filters s) (currentPage s) f,
       [ToastSuccess "Transactions deleted successfully"])
  | None => (mkState (selectedIds s) (sortField s) (sortDir s) (filters s) (currentPage s) f, [])
  end.

(** Lines 191-197. *)
Definition handleClearFilters (s : State) : State * list Effect :=
  (mkState (selectedIds s) (sortField s) (sortDir s) (mkFilters EmptyString None AllRows) 1 (deleting s),
   [ToastSuccess "Filters cleared"]).

(** Lines 199-202. *)
Definition handlePageChange (newPage : Z) (s : State) : State :=
  mkState [] (sortField s) (sortDir s) (filters s) newPage (deleting s).

(** Lines 245-276: the three filter inputs reset the page to 1. *)
Definition setFilters (f : Filters) (s : State) : State :=
  mkState (selectedIds s) (sortField s) (sortDir s) f 1 (deleting s).

Inductive Event :=
  | Search (term : string)
  | FilterType (ty : option TransactionType)
  | FilterRecurring (r : RecurringFilter)
  | ClearFilters
  | Sort (field : SortField)
  | Select (id : string)
  | SelectAll
  | BulkDelete (confirmed : bool)
  | DeleteRow (id : string)
  | PagePrev
  | PageNext
  | PageGoto (p : Z)
  | DeleteReturned (r : result bool).

(** Line 204: [hasActiveFilters]. *)
Definition hasActiveFilters (f : Filters) : bool :=
  negb (String.eqb (searchTerm f) EmptyString) || bool_decide (typeFilter f ≠ None)
  || bool_decide (recurringFilter f ≠ AllRows).

(** One event on the rendered table.  The bulk-delete button exists only
    with a selection (line 224) and the clear button only with an active
    filter (line 286); while a deletion is loading, the overlay of lines
    302-311 covers the table, so its header, row checkboxes and row menus
    take no clicks; a row's checkbox and menu exist for the rows of the
    page (lines 390-399, 483).  The pagination (lines 498-549) is shown
    when there is more than one page: Previous ([currentPage - 1]) is
    disabled on page 1, Next ([currentPage + 1]) on the last page, and
    there is a button for each page. *)
Definition step (txs : list Transaction.t) (s : State) (e : Event) : option (State * list Effect) :=
  let onTable := negb (UseFetch.loading (deleting s)) in
  let onPage id := bool_decide (id ∈ map Transaction.id (page txs s)) in
  let n := totalPages (length (rows txs s)) in
  match e with
  | Search t => Some (setFilters (mkFilters t (typeFilter (filters s)) (recurringFilter (filters s))) s, [])
  | FilterType ty => Some (setFilters (mkFilters (searchTerm (filters s)) ty (recurringFilter (filters s))) s, [])
  | FilterRecurring r => Some (setFilters (mkFilters (searchTerm (filters s)) (typeFilter (filters s)) r) s, [])
  | ClearFilters => if hasActiveFilters (filters s) then Some (handleClearFilters s) else None
  | Sort field => if onTable then Some (handleSort field s, []) else None
  | Select id => if onTable && onPage id then Some (handleSelect id s, []) else None
  | SelectAll => if onTable then Some (handleSelectAll txs s, []) else None
  | BulkDelete c => if negb (Nat.eqb (length (selectedIds s)) 0) then Some (handleBulkDelete c s) else None
  | DeleteRow id => if onTable && onPage id then Some (startDelete [id] s) else None
  | PagePrev =>
      if (1 <? n) && negb (currentPage s =? 1) then Some (handlePageChange (currentPage s - 1) s, []) else None
  | PageNext =>
      if (1 <? n) && negb (currentPage s =? n) then Some (handlePageChange (currentPage s + 1) s, []) else None
  | PageGoto p =>
      if (1 <? n) && (1 <=? p) && (p <=? n) then Some (handlePageChange p s, []) else None
  | DeleteReturned r => if UseFetch.loading (deleting s) then Some (settleDelete r s) else None
  end.

(** A sequence of events, each on the transactions the page passes at
    that moment (the parent re-renders with fresh data after a deletion). *)
Fixpoint run (trace : list (list Transaction.t * Event)) (s : State) : option State :=
  match trace with
  | [] => Some s
  | (txs, e) :: trace' => match step txs s e with Some (s', _) => run trace' s' | None => None end
  end.

(** ** Lemmas *)

Lemma length_paginated l p : (length (paginated l p) <= 10)%nat.
Proof. unfold paginated. rewrite length_take. change (Z.to_nat ITEMS_PER_PAGE) with 10%nat. lia. Qed.

(** The pages [1 .. k] of a list of at most [10 k] rows are the list. *)
Lemma pages_concat k (l : list Transaction.t) :
  (length l <= 10 * k)%nat →
  mjoin (map (λ j : nat, take 10 (drop (10 * j) l)) (seq 0 k)) = l.
Proof.
  revert l. induction k as [|k IH]; intros l Hl.
  - destruct l; [done|]. cbn in Hl. lia.
  - change (seq 0 (S k)) with (0%nat :: seq 1 k). rewrite map_cons. cbn [mjoin list_join].
    rewrite Nat.mul_0_r, drop_0. rewrite <- (take_drop 10 l) at 2. f_equal.
    rewrite <- seq_shift, map_map.
    erewrite map_ext; [apply IH; rewrite length_drop; lia|].
    intros j. cbv beta. by rewrite drop_drop, Nat.mul_succ_r, Nat.add_comm.
Qed.

Lemma comparison_antisym field a b : comparison field b a = - comparison field a b.
Proof.
  destruct field; cbn; try lia. unfold localeCompare.
  rewrite String.compare_antisym. by destruct (String.compare _ _).
Qed.

#[export] Instance sortedBefore_total field dir : Total (sortedBefore field dir).
Proof.
  intros a b. unfold sortedBefore, compareBy. pose proof (comparison_antisym field a b).
  destruct dir; lia.
Qed.

Lemma paginated_page l j :
  paginated l (Z.of_nat (S j)) = take 10 (drop (10 * j) l).
Proof.
  unfold paginated, ITEMS_PER_PAGE. f_equal. rewrite Nat2Z.inj_succ.
  replace ((Z.succ (Z.of_nat j) - 1) * 10) with (Z.of_nat (10 * j)) by lia. by rewrite Nat2Z.id.
Qed.

(** The page shown depends on the filters, the sort and the page number,
    not on the selection or the delete call. *)
Lemma page_ext txs s s' :
  filters s' = filters s → sortField s' = sortField s → sortDir s' = sortDir s →
  currentPage s' = currentPage s → page txs s' = page txs s.
Proof. intros Hf Hfield Hd Hp. unfold page, rows. by rewrite Hf, Hfield, Hd, Hp. Qed.

(** Past the last row, a page is empty. *)
Lemma paginated_past l p :
  (length l <= Z.to_nat ((p - 1) * ITEMS_PER_PAGE))%nat → paginated l p = [].
Proof. intros Hl. unfold paginated. by rewrite drop_ge. Qed.

(** One step keeps the page number at 1 or more. *)
Lemma step_currentPage txs s e s' out :
  1 <= currentPage s → step txs s e = Some (s', out) → 1 <= currentPage s'.
Proof.
  intros Hp Hs. destruct e; cbn in Hs;
    unfold handleClearFilters, handleBulkDelete, startDelete, settleDelete in Hs;
    repeat case_match; simplify_eq; cbn; try done.
  all: repeat match goal with H : (_ && _)%bool = true |- _ => apply andb_true_iff in H as [? ?] end.
  all: rewrite ?negb_true_iff, ?Z.eqb_neq, ?Z.leb_le in *; lia.
Qed.

Lemma run_currentPage trace s s' :
  1 <= currentPage s → run trace s = Some s' → 1 <= currentPage s'.
Proof.
  revert s. induction trace as [|[txs e] trace IH]; intros s Hp Hr; cbn in Hr; [by simplify_eq|].
  destruct (step txs s e) as [[s1 out]|] eqn:Hs; [|done]. eauto using step_currentPage.
Qed.

(** Sample tables. *)
Module Sample.
Definition row (id d : string) (amt date : Z) : Transaction.t :=
  Transaction.mk id EXPENSE amt (Some d) date "food" false None None "user_1" "acc_1".
Definition two : list Transaction.t := [row "a" "Coffee" 350 1000; row "b" "Rent" 90000 2000].
Definition one : list Transaction.t := [row "a" "Coffee" 350 1000].
Definition lunches (n : nat) : list Transaction.t :=
  map (λ k, row ("r" +:+ pretty k) "Lunch" (Z.of_nat k) (Z.of_nat k)) (seq 0 n).
(** "b" selected while only "a" is on the page. *)
Definition other_selected : State := mkState ["b"] SortDate Desc (mkFilters EmptyString None AllRows) 1 UseFetch.init.
Definition a_selected : State := mkState ["a"] SortDate Desc (mkFilters EmptyString None AllRows) 1 UseFetch.init.
(** Page 2 of eleven rows, then one row deleted. *)
Definition to_page_two : list (list Transaction.t * Event) := [(lunches 11, PageNext)].
Definition on_page_two : State := mkState [] SortDate Desc (mkFilters EmptyString None AllRows) 2 UseFetch.init.
(** A deletion that succeeded, then a second one in flight. *)
Definition two_deletes : list (list Transaction.t * Event) :=
  [(two, DeleteRow "a"); (two, DeleteReturned (Ok true)); (one, DeleteRow "a")].
Definition second_delete : State :=
  mkState [] SortDate Desc (mkFilters EmptyString None AllRows) 1 (UseFetch.mkState true (Some true) None).
End Sample.

(** ** Theorems *)

(** C33: the table's rows are the transactions that pass the three
    filters, in an order sorted by the chosen field and direction; and
    its pages [1 .. totalPages] are consecutive runs of at most ten rows
    that together are exactly those rows: no row is lost or shown
    twice. *)
Theorem table_rows_pages txs s :
  let l := rows txs s in
  l ≡ₚ List.filter (λ t, matchesSearch (searchTerm (filters s)) t
                          && (matchesType (typeFilter (filters s)) t
                              && matchesRecurring (recurringFilter (filters s)) t)) txs
  ∧ Sorted (sortedBefore (sortField s) (sortDir s)) l
  ∧ mjoin (map (λ p : nat, paginated l (Z.of_nat p)) (seq 1 (Z.to_nat (totalPages (length l))))) = l
  ∧ ∀ p, (length (paginated l p) <= 10)%nat.
Proof.
  cbv zeta. unfold rows, filteredAndSorted. split_and!.
  - rewrite merge_sort_Permutation, !List_filter_filter. reflexivity.
  - apply Sorted_merge_sort. apply _.
  - set (l := merge_sort _ _). rewrite <- seq_shift, map_map.
    erewrite map_ext; [|intros j; apply paginated_page]. apply pages_concat.
    unfold totalPages, ITEMS_PER_PAGE. zdiv_elim. lia.
  - intros p. apply length_paginated.
Qed.

(** C34: the header checkbox toggles by counting.  Clicking it never
    changes the page shown.  When it shows checked (as many ids selected
    as rows on the page), the click clears the selection.  When it shows
    unchecked on a non-empty page, the click selects exactly the page's
    rows, and the checkbox then shows checked.  Only lengths are
    compared (lines 158-164 and 316-321), so it shows checked and clears
    the selection even when no row of the page is selected. *)
Theorem select_all_header txs s s' out :
  step txs s SelectAll = Some (s', out) →
  out = [] ∧ page txs s' = page txs s
  ∧ (headerChecked txs s = true → selectedIds s' = [])
  ∧ (headerChecked txs s = false → page txs s ≠ [] →
       selectedIds s' = map Transaction.id (page txs s) ∧ headerChecked txs s' = true).
Proof.
  intros Hs. cbn in Hs. destruct (UseFetch.loading _); simplify_eq/=.
  assert (Hpg : page txs (handleSelectAll txs s) = page txs s) by (by apply page_ext).
  split_and!; [done|done| |].
  - unfold headerChecked, handleSelectAll. intros [Heq _]%andb_true_iff. cbn. by rewrite Heq.
  - intros Hh Hne. unfold headerChecked in *. rewrite Hpg.
    assert (Hz : Nat.eqb (length (page txs s)) 0 = false)
      by (apply Nat.eqb_neq; by intros ?%nil_length_inv).
    rewrite Hz, andb_true_r in Hh. unfold handleSelectAll. cbn [selectedIds]. rewrite Hh.
    by rewrite length_map, Nat.eqb_refl, Hz.
Qed.

Lemma select_all_header_witness :
  ("b" ∉ map Transaction.id (page Sample.one Sample.other_selected))
  ∧ headerChecked Sample.one Sample.other_selected = true
  ∧ selectedIds (handleSelectAll Sample.one Sample.other_selected) = [].
Proof.
  split_and!; [refine (bool_decide_eq_false_1 _ _); by_eval|by_eval|].
  apply (select_all_header Sample.one Sample.other_selected _ [] eq_refl). by_eval.
Defined.

(** C35: the filter inputs keep the selection.  Typing a search or
    choosing a type or recurring filter keeps [selectedIds] and moves to
    page 1 (lines 245-276).  A non-empty selection then still offers
    "Delete", and confirming it deletes the whole selection, including
    rows the filter now hides. *)
Theorem filter_keeps_selection txs s e s1 out :
  (∃ term, e = Search term) ∨ (∃ ty, e = FilterType ty) ∨ (∃ r, e = FilterRecurring r) →
  step txs s e = Some (s1, out) →
  out = [] ∧ selectedIds s1 = selectedIds s ∧ currentPage s1 = 1
  ∧ (selectedIds s ≠ [] →
     step txs s1 (BulkDelete true) =
       Some ((startDelete (selectedIds s) s1).1,
             [ToastInfo ("Deleting " +:+ pretty (length (selectedIds s)) +:+ " transactions...");
              CallDelete (selectedIds s)])).
Proof.
  intros He Hs. assert (Hf : ∃ f, s1 = setFilters f s ∧ out = [])
    by (destruct He as [[? ->]|[[? ->]|[? ->]]]; cbn in Hs; simplify_eq; eauto).
  destruct Hf as (f & -> & ->). split_and!; [done..|]. intros Hne. cbn.
  by rewrite (proj2 (Nat.eqb_neq _ 0)) by (by intros ?%nil_length_inv).
Qed.

Lemma filter_keeps_selection_witness :
  ("a" ∉ map Transaction.id (rows Sample.two (setFilters (mkFilters "rent" None AllRows) Sample.a_selected)))
  ∧ step Sample.two (setFilters (mkFilters "rent" None AllRows) Sample.a_selected) (BulkDelete true) =
    Some ((startDelete ["a"] (setFilters (mkFilters "rent" None AllRows) Sample.a_selected)).1,
          [ToastInfo ("Deleting " +:+ pretty (length ["a"]) +:+ " transactions..."); CallDelete ["a"]]).
Proof.
  split; [refine (bool_decide_eq_false_1 _ _); by_eval|].
  apply (filter_keeps_selection Sample.two Sample.a_selected (Search "rent") _ [] ltac:(left; eauto) eq_refl).
  discriminate.
Defined.

(** C36: from the initial state, every sequence of events keeps the
    page number at 1 or more.  So the page shown is the slice of the
    code, starting at row [10 * (currentPage - 1)] (lines 134-140). *)
Theorem reachable_page trace s :
  run trace init = Some s →
  1 <= currentPage s
  ∧ ∀ txs, page txs s = take 10 (drop (10 * (Z.to_nat (currentPage s) - 1)) (rows txs s)).
Proof.
  intros Hr. pose proof (run_currentPage trace init s ltac:(done) Hr) as Hp. split; [done|].
  intros txs. unfold page. replace (currentPage s) with (Z.of_nat (S (Z.to_nat (currentPage s) - 1))) by lia.
  rewrite paginated_page. do 3 f_equal. lia.
Qed.

Lemma reachable_page_witness :
  1 <= currentPage Sample.on_page_two
  ∧ page (Sample.lunches 11) Sample.on_page_two
    = take 10 (drop (10 * (Z.to_nat (currentPage Sample.on_page_two) - 1))
                 (rows (Sample.lunches 11) Sample.on_page_two)).
Proof.
  destruct (reachable_page Sample.to_page_two Sample.on_page_two ltac:(by_eval)) as [H1 H2].
  split; [exact H1|apply H2].
Defined.

(** C37: [currentPage] is not brought back into range when the list
    shrinks.  On page 2 or later with at most ten rows left, the page
    shown is empty, although rows exist.  The pagination is hidden, so
    no Previous, Next or page button can take the table back; only a
    filter input or Clear resets the page. *)
Theorem stale_page txs s :
  (length (rows txs s) <= 10)%nat → 1 < currentPage s →
  page txs s = [] ∧ step txs s PagePrev = None ∧ step txs s PageNext = None
  ∧ ∀ p, step txs s (PageGoto p) = None.
Proof.
  intros Hl Hp. assert (Ht : (1 <? totalPages (length (rows txs s))) = false).
  { apply Z.ltb_ge. unfold totalPages, ITEMS_PER_PAGE. zdiv_elim. lia. }
  split_and!; [|by cbn; rewrite Ht..].
  unfold page. apply paginated_past. unfold ITEMS_PER_PAGE. lia.
Qed.

Lemma stale_page_witness :
  run Sample.to_page_two init = Some Sample.on_page_two
  ∧ length (rows (Sample.lunches 10) Sample.on_page_two) = 10%nat
  ∧ page (Sample.lunches 10) Sample.on_page_two = []
  ∧ step (Sample.lunches 10) Sample.on_page_two PageNext = None.
Proof.
  split_and!; [by_eval|by_eval|..];
    pose proof (stale_page (Sample.lunches 10) Sample.on_page_two ltac:(by_eval) ltac:(by_eval)); tauto.
Defined.

(** C38: the effect that reports a deletion (lines 184-189) reads the
    hook's [data], which a failed call leaves as it was.  Once a deletion
    has succeeded, a later failed deletion still toasts
    "Transactions deleted successfully" and clears the selection.  Before
    any success, a failed deletion is silent and keeps the selection. *)
Theorem stale_delete_success txs s e :
  UseFetch.loading (deleting s) = true →
  step txs s (DeleteReturned (Err e)) =
    Some (match UseFetch.data (deleting s) with
          | Some b =>
              (mkState [] (sortField s) (sortDir s) (filters s) (currentPage s)
                 (UseFetch.mkState false (Some b) (Some e)),
               [ToastSuccess "Transactions deleted successfully"])
          | None =>
              (mkState (selectedIds s) (sortField s) (sortDir s) (filters s) (currentPage s)
                 (UseFetch.mkState false None (Some e)), [])
          end).
Proof. intros Hl. cbn. rewrite Hl. unfold settleDelete. cbn. by destruct (UseFetch.data _). Qed.

Lemma stale_delete_success_witness :
  run Sample.two_deletes init = Some Sample.second_delete
  ∧ step Sample.one Sample.second_delete (DeleteReturned (Err "network error")) =
    Some (mkState [] SortDate Desc (mkFilters EmptyString None AllRows) 1
            (UseFetch.mkState false (Some true) (Some "network error")),
          [ToastSuccess "Transactions deleted successfully"]).
Proof.
  split; [by_eval|]. apply (stale_delete_success Sample.one Sample.second_delete "network error"). by_eval.
Defined.

End TransactionTable.
