(* ===== verification/AccountChart.v ===== *)
(** * AccountChart: the income and expense chart of the account page

    [src/app/(main)/account/_components/account-chart.jsx] draws a bar per
    day of the transactions in a date range (last 7, 30, 90 or 180 days,
    or all time) and the range's income, expense and net totals.
    Modelled here:
    - the ranges of [DATE_RANGES] and the window
      [startOfDay(subDays(now, days))] to [endOfDay(now)] (lines 25-46),
      with date-fns' [startOfDay], [endOfDay] and [subDays] in local
      time, which is UTC in [JsDate];
    - the grouping by the label [format(date, "MMM dd")] into an object
      whose values keep their insertion order (lines 48-60), as an
      association list of bars;
    - the sort of the bars by [new Date(label)] (lines 62-65).  A string
      such as ["Mar 05"] is not in the format of [Date.parse], so its
      value is implementation-defined; the file takes it as a
      [Variable parseLabel] of a Section, [None] standing for an
      Invalid Date, whose difference [NaN] the sort reads as [+0];
    - the totals and the net amount (lines 68-79).

    Theorems: every bar label names one month and date; for the bounded
    ranges (at most 181 days) a label names one calendar day, so the bar
    of a day sums exactly that day's rows, and the totals are the
    window's sums, whatever order the sort leaves (C39); in the
    all-time range the label has no year, and the same day of two years
    shares one bar. *)

From stdpp Require Import sorting.
From S2P Require Import Prelude JsDate Ledger.
From Stdlib Require Import Ascii.
Import JsDate.
Local Open Scope Z_scope.

Module AccountChart.

(** Lines 25-31: [DATE_RANGES]. *)
Inductive DateRange := D7 | M1 | M3 | M6 | ALL.

Definition days (r : DateRange) : option Z :=
  match r with D7 => Some 7 | M1 => Some 30 | M3 => Some 90 | M6 => Some 180 | ALL => None end.

(** date-fns: [startOfDay], [endOfDay], [subDays] (via [setDate]). *)
Definition startOfDay (t : Z) : Z := MakeDate (Day t) 0.
Definition endOfDay (t : Z) : Z := MakeDate (Day t) (MakeTime 23 59 59 999).
Definition subDays (t n : Z) : Z := setDate t (getDate t - n).

(** Lines 37-41. *)
Definition startDate (r : DateRange) (now : Z) : Z :=
  match days r with Some n => startOfDay (subDays now n) | None => startOfDay 0 end.

(** Lines 44-46. *)
Definition inRange (r : DateRange) (now : Z) (t : Transaction.t) : bool :=
  (startDate r now <=? Transaction.date t) && (Transaction.date t <=? endOfDay now).

(** date-fns' [format(d, "MMM dd")]: the month's abbreviation and the
    date on two digits. *)
Definition monthAbbr (m : Z) : string :=
  nth (Z.to_nat m) ["Jan"; "Feb"; "Mar"; "Apr"; "May"; "Jun"; "Jul"; "Aug"; "Sep"; "Oct"; "Nov"; "Dec"]
    EmptyString.

Definition digit (n : Z) : ascii := ascii_of_nat (48 + Z.to_nat n).

Definition label_of (m d : Z) : string :=
  monthAbbr m +:+ String " " (String (digit (d / 10)) (String (digit (d mod 10)) EmptyString)).

Definition format_MMM_dd (t : Z) : string := label_of (MonthFromTime t) (DateFromTime t).

(** A bar: [{ date, income, expense }]. *)
Record Bar := mkBar { label : string; income : Z; expense : Z }.

Definition isIncome (t : Transaction.t) : bool := bool_decide (Transaction.type t = INCOME).

(** Lines 54-58. *)
Definition addAmount (t : Transaction.t) (b : Bar) : Bar :=
  if isIncome t then mkBar (label b) (income b + Transaction.amount t) (expense b)
  else mkBar (label b) (income b) (expense b + Transaction.amount t).

(** Lines 50-58: [acc[date]], created with zero totals on first use. *)
Fixpoint addTo (lab : string) (t : Transaction.t) (acc : list Bar) : list Bar :=
  match acc with
  | [] => [addAmount t (mkBar lab 0 0)]
  | b :: acc' => if String.eqb (label b) lab then addAmount t b :: acc' else b :: addTo lab t acc'
  end.

(** The step of the reduce on lines 49-60. *)
Definition groupStep (acc : list Bar) (t : Transaction.t) : list Bar :=
  addTo (format_MMM_dd (Transaction.date t)) t acc.

(** Lines 44-60. *)
Definition grouped (r : DateRange) (now : Z) (txs : list Transaction.t) : list Bar :=
  fold_left groupStep (List.filter (inRange r now) txs) [].

(** The bar with a label, as the chart's tooltip reads it. *)
Definition barOf (lab : string) (bars : list Bar) : Bar :=
  default (mkBar lab 0 0) (find (λ b, String.eqb (label b) lab) bars).

(** Lines 69-79. *)
Definition totals (bars : list Bar) : Z * Z :=
  fold_left (λ acc b, (acc.1 + income b, acc.2 + expense b)) bars (0, 0).

Definition netAmount (bars : list Bar) : Z := (totals bars).1 - (totals bars).2.

Section Sorted.
(** [new Date(label)] on a label: implementation-defined. *)
Variable parseLabel : string → option Z.

(** Lines 63-65: [a] may stay before [b]; a [NaN] difference reads as 0. *)
Definition barBefore (a b : Bar) : Prop :=
  match parseLabel (label a), parseLabel (label b) with
  | Some x, Some y => x - y <= 0
  | _, _ => True
  end.

#[export] Instance barBefore_dec : RelDecision barBefore.
Proof. intros a b. unfold barBefore. destruct (parseLabel (label a)), (parseLabel (label b)); apply _. Defined.

(** Lines 36-66: [filteredData]. *)
Definition filteredData (r : DateRange) (now : Z) (txs : list Transaction.t) : list Bar :=
  merge_sort barBefore (grouped r now txs).
End Sorted.

(** Reading a label back: the month of its first three letters and the
    number of its last two digits. *)
Definition unlabel (s : string) : option (Z * Z) :=
  match s with
  | String a (String b (String c (String _ (String x (String y EmptyString))))) =>
      let m := String a (String b (String c EmptyString)) in
      match List.find (λ k, String.eqb (monthAbbr (Z.of_nat k)) m) (seq 0 12) with
      | Some k => Some (Z.of_nat k,
                        10 * (Z.of_nat (nat_of_ascii x) - 48) + (Z.of_nat (nat_of_ascii y) - 48))
      | None => None
      end
  | _ => None
  end.

(** ** Lemmas *)

Lemma unlabel_table :
  forallb (λ m, forallb (λ d, bool_decide (unlabel (label_of (Z.of_nat m) (Z.of_nat d))
                                           = Some (Z.of_nat m, Z.of_nat d))) (seq 1 31)) (seq 0 12) = true.
Proof. vm_compute. reflexivity. Qed.

Lemma unlabel_label_of m d : 0 <= m <= 11 → 1 <= d <= 31 → unlabel (label_of m d) = Some (m, d).
Proof.
  intros Hm Hd. pose proof unlabel_table as H. rewrite forallb_forall in H.
  specialize (H (Z.to_nat m) ltac:(apply in_seq; lia)). rewrite forallb_forall in H.
  specialize (H (Z.to_nat d) ltac:(apply in_seq; lia)). apply bool_decide_eq_true in H.
  by rewrite !Z2Nat.id in H by lia.
Qed.

(** A label names one month and one date. *)
Lemma format_MMM_dd_inj t1 t2 :
  format_MMM_dd t1 = format_MMM_dd t2 →
  MonthFromTime t1 = MonthFromTime t2 ∧ DateFromTime t1 = DateFromTime t2.
Proof.
  unfold format_MMM_dd. intros H.
  destruct (Day_decompose t1) as (_ & Hm1 & Hd1). destruct (Day_decompose t2) as (_ & Hm2 & Hd2).
  pose proof (DaysInMonth_range (YearFromTime t1) _ Hm1). pose proof (DaysInMonth_range (YearFromTime t2) _ Hm2).
  apply (f_equal unlabel) in H. rewrite !unlabel_label_of in H by lia. by simplify_eq.
Qed.

(** The same month starts at most a day apart in a leap and a common year. *)
Lemma month_start_leap l1 l2 m :
  0 <= l1 <= 1 → 0 <= l2 <= 1 → month_start l2 m - 1 <= month_start l1 m <= month_start l2 m + 1.
Proof. intros. unfold month_start. destruct (2 <=? m); lia. Qed.

(** The first of a month is at least 364 days after the first of the
    same month in an earlier year. *)
Lemma MakeDay_year_gap y1 y2 m :
  y1 < y2 → 0 <= m <= 11 → MakeDay y1 m 1 + 364 <= MakeDay y2 m 1.
Proof.
  intros Hy Hm. rewrite !MakeDay_in_range by done.
  pose proof (DayFromYear_mono_succ y1 y2 Hy). pose proof (DayFromYear_next y1).
  pose proof (leap_range y1). pose proof (leap_range y2).
  pose proof (month_start_leap (leap y1) (leap y2) m ltac:(done) ltac:(done)). lia.
Qed.

(** Two days less than 364 days apart with the same month and date are
    the same day. *)
Lemma same_month_date_close t1 t2 :
  MonthFromTime t1 = MonthFromTime t2 → DateFromTime t1 = DateFromTime t2 →
  Z.abs (Day t1 - Day t2) < 364 → Day t1 = Day t2.
Proof.
  intros HM HD Hc. destruct (Day_decompose t1) as (H1 & Hm & _). destruct (Day_decompose t2) as (H2 & _ & _).
  rewrite H1, H2, HM, HD in *.
  destruct (Z.lt_total (YearFromTime t1) (YearFromTime t2)) as [Hy|[Hy|Hy]]; [| by rewrite Hy|].
  all: pose proof (MakeDay_year_gap _ _ _ Hy Hm); lia.
Qed.

Lemma subDays_eq t n : subDays t n = t - n * msPerDay.
Proof.
  destruct (Day_decompose t) as (HD & Hm & _). pose proof (time_split t) as [Ht Htod].
  unfold subDays, setDate, getDate, MakeDate. rewrite MakeDay_date. unfold msPerDay in *. lia.
Qed.

(** A row of a bounded range is dated within [n] days before [now]. *)
Lemma inRange_days r now n t :
  days r = Some n → inRange r now t = true → Day now - n <= Day (Transaction.date t) <= Day now.
Proof.
  intros Hn. unfold inRange, startDate, startOfDay, endOfDay. rewrite Hn, subDays_eq.
  rewrite andb_true_iff, !Z.leb_le. unfold Day, MakeDate, MakeTime, msPerDay.
  generalize (Transaction.date t). intros d. zdiv_elim. lia.
Qed.

Lemma days_bound r n : days r = Some n → 0 <= n <= 180.
Proof. destruct r; cbn; intros; simplify_eq; lia. Qed.

(** In a bounded range, two rows share a label exactly when they are
    dated on the same calendar day. *)
Lemma label_day_iff r n now t1 t2 :
  days r = Some n → inRange r now t1 = true → inRange r now t2 = true →
  format_MMM_dd (Transaction.date t1) = format_MMM_dd (Transaction.date t2)
  ↔ Day (Transaction.date t1) = Day (Transaction.date t2).
Proof.
  intros Hn H1 H2. split.
  - intros [HM HD]%format_MMM_dd_inj. apply same_month_date_close; [done|done|].
    pose proof (inRange_days r now n t1 Hn H1). pose proof (inRange_days r now n t2 Hn H2).
    pose proof (days_bound r n Hn). lia.
  - unfold format_MMM_dd, MonthFromTime, DateFromTime. by intros ->.
Qed.

Lemma addAmount_label t b : label (addAmount t b) = label b.
Proof. unfold addAmount. by destruct (isIncome t). Qed.

Lemma barOf_label lab l : label (barOf lab l) = lab.
Proof.
  unfold barOf. destruct (find _ l) eqn:H; cbn; [|done].
  apply List.find_some in H as [_ H]. by apply String.eqb_eq.
Qed.

(** Adding a row under [lab] changes the bar of [lab] only. *)
Lemma barOf_addTo lab' lab t acc :
  barOf lab' (addTo lab t acc) = if String.eqb lab lab' then addAmount t (barOf lab acc) else barOf lab' acc.
Proof.
  unfold barOf. induction acc as [|b acc IH]; cbn.
  - rewrite addAmount_label. cbn. by destruct (String.eqb lab lab').
  - destruct (String.eqb_spec (label b) lab) as [<-|Hb]; cbn.
    + rewrite addAmount_label, ?String.eqb_refl. by destruct (String.eqb (label b) lab').
    + destruct (String.eqb_spec (label b) lab') as [<-|Hb']; [|exact IH].
      by rewrite (proj2 (String.eqb_neq lab (label b))) by congruence.
Qed.

Lemma labels_addTo x lab t acc : x ∈ map label (addTo lab t acc) → x ∈ map label acc ∨ x = lab.
Proof.
  induction acc as [|b acc IH]; cbn.
  - rewrite addAmount_label. intros ->%list_elem_of_singleton. by right.
  - destruct (String.eqb (label b) lab); cbn; rewrite ?addAmount_label; [by left|].
    intros [->|[Hx|Hx]%IH]%elem_of_cons; [left; constructor|left; by constructor|by right].
Qed.

Lemma NoDup_addTo lab t acc : NoDup (map label acc) → NoDup (map label (addTo lab t acc)).
Proof.
  induction acc as [|b acc IH]; cbn; intros Hnd; [constructor; [set_solver|constructor]|].
  apply NoDup_cons in Hnd as [Hb Hnd].
  destruct (String.eqb_spec (label b) lab) as [Heq|Hne]; cbn; rewrite ?addAmount_label;
    constructor; auto. intros [?|?]%labels_addTo; [done|congruence].
Qed.

Lemma NoDup_grouped r now txs : NoDup (map label (grouped r now txs)).
Proof.
  unfold grouped. assert (H0 : NoDup (map label (@nil Bar))) by constructor. revert H0. generalize (@nil Bar).
  induction (List.filter (inRange r now) txs) as [|t l IH]; intros acc Hnd; cbn; [done|].
  apply IH. by apply NoDup_addTo.
Qed.

(** The bar of a label sums the incomes and the expenses of its rows. *)
Lemma barOf_fold lab l acc :
  barOf lab (fold_left groupStep l acc)
  = mkBar lab (income (barOf lab acc)
               + sumZ Transaction.amount (List.filter (λ t, String.eqb (format_MMM_dd (Transaction.date t)) lab
                                                           && isIncome t) l))
              (expense (barOf lab acc)
               + sumZ Transaction.amount (List.filter (λ t, String.eqb (format_MMM_dd (Transaction.date t)) lab
                                                           && negb (isIncome t)) l)).
Proof.
  revert acc. induction l as [|t l IH]; intros acc; cbn [fold_left List.filter].
  - pose proof (barOf_label lab acc). destruct (barOf lab acc); cbn in *. subst. f_equal; lia.
  - rewrite IH. unfold groupStep. rewrite barOf_addTo.
    destruct (String.eqb_spec (format_MMM_dd (Transaction.date t)) lab) as [<-|]; cbn [andb negb];
      unfold addAmount; destruct (isIncome t); cbn [income expense negb]; rewrite ?sumZ_cons; f_equal; lia.
Qed.

(** With unique labels, the bar of a label does not depend on the order
    of the bars. *)
Lemma barOf_Permutation lab l l' : NoDup (map label l) → l ≡ₚ l' → barOf lab l = barOf lab l'.
Proof.
  intros Hnd Hp. unfold barOf. f_equal. induction Hp as [|b l l' Hp IH|b1 b2 l|l l' l'' Hp1 IH1 Hp2 IH2]; cbn.
  - done.
  - destruct (String.eqb (label b) lab); [done|]. apply IH. by apply NoDup_cons in Hnd as [_ ?].
  - apply NoDup_cons in Hnd as [Hb2 _]. cbn in Hb2.
    destruct (String.eqb_spec (label b2) lab), (String.eqb_spec (label b1) lab); try done. set_solver.
  - rewrite IH1 by done. apply IH2. by rewrite <- (Permutation_map label Hp1).
Qed.

Lemma totals_fold bars a b :
  fold_left (λ acc b, (acc.1 + income b, acc.2 + expense b)) bars (a, b)
  = (a + sumZ income bars, b + sumZ expense bars).
Proof.
  revert a b. induction bars as [|x bars IH]; intros a b; cbn [fold_left fst snd sumZ foldr]; [f_equal; lia|].
  rewrite IH. fold (sumZ income bars) (sumZ expense bars). f_equal; lia.
Qed.

Lemma addAmount_sums t b :
  income (addAmount t b) = income b + (if isIncome t then Transaction.amount t else 0)
  ∧ expense (addAmount t b) = expense b + (if isIncome t then 0 else Transaction.amount t).
Proof. unfold addAmount. destruct (isIncome t); cbn; lia. Qed.

(** Adding a row adds its amount to the income or the expense side. *)
Lemma sums_addTo lab t acc :
  sumZ income (addTo lab t acc) = sumZ income acc + (if isIncome t then Transaction.amount t else 0)
  ∧ sumZ expense (addTo lab t acc) = sumZ expense acc + (if isIncome t then 0 else Transaction.amount t).
Proof.
  induction acc as [|b acc IH]; cbn [addTo].
  - destruct (addAmount_sums t (mkBar lab 0 0)). rewrite !sumZ_cons. cbn [income expense sumZ foldr] in *. lia.
  - destruct (String.eqb (label b) lab); rewrite !sumZ_cons; [destruct (addAmount_sums t b)|]; lia.
Qed.

Lemma sums_fold l acc :
  sumZ income (fold_left groupStep l acc)
    = sumZ income acc + sumZ Transaction.amount (List.filter isIncome l)
  ∧ sumZ expense (fold_left groupStep l acc)
    = sumZ expense acc + sumZ Transaction.amount (List.filter (λ t, negb (isIncome t)) l).
Proof.
  revert acc. induction l as [|t l IH]; intros acc; cbn [fold_left List.filter]; [rewrite sumZ_nil; lia|].
  destruct (IH (groupStep acc t)) as [-> ->]. destruct (sums_addTo (format_MMM_dd (Transaction.date t)) t acc).
  unfold groupStep. destruct (isIncome t); cbn [negb]; rewrite ?sumZ_cons; lia.
Qed.

(** The totals of the chart are the window's sums, whatever order the
    sort leaves. *)
Lemma totals_filteredData parseLabel r now txs :
  totals (filteredData parseLabel r now txs)
  = (sumZ Transaction.amount (List.filter (λ t, inRange r now t && isIncome t) txs),
     sumZ Transaction.amount (List.filter (λ t, inRange r now t && negb (isIncome t)) txs)).
Proof.
  unfold filteredData. pose proof (merge_sort_Permutation (barBefore parseLabel) (grouped r now txs)) as Hp.
  unfold totals. rewrite totals_fold, (sumZ_Permutation income _ _ Hp), (sumZ_Permutation expense _ _ Hp).
  unfold grouped. destruct (sums_fold (List.filter (inRange r now) txs) []) as [-> ->].
  rewrite !sumZ_nil, !List_filter_filter. f_equal; lia.
Qed.

(** Sample rows: a coffee and a salary on 5 March 2024, rent on 5 March
    2023, seen on 20 March 2024. *)
Module Sample.
Definition row (id : string) (ty : TransactionType) (amt date : Z) : Transaction.t :=
  Transaction.mk id ty amt None date "food" false None None "user_1" "acc_1".
Definition now : Z := new_Date 2024 2 20 12 0 0 0.
Definition coffee : Transaction.t := row "a" EXPENSE 350 (new_Date 2024 2 5 9 0 0 0).
Definition rows : list Transaction.t :=
  [coffee; row "b" INCOME 250000 (new_Date 2024 2 5 18 0 0 0);
   row "c" EXPENSE 90000 (new_Date 2023 2 5 8 0 0 0)].
End Sample.

(** ** Theorems *)

(** C39: the chart's totals are the sums of the income and of the
    other rows of the range's window, whatever order the sort leaves the
    bars in.  In a bounded range (7 to 180 days) the bar of a row's label
    holds exactly the income and the expenses of the window's rows
    dated on that row's calendar day. *)
Theorem chart_bars parseLabel r now txs :
  let data := filteredData parseLabel r now txs in
  totals data = (sumZ Transaction.amount (List.filter (λ t, inRange r now t && isIncome t) txs),
                 sumZ Transaction.amount (List.filter (λ t, inRange r now t && negb (isIncome t)) txs))
  ∧ ∀ n t, days r = Some n → inRange r now t = true →
      barOf (format_MMM_dd (Transaction.date t)) data
      = mkBar (format_MMM_dd (Transaction.date t))
          (sumZ Transaction.amount (List.filter (λ t', inRange r now t'
             && (Z.eqb (Day (Transaction.date t')) (Day (Transaction.date t)) && isIncome t')) txs))
          (sumZ Transaction.amount (List.filter (λ t', inRange r now t'
             && (Z.eqb (Day (Transaction.date t')) (Day (Transaction.date t)) && negb (isIncome t'))) txs)).
Proof.
  cbv zeta. split; [apply totals_filteredData|]. unfold filteredData.
  pose proof (merge_sort_Permutation (barBefore parseLabel) (grouped r now txs)) as Hp.
  intros n t Hn Ht. rewrite <- (barOf_Permutation _ _ _ (NoDup_grouped r now txs) (symmetry Hp)).
  unfold grouped. rewrite barOf_fold. cbn [barOf find default income expense]. rewrite !List_filter_filter.
  assert (Hk : ∀ p : Transaction.t → bool, ∀ x,
    inRange r now x && (String.eqb (format_MMM_dd (Transaction.date x)) (format_MMM_dd (Transaction.date t)) && p x)
    = inRange r now x && (Z.eqb (Day (Transaction.date x)) (Day (Transaction.date t)) && p x)).
  { intros p x. destruct (inRange r now x) eqn:Hx; [cbn [andb]|done]. f_equal.
    apply Bool.eq_iff_eq_true. rewrite String.eqb_eq, Z.eqb_eq. exact (label_day_iff r n now x t Hn Hx Ht). }
  rewrite (List.filter_ext _ _ (Hk isIncome)), (List.filter_ext _ _ (Hk (λ x, negb (isIncome x)))).
  f_equal; lia.
Qed.

Lemma chart_bars_witness :
  barOf "Mar 05" (filteredData (λ _, None) M1 Sample.now Sample.rows) = mkBar "Mar 05" 250000 350
  ∧ barOf (format_MMM_dd (Transaction.date Sample.coffee)) (filteredData (λ _, None) M1 Sample.now Sample.rows)
    = mkBar (format_MMM_dd (Transaction.date Sample.coffee))
        (sumZ Transaction.amount (List.filter (λ t', inRange M1 Sample.now t'
           && (Z.eqb (Day (Transaction.date t')) (Day (Transaction.date Sample.coffee)) && isIncome t')) Sample.rows))
        (sumZ Transaction.amount (List.filter (λ t', inRange M1 Sample.now t'
           && (Z.eqb (Day (Transaction.date t')) (Day (Transaction.date Sample.coffee)) && negb (isIncome t')))
           Sample.rows)).
Proof.
  split; [by_eval|].
  exact (proj2 (chart_bars (λ _, None) M1 Sample.now Sample.rows) 30 Sample.coffee eq_refl ltac:(by_eval)).
Defined.

(** In the all-time range the label has no year: the expense of 5 March
    2023 and the one of 5 March 2024 share the bar ["Mar 05"], whatever
    order the sort leaves. *)
Theorem all_time_merges_years parseLabel :
  Day (new_Date 2023 2 5 8 0 0 0) ≠ Day (new_Date 2024 2 5 9 0 0 0)
  ∧ barOf "Mar 05" (filteredData parseLabel ALL Sample.now Sample.rows) = mkBar "Mar 05" 250000 90350.
Proof.
  split; [by_eval|]. unfold filteredData.
  rewrite <- (barOf_Permutation _ _ _ (NoDup_grouped ALL Sample.now Sample.rows)
                (symmetry (merge_sort_Permutation _ _))).
  by_eval.
Qed.

End AccountChart.
