(* ===== verification/TransactionOverview.v ===== *)
(** * TransactionOverview: the overview card of the dashboard

    [src/app/(main)/dashboard/_components/transaction-overview.jsx]
    ([DashboardOverview]) receives the page's accounts and transactions
    and shows, for one selected account, its five newest transactions and
    the breakdown of this month's expenses by category as a pie chart.
    Modelled here:
    - the selected account: the default account's id, or else the first
      account's (lines 36-38), and the account selector (lines 100-112);
    - [accountTransactions], sorted newest first in place by
      [Array.prototype.sort] (stable: [merge_sort] of stdpp) and cut to
      five (lines 40-48).  The sort mutates [accountTransactions], so the
      month's expenses are filtered from the sorted array;
    - [currentMonthExpenses] (lines 50-59), the reduce into
      [expensesByCategory] (lines 61-69) as an association list in
      insertion order, [pieChartData] (lines 71-77), [totalExpenses]
      (line 79), and the slice colours [COLORS[index % 7]] (lines 25-33,
      230, 253).
    The reduce's [if (!acc[category]) acc[category] = 0] also fires on a
    category whose sum is 0, where it writes 0 again: the model adds
    without the test.  A category named like a property of
    [Object.prototype] ([constructor], [toString]) would start from that
    property; the app's categories are fixed identifiers with no such
    name, and the model does not represent it.

    Theorems: composed with the dashboard page, the pie's slice of a
    category is the spec Aggregator's [groupByCategory] of the user's
    expenses in the selected account over [periodBounds] of the clock,
    and [totalExpenses] is its [sumByType] (C40); each category has one
    slice; the recent list is the five newest rows of the account. *)

From stdpp Require Import sorting.
From S2P Require Import Prelude JsDate Ledger Budget MonthlyStats Dashboard PeriodCalculator Aggregator.
Import JsDate BudgetAction.
Local Open Scope Z_scope.

Module TransactionOverview.

(** Lines 25-33. *)
Definition COLORS : list string :=
  ["#3B82F6"; "#10B981"; "#F59E0B"; "#EF4444"; "#8B5CF6"; "#06B6D4"; "#84CC16"].

(** Lines 36-38: [accounts.find((a) => a.isDefault)?.id || accounts[0]?.id]. *)
Definition initialSelected (accounts : list Account.t) : option string :=
  let first := option_map Account.id (head accounts) in
  match List.find Account.isDefault accounts with
  | Some a => if String.eqb (Account.id a) EmptyString then first else Some (Account.id a)
  | None => first
  end.

(** Lines 41-43: an undefined selection matches no row. *)
Definition accountTransactions (sel : option string) (txs : list Transaction.t) : list Transaction.t :=
  List.filter (λ t, match sel with Some a => String.eqb (Transaction.accountId t) a | None => false end) txs.

(** Line 47: [(a, b) => new Date(b.date) - new Date(a.date)]: [a] may stay
    before [b] when it is not older. *)
Definition newerFirst (a b : Transaction.t) : Prop := Transaction.date b - Transaction.date a <= 0.

#[export] Instance newerFirst_dec : RelDecision newerFirst :=
  λ a b, decide (Transaction.date b - Transaction.date a <= 0).

(** Lines 46-47: [accountTransactions] after its in-place sort. *)
Definition sortedTransactions (sel : option string) (txs : list Transaction.t) : list Transaction.t :=
  merge_sort newerFirst (accountTransactions sel txs).

(** Lines 46-48. *)
Definition recentTransactions (sel : option string) (txs : list Transaction.t) : list Transaction.t :=
  take 5 (sortedTransactions sel txs).

(** Lines 52-59. *)
Definition isCurrentMonthExpense (now : Z) (t : Transaction.t) : bool :=
  bool_decide (Transaction.type t = EXPENSE)
  && (getMonth (Transaction.date t) =? getMonth now) && (getFullYear (Transaction.date t) =? getFullYear now).

Definition currentMonthExpenses (sel : option string) (txs : list Transaction.t) (now : Z) : list Transaction.t :=
  List.filter (isCurrentMonthExpense now) (sortedTransactions sel txs).

(** Lines 63-67: [acc[category] += transaction.amount]. *)
Fixpoint addCategory (c : string) (amt : Z) (acc : list (string * Z)) : list (string * Z) :=
  match acc with
  | [] => [(c, amt)]
  | (k, v) :: acc' => if String.eqb k c then (k, v + amt) :: acc' else (k, v) :: addCategory c amt acc'
  end.

(** The step of the reduce on lines 62-69. *)
Definition categoryStep (acc : list (string * Z)) (t : Transaction.t) : list (string * Z) :=
  addCategory (Transaction.category t) (Transaction.amount t) acc.

(** Lines 62-69. *)
Definition expensesByCategory (sel : option string) (txs : list Transaction.t) (now : Z) : list (string * Z) :=
  fold_left categoryStep (currentMonthExpenses sel txs now) [].

(** Lines 72-77: [{ name, value }], with its colour (lines 230, 253). *)
Record Slice := mkSlice { name : string; value : Z; color : string }.

Definition pieChartData (sel : option string) (txs : list Transaction.t) (now : Z) : list Slice :=
  imap (λ i '(c, v), mkSlice c v (nth (i mod length COLORS) COLORS EmptyString))
    (expensesByCategory sel txs now).

(** Line 79. *)
Definition totalExpenses (sel : option string) (txs : list Transaction.t) (now : Z) : Z :=
  fold_left (λ sum t, sum + Transaction.amount t) (currentMonthExpenses sel txs now) 0.

(** The slice of a category, as the legend shows it. *)
Definition sliceOf (c : string) (pie : list Slice) : option Z :=
  option_map value (List.find (λ s, String.eqb (name s) c) pie).

(** The value an association list holds for a key. *)
Definition alookup (c : string) (l : list (string * Z)) : option Z :=
  option_map snd (List.find (λ p, String.eqb p.1 c) l).


(** Lines 100-112: the selector offers the accounts' ids. *)
Definition selectAccount (accounts : list Account.t) (id : string) : option (option string) :=
  if bool_decide (id ∈ map Account.id accounts) then Some (Some id) else None.

(** ** Lemmas *)

Lemma alookup_addCategory c' c a acc :
  alookup c' (addCategory c a acc) = if String.eqb c c' then Some (default 0 (alookup c acc) + a) else alookup c' acc.
Proof.
  unfold alookup. induction acc as [|[k v] acc IH]; cbn.
  - by destruct (String.eqb c c').
  - destruct (String.eqb_spec k c) as [<-|Hk]; cbn.
    + by destruct (String.eqb k c').
    + destruct (String.eqb_spec k c') as [<-|]; [|exact IH].
      by rewrite (proj2 (String.eqb_neq c k)) by congruence.
Qed.

(** The reduce sums, per category, the amounts of its rows. *)
Lemma alookup_fold c l acc :
  alookup c (fold_left categoryStep l acc)
  = match alookup c acc, existsb (λ t, String.eqb (Transaction.category t) c) l with
    | None, false => None
    | o, _ => Some (default 0 o + sumZ Transaction.amount
                      (List.filter (λ t, String.eqb (Transaction.category t) c) l))
    end.
Proof.
  revert acc. induction l as [|t l IH]; intros acc; cbn [fold_left existsb List.filter].
  - rewrite sumZ_nil. destruct (alookup c acc); cbn; [f_equal; lia|done].
  - rewrite IH. unfold categoryStep. rewrite alookup_addCategory.
    destruct (String.eqb_spec (Transaction.category t) c) as [<-|]; cbn [orb].
    + rewrite sumZ_cons. destruct (alookup _ acc), (existsb _ l); cbn; f_equal; lia.
    + done.
Qed.

Lemma keys_addCategory x c a acc : x ∈ map fst (addCategory c a acc) → x ∈ map fst acc ∨ x = c.
Proof.
  induction acc as [|[k v] acc IH]; cbn.
  - intros ->%list_elem_of_singleton. by right.
  - destruct (String.eqb k c); cbn; [by left|].
    intros [->|[Hx|Hx]%IH]%elem_of_cons; [left; constructor|left; by constructor|by right].
Qed.

Lemma NoDup_addCategory c a acc : NoDup (map fst acc) → NoDup (map fst (addCategory c a acc)).
Proof.
  induction acc as [|[k v] acc IH]; cbn; intros Hnd; [by apply NoDup_singleton|].
  apply NoDup_cons in Hnd as [Hk Hnd].
  destruct (String.eqb_spec k c); cbn; constructor; auto.
  intros [?|?]%keys_addCategory; [done|congruence].
Qed.

Lemma NoDup_fold l acc : NoDup (map fst acc) → NoDup (map fst (fold_left categoryStep l acc)).
Proof. revert acc. induction l as [|t l IH]; intros acc Hnd; cbn; [done|]. by apply IH, NoDup_addCategory. Qed.

Lemma map_imap_proj (f : nat → string * Z → Slice) l :
  (∀ i p, (name (f i p), value (f i p)) = p) → map (λ s, (name s, value s)) (imap f l) = l.
Proof.
  revert f. induction l as [|p l IH]; intros f Hf; cbn; [done|].
  f_equal; [apply Hf|]. apply IH. intros i q. apply Hf.
Qed.

(** A slice carries its category and sum. *)
Lemma pie_pairs sel txs now :
  map (λ s, (name s, value s)) (pieChartData sel txs now) = expensesByCategory sel txs now.
Proof. apply map_imap_proj. by intros i [c v]. Qed.

Lemma sliceOf_alookup c sel txs now :
  sliceOf c (pieChartData sel txs now) = alookup c (expensesByCategory sel txs now).
Proof.
  rewrite <- pie_pairs. unfold sliceOf, alookup.
  induction (pieChartData sel txs now) as [|x l IH]; cbn; [done|]. by destruct (String.eqb (name x) c).
Qed.

(** [getMonth]/[getFullYear] equal to the clock's: the spec's period. *)
Lemma month_in_period now d :
  (getMonth d =? getMonth now) && (getFullYear d =? getFullYear now)
  = ((PeriodCalculator.periodBounds now).1 <=? d) && (d <=? (PeriodCalculator.periodBounds now).2).
Proof.
  apply Bool.eq_iff_eq_true. rewrite !andb_true_iff, !Z.eqb_eq, !Z.leb_le.
  rewrite (PeriodCalculator.periodBounds_spec now d). unfold getMonth, getFullYear. tauto.
Qed.

(** The month's expenses of an account of the user are, up to order, the
    rows the spec's aggregator selects for that scope and period. *)
Lemma currentMonthExpenses_selected uid acc db now :
  currentMonthExpenses (Some acc)
    (List.filter (λ t, String.eqb (Transaction.userId t) uid) (db_transactions db)) now
  ≡ₚ List.filter (Aggregator.selected EXPENSE (PeriodCalculator.periodBounds now) (Aggregator.mkScope uid (Some acc)))
       (db_transactions db).
Proof.
  unfold currentMonthExpenses, sortedTransactions.
  rewrite (List_filter_Permutation _ _ _ (merge_sort_Permutation _ _)).
  unfold accountTransactions. rewrite !List_filter_filter. apply reflexive_eq, List.filter_ext. intros t.
  unfold isCurrentMonthExpense, Aggregator.selected, Aggregator.inScope. cbn [Aggregator.scopeUser Aggregator.scopeAccount].
  rewrite <- (andb_assoc (bool_decide _)), month_in_period.
  destruct (String.eqb _ uid), (String.eqb _ acc), (bool_decide _), (_ <=? _), (_ <=? _); reflexivity.
Qed.

(** ** Theorems *)



(** The recent list holds the five newest rows of the selected account,
    newest first: it is sorted, and it is a prefix of a newest-first
    permutation of the account's rows. *)
Theorem recent_newest sel txs :
  Sorted newerFirst (recentTransactions sel txs)
  ∧ (length (recentTransactions sel txs) = min 5 (length (accountTransactions sel txs)))%nat
  ∧ ∃ rest, recentTransactions sel txs ++ rest ≡ₚ accountTransactions sel txs
            ∧ Forall (λ r, Forall (λ k, Transaction.date r <= Transaction.date k) (recentTransactions sel txs)) rest.
Proof.
  assert (Htot : Total newerFirst) by (intros a b; unfold newerFirst; lia).
  assert (Htr : Transitive newerFirst) by (intros a b c; unfold newerFirst; lia).
  unfold recentTransactions, sortedTransactions. set (l := accountTransactions sel txs).
  pose proof (StronglySorted_merge_sort newerFirst l) as Hss.
  rewrite <- (take_drop 5 (merge_sort newerFirst l)) in Hss.
  apply StronglySorted_app in Hss as (Hcross & Hs1 & _).
  split_and!.
  - by apply StronglySorted_Sorted.
  - by rewrite length_take, (Permutation_length (merge_sort_Permutation _ l)).
  - exists (drop 5 (merge_sort newerFirst l)). split; [by rewrite take_drop, merge_sort_Permutation|].
    apply Forall_forall. intros r Hr. apply Forall_forall. intros k Hk.
    specialize (Hcross k r Hk Hr).
    unfold newerFirst in Hcross. lia.
Qed.

End TransactionOverview.
