(* ===== verification/AccountCard.v ===== *)
(** * AccountCard: the account card of the dashboard and its default switch

    [src/app/(main)/dashboard/_components/account-card.jsx] shows one
    account with a switch that makes it the user's default account,
    through [useFetch(updateDefaultAccount)].  Modelled here:
    - [handleDefaultChange] (lines 29-38): on the default account it only
      warns, otherwise it calls [updateDefaultAccount(id)];
    - the two effects on the hook's [data] and [error] (lines 40-50),
      which toast the outcome;
    - the switch, disabled while the call runs (lines 92-97);
    - [getAccountTypeColor] (lines 64-66).
    [updateDefaultAccount] itself ([src/actions/account], not under
    [src/]) is modelled from the spec's invariant, "exactly one default
    account per user with at least one account, enforced by the
    adapter": it clears the flag on the user's other accounts and sets it
    on the chosen one.

    Theorems: the card never asks to unset the default account; a
    successful update leaves exactly one default account among the
    user's, the chosen one, and touches no other user's account; so a
    sequence of clicks on the cards keeps the spec's invariant. *)

From S2P Require Import Prelude Ledger Budget UseFetch.
Local Open Scope Z_scope.

Module AccountAction.
Import BudgetAction.

(** The user's accounts with exactly one default among them, if any. *)
Definition one_default (uid : string) (accs : list Account.t) : Prop :=
  let mine := List.filter (λ a, String.eqb (Account.userId a) uid) accs in
  mine = [] ∨ length (List.filter Account.isDefault mine) = 1%nat.

(** [updateDefaultAccount(accountId)]: the signed-in user's account
    [accountId] becomes the default one, the user's others are unset. *)
Definition updateDefaultAccount (req : Request) (accountId : string) (db : Db) : result (Db * bool) :=
  user ← require_user req db;
  let mine a := String.eqb (Account.userId a) (User.id user) in
  if existsb (λ a, mine a && String.eqb (Account.id a) accountId) (db_accounts db) then
    let set a :=
      if mine a then Account.mk (Account.id a) (Account.name a) (Account.type a) (Account.balance a)
                       (String.eqb (Account.id a) accountId) (Account.userId a)
      else a in
    mret (mkDb (db_users db) (map set (db_accounts db)) (db_transactions db) (db_budgets db) (db_next_id db), true)
  else Err "Account not found"%string.

(** ** Lemmas *)

(** With unique ids, one element has a given id that occurs. *)
Lemma filter_unique_id k (l : list Account.t) :
  NoDup (map Account.id l) → existsb (λ a, String.eqb (Account.id a) k) l = true →
  length (List.filter (λ a, String.eqb (Account.id a) k) l) = 1%nat.
Proof.
  induction l as [|x l IH]; cbn; [done|]. intros [Hx Hnd]%NoDup_cons.
  destruct (String.eqb_spec (Account.id x) k) as [<-|]; cbn; [|auto].
  intros _. rewrite filter_existsb_false; [done|]. apply not_true_iff_false.
  intros (y & Hy & Heq%String.eqb_eq)%existsb_exists. apply Hx. rewrite <- Heq.
  apply list_elem_of_In, in_map, Hy.
Qed.

(** ** Theorems *)

(** A successful [updateDefaultAccount] leaves exactly one default
    account among the signed-in user's accounts, the chosen one (its ids
    being unique), and leaves every other user's account as it was. *)
Theorem updateDefault_one_default req db u accountId db' ok :
  require_user req db = Ok u →
  NoDup (map Account.id (List.filter (λ a, String.eqb (Account.userId a) (User.id u)) (db_accounts db))) →
  updateDefaultAccount req accountId db = Ok (db', ok) →
  List.filter Account.isDefault (List.filter (λ a, String.eqb (Account.userId a) (User.id u)) (db_accounts db'))
  = map (λ a, Account.mk (Account.id a) (Account.name a) (Account.type a) (Account.balance a) true (Account.userId a))
      (List.filter (λ a, String.eqb (Account.id a) accountId)
         (List.filter (λ a, String.eqb (Account.userId a) (User.id u)) (db_accounts db)))
  ∧ one_default (User.id u) (db_accounts db')
  ∧ List.filter (λ a, negb (String.eqb (Account.userId a) (User.id u))) (db_accounts db')
    = List.filter (λ a, negb (String.eqb (Account.userId a) (User.id u))) (db_accounts db).
Proof.
  intros Hu Hnd Hupd. unfold updateDefaultAccount in Hupd. rewrite Hu in Hupd. cbn [mbind result_bind] in Hupd.
  destruct (existsb _ _) eqn:He; [|discriminate]. injection Hupd as <- _. cbn [db_accounts].
  set (uid := User.id u) in *.
  assert (Hdef : List.filter Account.isDefault (List.filter (λ a, String.eqb (Account.userId a) uid)
            (map (λ a, if String.eqb (Account.userId a) uid then Account.mk (Account.id a) (Account.name a)
                  (Account.type a) (Account.balance a) (String.eqb (Account.id a) accountId) (Account.userId a)
                  else a) (db_accounts db)))
          = map (λ a, Account.mk (Account.id a) (Account.name a) (Account.type a) (Account.balance a) true
                  (Account.userId a))
              (List.filter (λ a, String.eqb (Account.id a) accountId)
                 (List.filter (λ a, String.eqb (Account.userId a) uid) (db_accounts db)))).
  { clear He Hnd. induction (db_accounts db) as [|x l IH]; cbn; [done|].
    destruct (String.eqb (Account.userId x) uid) eqn:Hx; cbn; rewrite ?Hx; cbn; [|done].
    destruct (String.eqb (Account.id x) accountId); cbn; [by f_equal|done]. }
  split_and!; [exact Hdef| |].
  - right. rewrite Hdef, length_map. apply filter_unique_id; [done|]. by rewrite existsb_filter.
  - clear. induction (db_accounts db) as [|x l IH]; cbn; [done|].
    by destruct (String.eqb (Account.userId x) uid) eqn:Hx; cbn; rewrite ?Hx; cbn; rewrite ?IH.
Qed.

End AccountAction.

Module AccountCard.
Import BudgetAction.

(** Lines 64-66. *)
Definition getAccountTypeColor (a : Account.t) : string :=
  match Account.type a with CURRENT => "text-blue-600" | SAVINGS => "text-emerald-600" end.

(** Lines 22-27: the hook's state; its data is the action's [success]. *)
Record State := mkState { update : UseFetch.State bool }.

Definition init : State := mkState UseFetch.init.

Inductive Effect :=
  | ToastWarning (msg : string)
  | ToastSuccess (msg : string)
  | ToastError (msg : string)
  | CallUpdateDefault (id : string).

(** Lines 29-38. *)
Definition handleDefaultChange (a : Account.t) (s : State) : State * list Effect :=
  if Account.isDefault a then (s, [ToastWarning "You need atleast 1 default account"])
  else (mkState (UseFetch.begin_call (update s)), [CallUpdateDefault (Account.id a)]).

(** Lines 40-50: [updatedAccount?.success] and [error.message || ...]. *)
Definition settle (r : result bool) (s : State) : State * list Effect :=
  let s' := mkState (UseFetch.end_call r (update s)).1 in
  match r with
  | Ok true =>
      (s', [ToastSuccess ("Default account updated successfully! This account will now be selected by "
                          +:+ "default for new transactions.")])
  | Ok false => (s', [])
  | Err m =>
      (s', [ToastError (if String.eqb m EmptyString then "Failed to update default account" else m)])
  end.

Inductive Event := Click | Returned (r : result bool).

(** Lines 92-97: the switch is disabled while the call runs. *)
Definition step (a : Account.t) (s : State) (e : Event) : option (State * list Effect) :=
  match e with
  | Click => if UseFetch.loading (update s) then None else Some (handleDefaultChange a s)
  | Returned r => if UseFetch.loading (update s) then Some (settle r s) else None
  end.

(** A second account of the sample user, not the default one. *)
Module Sample.
Definition savings : Account.t := Account.mk "acc_2" "Savings" SAVINGS 0 false "user_1".
Definition db : Db := mkDb [Ledger.Sample.ada] [Ledger.Sample.checking; savings] [] [] 1.
End Sample.

(** ** Theorems *)

(** A click on the card of the default account only warns: no call, no
    change of state.  On another account it calls [updateDefaultAccount]
    with the account's id and the switch turns disabled. *)
Theorem card_click a s s' out :
  step a s Click = Some (s', out) →
  (Account.isDefault a = true → s' = s ∧ out = [ToastWarning "You need atleast 1 default account"])
  ∧ (Account.isDefault a = false →
     out = [CallUpdateDefault (Account.id a)] ∧ UseFetch.loading (update s') = true).
Proof.
  cbn. destruct (UseFetch.loading (update s)); [discriminate|]. intros Hs. injection Hs as Hs.
  unfold handleDefaultChange in Hs. destruct (Account.isDefault a); injection Hs as <- <-;
    split; intros H; try discriminate H; done.
Qed.

(** Composed with the adapter: whatever card of the signed-in user is
    clicked, the store keeps exactly one default account among the
    user's.  A click on the default card makes no call; a click on
    another card makes a call that succeeds and leaves the clicked
    account as the only default one. *)
Theorem card_keeps_one_default req db u a s s' out :
  require_user req db = Ok u →
  NoDup (map Account.id (List.filter (λ b, String.eqb (Account.userId b) (User.id u)) (db_accounts db))) →
  a ∈ db_accounts db → Account.userId a = User.id u →
  step a s Click = Some (s', out) →
  (out = [ToastWarning "You need atleast 1 default account"])
  ∨ (out = [CallUpdateDefault (Account.id a)]
     ∧ ∃ db', AccountAction.updateDefaultAccount req (Account.id a) db = Ok (db', true)
              ∧ AccountAction.one_default (User.id u) (db_accounts db')
              ∧ List.filter Account.isDefault
                  (List.filter (λ b, String.eqb (Account.userId b) (User.id u)) (db_accounts db'))
                ≠ []).
Proof.
  intros Hu Hnd Ha Hau Hs. destruct (card_click a s s' out Hs) as [Hd Hnd'].
  destruct (Account.isDefault a) eqn:Hdef; [left; by apply Hd|right]. destruct (Hnd' eq_refl) as [-> _].
  split; [done|].
  assert (He : existsb (λ b, String.eqb (Account.userId b) (User.id u) && String.eqb (Account.id b) (Account.id a))
                 (db_accounts db) = true).
  { apply existsb_exists. exists a. split; [by apply list_elem_of_In|]. by rewrite Hau, !String.eqb_refl. }
  destruct (AccountAction.updateDefaultAccount req (Account.id a) db) as [[db' ok]|m] eqn:Hupd.
  - assert (ok = true) as ->.
    { unfold AccountAction.updateDefaultAccount in Hupd. rewrite Hu in Hupd. cbn [mbind result_bind] in Hupd. rewrite He in Hupd. by injection Hupd. }
    exists db'. destruct (AccountAction.updateDefault_one_default req db u (Account.id a) db' true Hu Hnd Hupd)
      as (Hdefs & Hone & _).
    split_and!; [done|done|]. rewrite Hdefs. intros Hnil%map_eq_nil.
    assert (Hin : In a (List.filter (λ b, String.eqb (Account.id b) (Account.id a))
                          (List.filter (λ b, String.eqb (Account.userId b) (User.id u)) (db_accounts db)))).
    { rewrite !List.filter_In, Hau, !String.eqb_refl. split_and!; [by apply list_elem_of_In|done|done]. }
    by rewrite Hnil in Hin.
  - unfold AccountAction.updateDefaultAccount in Hupd. rewrite Hu in Hupd. cbn [mbind result_bind] in Hupd. rewrite He in Hupd. discriminate.
Qed.

Lemma card_keeps_one_default_witness :
  AccountAction.updateDefaultAccount (mkRequest (Some "clerk_1") 0) "acc_2" Sample.db
    = Ok (mkDb [Ledger.Sample.ada]
            [Account.mk "acc_1" "Checking" CURRENT 0 false "user_1"; Account.mk "acc_2" "Savings" SAVINGS 0 true "user_1"]
            [] [] 1, true)
  ∧ ((handleDefaultChange Sample.savings init).2 = [ToastWarning "You need atleast 1 default account"]
     ∨ ((handleDefaultChange Sample.savings init).2 = [CallUpdateDefault (Account.id Sample.savings)]
        ∧ ∃ db', AccountAction.updateDefaultAccount (mkRequest (Some "clerk_1") 0) (Account.id Sample.savings) Sample.db
                   = Ok (db', true)
                 ∧ AccountAction.one_default (User.id Ledger.Sample.ada) (db_accounts db')
                 ∧ List.filter Account.isDefault (List.filter (λ b, String.eqb (Account.userId b) (User.id Ledger.Sample.ada))
                                                    (db_accounts db')) ≠ [])).
Proof.
  split; [by_eval|].
  exact (card_keeps_one_default (mkRequest (Some "clerk_1") 0) Sample.db Ledger.Sample.ada Sample.savings init
           (handleDefaultChange Sample.savings init).1 (handleDefaultChange Sample.savings init).2
           eq_refl ltac:(vm_compute; repeat constructor; set_solver) ltac:(by right; left) eq_refl eq_refl).
Defined.

End AccountCard.
