(* ===== verification/AccountPage.v ===== *)
(** * AccountPage: the page of one account

    [src/app/(main)/account/[id]/page.jsx] is a server component.  It
    loads the account with its transactions ([getAccountWithTransactions]
    of [src/actions/account], not under [src/]: modelled from its use as
    the signed-in user's account of that id with its rows, or [null]),
    computes the account's income, expenses and net flow, sorts the rows
    newest first in place and shows the three newest, and hands the same,
    now sorted, array to [AccountChart] and [TransactionTable].  The
    whole body is inside [try]; the [catch] renders an error view.
    Modelled here: the page's result as a [View] (lines 10-35, 117-126,
    138, 196, 215, 221-241); the sort mutates the array the chart and the
    table receive, which the model passes on as the sorted list.

    Theorems: the statistics are the sums of the account's rows; the
    chart and the table receive a permutation of them, sorted newest
    first; the chart's all-time totals are the page's totals when no row
    is dated before 1970 or after today; and a missing account never
    gives the 404 page, because [notFound()] throws inside the [try] and
    the [catch] turns it into the error view. *)

From stdpp Require Import sorting.
From S2P Require Import Prelude JsDate Ledger Budget AccountChart.
Import JsDate BudgetAction.
Local Open Scope Z_scope.

Module AccountPage.

(** [getAccountWithTransactions(id)]: the signed-in user's account of
    that id with its rows, or [null]. *)
Definition getAccountWithTransactions (req : Request) (id : string) (db : Db)
    : result (option (Account.t * list Transaction.t)) :=
  user ← require_user req db;
  match List.find (λ a, String.eqb (Account.id a) id && String.eqb (Account.userId a) (User.id user))
          (db_accounts db) with
  | Some a => mret (Some (a, List.filter (λ t, String.eqb (Transaction.accountId t) id) (db_transactions db)))
  | None => mret None
  end.

(** Line 34: newest first. *)
Definition newerFirst (a b : Transaction.t) : Prop := Transaction.date b - Transaction.date a <= 0.

#[export] Instance newerFirst_dec : RelDecision newerFirst :=
  λ a b, decide (Transaction.date b - Transaction.date a <= 0).

Definition sumOf (k : TransactionType) (txs : list Transaction.t) : Z :=
  fold_left (λ sum t, sum + Transaction.amount t) (List.filter (λ t, bool_decide (Transaction.type t = k)) txs) 0.

(** What the page renders. *)
Inductive View :=
  | Loaded (account : Account.t) (totalIncome totalExpenses netFlow : Z)
           (recent : list Transaction.t) (rows : list Transaction.t)
  | ErrorView
  | NotFoundView.

(** Lines 117-126: the net flow's sign and colour. *)
Definition netFlowSign (netFlow : Z) : string := if 0 <=? netFlow then "+" else EmptyString.
Definition netFlowColor (netFlow : Z) : string :=
  if 0 <=? netFlow then "text-emerald-600" else "text-red-600".

(** Lines 10-35 and 221-241.  A rejected call and [notFound()] both throw
    inside the [try], whose [catch] renders the error view; [rows] is the
    array the chart and the table receive (lines 196, 215). *)
Definition AccountPage (req : Request) (id : string) (db : Db) : View :=
  match getAccountWithTransactions req id db with
  | Err _ => ErrorView
  | Ok None => ErrorView
  | Ok (Some (a, txs)) =>
      let totalIncome := sumOf INCOME txs in
      let totalExpenses := sumOf EXPENSE txs in
      let sorted := merge_sort newerFirst txs in
      Loaded a totalIncome totalExpenses (totalIncome - totalExpenses) (take 3 sorted) sorted
  end.

(** ** Lemmas *)

Lemma sumOf_sumZ k txs :
  sumOf k txs = sumZ Transaction.amount (List.filter (λ t, bool_decide (Transaction.type t = k)) txs).
Proof. unfold sumOf. rewrite fold_left_add_sumZ. lia. Qed.

(** In the all-time range, a row dated from 1970 up to the end of today
    is in the chart's window. *)
Lemma inRange_ALL now t :
  0 <= Transaction.date t <= AccountChart.endOfDay now → AccountChart.inRange AccountChart.ALL now t = true.
Proof.
  intros Hd. unfold AccountChart.inRange, AccountChart.startDate, AccountChart.startOfDay. cbn [AccountChart.days].
  rewrite andb_true_iff, !Z.leb_le. change (MakeDate (Day 0) 0) with 0. lia.
Qed.

(** ** Theorems *)

(** The page never renders the 404 view: [notFound()] throws inside the
    [try], and the [catch] renders the error view.  For a signed-in user
    with no account of that id, the page is the error view. *)
Theorem account_page_never_404 req id db :
  AccountPage req id db ≠ NotFoundView
  ∧ ∀ u, require_user req db = Ok u →
      existsb (λ a, String.eqb (Account.id a) id && String.eqb (Account.userId a) (User.id u)) (db_accounts db)
        = false →
      AccountPage req id db = ErrorView.
Proof.
  split.
  - unfold AccountPage. by destruct (getAccountWithTransactions req id db) as [[[a txs]|]|].
  - intros u Hu He. unfold AccountPage, getAccountWithTransactions. rewrite Hu. cbn [mbind result_bind].
    destruct (List.find _ _) as [a|] eqn:Hf; [|done]. exfalso.
    apply List.find_some in Hf as [Hin Ha]. apply not_true_iff_false in He. apply He, existsb_exists. eauto.
Qed.

Lemma account_page_never_404_witness :
  AccountPage (mkRequest (Some "clerk_1") 0) "acc_9" (Ledger.Sample.store [] []) = ErrorView.
Proof.
  exact (proj2 (account_page_never_404 (mkRequest (Some "clerk_1") 0) "acc_9" (Ledger.Sample.store [] []))
           Ledger.Sample.ada eq_refl eq_refl).
Defined.

(** A loaded page shows the user's account: its income and expenses are
    the sums of the account's rows, its net flow their difference, and
    the chart and the table receive those rows sorted newest first, the
    three newest being the recent list. *)
Theorem account_page_loaded req id db u a inc exp net recent rows :
  require_user req db = Ok u → AccountPage req id db = Loaded a inc exp net recent rows →
  let mine := List.filter (λ t, String.eqb (Transaction.accountId t) id) (db_transactions db) in
  Account.id a = id ∧ Account.userId a = User.id u ∧ a ∈ db_accounts db
  ∧ rows ≡ₚ mine ∧ Sorted newerFirst rows ∧ recent = take 3 rows
  ∧ inc = sumZ Transaction.amount (List.filter (λ t, bool_decide (Transaction.type t = INCOME)) rows)
  ∧ exp = sumZ Transaction.amount (List.filter (λ t, bool_decide (Transaction.type t = EXPENSE)) rows)
  ∧ net = inc - exp.
Proof.
  intros Hu Hp. unfold AccountPage, getAccountWithTransactions in Hp. rewrite Hu in Hp. cbn [mbind result_bind] in Hp.
  destruct (List.find _ _) as [a'|] eqn:Hf; cbn in Hp; [|discriminate]. injection Hp as <- <- <- <- <- <-.
  apply List.find_some in Hf as [Hin Ha]. apply andb_true_iff in Ha as [Hid%String.eqb_eq Huid%String.eqb_eq].
  assert (Htot : Total newerFirst) by (intros x y; unfold newerFirst; lia).
  pose proof (merge_sort_Permutation newerFirst
                (List.filter (λ t, String.eqb (Transaction.accountId t) id) (db_transactions db))) as Hperm.
  split_and!; try done; [by apply list_elem_of_In|by apply Sorted_merge_sort| |].
  all: rewrite sumOf_sumZ; apply sumZ_Permutation, List_filter_Permutation; by symmetry.
Qed.

(** The chart the page shows, in its all-time range, totals the page's
    income and expenses, provided no row is dated before 1970 or after
    the end of today (those rows are counted by the page and not by the
    chart). *)
Theorem chart_all_time_matches_page req id db a inc exp net recent rows parseLabel :
  AccountPage req id db = Loaded a inc exp net recent rows →
  (∀ t, t ∈ rows → 0 <= Transaction.date t <= AccountChart.endOfDay (now req)) →
  AccountChart.totals (AccountChart.filteredData parseLabel AccountChart.ALL (now req) rows) = (inc, exp).
Proof.
  intros Hp Hd. unfold AccountPage in Hp.
  destruct (getAccountWithTransactions req id db) as [[[a' txs]|]|]; try discriminate.
  injection Hp as _ <- <- _ _ <-. rewrite AccountChart.totals_filteredData, !sumOf_sumZ.
  pose proof (merge_sort_Permutation newerFirst txs) as Hperm.
  f_equal; rewrite <- (sumZ_Permutation _ _ _ (List_filter_Permutation _ _ _ Hperm)); f_equal.
  all: apply filter_ext_in; intros t Ht; rewrite inRange_ALL by (apply Hd, Ht); unfold AccountChart.isIncome.
  all: by destruct (Transaction.type t).
Qed.

End AccountPage.
