(* ===== verification/CreateAccountDrawer.v ===== *)
(** * CreateAccountDrawer: the drawer that creates an account

    [src/components/create-account-drawer.jsx] is a drawer with a form
    (react-hook-form with a zod resolver) whose submission calls
    [createAccount] through [useFetch].  Modelled here:
    - the drawer's [open] state and the form's values, with their
      defaults (lines 31-48), the inputs that set them (lines 98-102,
      113-115, 146, 164-165) and the errors the resolver reports
      (lines 103-105, 131-133, 148-150);
    - [handleSubmit(onSubmit)] (lines 57-59, 92): the resolver validates
      the values; valid values are passed to [createAccount], invalid ones
      only set the errors;
    - the two effects (lines 61-73): a created account toasts, resets the
      form and closes the drawer; an error toasts its message;
    - the submit button disabled while the call runs (lines 181-194) and
      the cancel button, a [DrawerClose] (lines 172-180).
    [accountSchema] ([src/app/lib/schema], not in the snapshot) is a
    [Variable] of the Section: the theorems hold for every resolver.  The
    form's contents exist only while the drawer is open.  After a
    submission the resolver runs again on every change of a [register]ed
    input (react-hook-form's default [reValidateMode: "onChange"]), not on
    a [setValue] without [shouldValidate].

    Theorems: [createAccount] is only called with values the resolver
    accepted, and never while a call runs; a created account resets the
    form to its defaults and closes the drawer, while a failure keeps
    the values and the drawer open; closing the drawer without creating
    keeps the typed values for the next opening. *)

From S2P Require Import Prelude Ledger UseFetch.
Local Open Scope Z_scope.

Module CreateAccountDrawer.

(** Lines 42-47: the form's values; [balance] is the input's text. *)
Record Form := mkForm { name : string; type : AccountType; balance : string; isDefault : bool }.

Definition defaultValues : Form := mkForm EmptyString CURRENT EmptyString false.

(** Lines 32-55: the drawer, the form and the [useFetch(createAccount)]
    hook, whose data is the created account (truthy or not). *)
Record State := mkState {
  open : bool;
  form : Form;
  errors : option string;
  submitted : bool;
  create : UseFetch.State bool;
}.

Definition init : State := mkState false defaultValues None false UseFetch.init.

Inductive Effect :=
  | ToastSuccess (msg : string)
  | ToastError (msg : string)
  | CallCreateAccount (data : Form).

Inductive Event :=
  | OpenChange (b : bool)
  | SetName (s : string)
  | SetType (t : AccountType)
  | SetBalance (s : string)
  | SetDefault (b : bool)
  | Submit
  | Returned (r : result bool).

Section Drawer.
(** [zodResolver(accountSchema)]: the validated values or a message. *)
Variable accountSchema : Form → result Form.

(** A change of a [register]ed input (lines 101, 146); after a
    submission react-hook-form validates again on every change
    ([reValidateMode: "onChange"]). *)
Definition setForm (f : Form) (s : State) : State :=
  let errs := if submitted s then match accountSchema f with Ok _ => None | Err m => Some m end else errors s in
  mkState (open s) f errs (submitted s) (create s).

(** [setValue(field, v)] (lines 114, 165), called without
    [shouldValidate]: the value changes and the errors stay. *)
Definition setValue (f : Form) (s : State) : State := mkState (open s) f (errors s) (submitted s) (create s).

(** Lines 57-59 and 92: [handleSubmit(onSubmit)]. *)
Definition handleSubmit (s : State) : State * list Effect :=
  match accountSchema (form s) with
  | Ok data => (mkState (open s) (form s) None true (UseFetch.begin_call (create s)), [CallCreateAccount data])
  | Err m => (mkState (open s) (form s) (Some m) true (create s), [])
  end.

(** Lines 61-73: [reset()] restores the defaults and clears the errors
    and the submitted state. *)
Definition settle (r : result bool) (s : State) : State * list Effect :=
  let c := (UseFetch.end_call r (create s)).1 in
  match r with
  | Ok true => (mkState false defaultValues None false c, [ToastSuccess "Account created successfully"])
  | Ok false => (mkState (open s) (form s) (errors s) (submitted s) c, [])
  | Err m =>
      (mkState (open s) (form s) (errors s) (submitted s) c,
       [ToastError (if String.eqb m EmptyString then "Failed to create account" else m)])
  end.

(** One event; the form's inputs and buttons exist while the drawer is
    open, and the submit button is disabled while the call runs. *)
Definition step (s : State) (e : Event) : option (State * list Effect) :=
  match e with
  | OpenChange b => Some (mkState b (form s) (errors s) (submitted s) (create s), [])
  | SetName x => if open s then Some (setForm (mkForm x (type (form s)) (balance (form s)) (isDefault (form s))) s, []) else None
  | SetType t => if open s then Some (setValue (mkForm (name (form s)) t (balance (form s)) (isDefault (form s))) s, []) else None
  | SetBalance x => if open s then Some (setForm (mkForm (name (form s)) (type (form s)) x (isDefault (form s))) s, []) else None
  | SetDefault b => if open s then Some (setValue (mkForm (name (form s)) (type (form s)) (balance (form s)) b) s, []) else None
  | Submit => if open s && negb (UseFetch.loading (create s)) then Some (handleSubmit s) else None
  | Returned r => if UseFetch.loading (create s) then Some (settle r s) else None
  end.

(** A sequence of events, with the effects they cause. *)
Fixpoint run (es : list Event) (s : State) : option (State * list Effect) :=
  match es with
  | [] => Some (s, [])
  | e :: es' =>
      match step s e with
      | Some (s1, out1) => match run es' s1 with Some (s2, out2) => Some (s2, out1 ++ out2) | None => None end
      | None => None
      end
  end.

(** ** Lemmas *)

Lemma step_calls_valid s e s' out d :
  step s e = Some (s', out) → CallCreateAccount d ∈ out → accountSchema (form s) = Ok d.
Proof.
  intros Hs Hd%list_elem_of_In. destruct e; cbn in Hs; unfold handleSubmit, settle in Hs;
    repeat case_match; simplify_eq; cbn in Hd; intuition congruence.
Qed.

(** ** Theorems *)

(** Whatever the user does, [createAccount] is only called with values
    the resolver accepted for the form as it was. *)
Theorem run_calls_valid es s s' out d :
  run es s = Some (s', out) → CallCreateAccount d ∈ out → ∃ f, accountSchema f = Ok d.
Proof.
  revert s out. induction es as [|e es IH]; intros s out Hr Hd; cbn in Hr; [simplify_eq; by apply not_elem_of_nil in Hd|].
  destruct (step s e) as [[s1 out1]|] eqn:Hs; [|done]. destruct (run es s1) as [[s2 out2]|] eqn:Hr'; [|done].
  simplify_eq. apply elem_of_app in Hd as [Hd|Hd]; [eauto using step_calls_valid|eauto].
Qed.

(** A submission that calls [createAccount] happens only when no call
    runs, and disables the submit button until the call returns. *)
Theorem submit_single_flight s s' out d :
  step s Submit = Some (s', out) → CallCreateAccount d ∈ out →
  UseFetch.loading (create s) = false ∧ UseFetch.loading (create s') = true ∧ step s' Submit = None.
Proof.
  cbn. destruct (open s), (UseFetch.loading (create s)) eqn:Hl; cbn; try discriminate.
  unfold handleSubmit. destruct (accountSchema (form s)); intros Hs Hd; simplify_eq.
  - cbn. by rewrite andb_false_r.
  - by apply not_elem_of_nil in Hd.
Qed.

(** When the call returns: a created account toasts, resets the form to
    its defaults and closes the drawer; a failure toasts its message (or
    "Failed to create account") and keeps the drawer open with the
    typed values. *)
Theorem settle_outcome s m :
  UseFetch.loading (create s) = true →
  step s (Returned (Ok true)) =
    Some (mkState false defaultValues None false (UseFetch.mkState false (Some true) (UseFetch.error (create s))),
          [ToastSuccess "Account created successfully"])
  ∧ step s (Returned (Err m)) =
    Some (mkState (open s) (form s) (errors s) (submitted s) (UseFetch.mkState false (UseFetch.data (create s)) (Some m)),
          [ToastError (if String.eqb m EmptyString then "Failed to create account" else m)]).
Proof. intros Hl. cbn. by rewrite Hl. Qed.

(** Closing the drawer without creating (the cancel button or a click
    outside) keeps the typed values and errors: they are there again at
    the next opening. *)
Theorem close_keeps_values s s1 s2 out1 out2 :
  step s (OpenChange false) = Some (s1, out1) → step s1 (OpenChange true) = Some (s2, out2) →
  form s2 = form s ∧ errors s2 = errors s ∧ open s2 = true ∧ out1 = [] ∧ out2 = [].
Proof. cbn. intros H1 H2. by simplify_eq. Qed.
End Drawer.

(** A resolver that asks for a name. *)
Definition sample_schema (f : Form) : result Form :=
  if String.eqb (name f) EmptyString then Err "Name is required"%string else Ok f.

Lemma run_calls_valid_witness :
  run sample_schema [OpenChange true; Submit; SetName "Main"; Submit] init
  = Some (mkState true (mkForm "Main" CURRENT EmptyString false) None true (UseFetch.mkState true None None),
          [CallCreateAccount (mkForm "Main" CURRENT EmptyString false)])
  ∧ ∃ f, sample_schema f = Ok (mkForm "Main" CURRENT EmptyString false).
Proof.
  split; [reflexivity|].
  exact (run_calls_valid sample_schema [OpenChange true; Submit; SetName "Main"; Submit] init _ _ _ eq_refl
           (list_elem_of_here _ _)).
Defined.

End CreateAccountDrawer.
