(* ===== verification/Presentation.v ===== *)
(** * Presentation: the landing page's hero and the site header

    The two presentation components with behaviour:
    - [src/components/hero.jsx] (lines 9-28): an effect that, on mount,
      listens to the window's scroll and toggles the class "scrolled" of
      the hero image when [window.scrollY] passes 100, and removes the
      listener on unmount.  Module [Hero]: the image's class and the
      listener as the state, mount, scroll and unmount as events.
    - [src/components/header.jsx] (lines 9-96): the server component calls
      [checkUser()] and renders, through Clerk's [SignedIn]/[SignedOut],
      the links of a visitor or of a signed-in user.  Module [Header].
    The markup, the icons and [checkUser] ([src/lib/checkUser], not in
    the snapshot) are not modelled beyond the call.

    Theorems: the image carries "scrolled" exactly when the last scroll
    seen while mounted was past 100 (100 itself excluded), and after
    unmount scrolling changes nothing; the header offers the dashboard
    and the new-transaction links exactly to a signed-in user, and a
    visitor only the anchors and the sign-in button, which redirects to
    the dashboard. *)

From S2P Require Import Prelude.
Local Open Scope Z_scope.

Module Hero.

(** The hero image's class list (only "scrolled" changes) and whether
    [handleScroll] is registered on the window. *)
Record State := mkState { listening : bool; scrolled : bool }.

Definition init : State := mkState false false.

Inductive Event := Mount | Scroll (scrollY : Z) | Unmount.

(** Lines 15-24: [handleScroll]. *)
Definition handleScroll (scrollY : Z) (s : State) : State :=
  let scrollThreshold := 100 in
  if scrollThreshold <? scrollY then mkState (listening s) true else mkState (listening s) false.

(** Lines 12-28: the effect registers the listener on mount and its
    cleanup removes it; a scroll runs the listener only while it is
    registered. *)
Definition step (s : State) (e : Event) : State :=
  match e with
  | Mount => mkState true (scrolled s)
  | Scroll y => if listening s then handleScroll y s else s
  | Unmount => mkState false (scrolled s)
  end.

Definition run (es : list Event) (s : State) : State := fold_left step es s.

Definition isScroll (e : Event) : bool := match e with Scroll _ => true | _ => false end.

(** ** Lemmas *)

Lemma run_app es1 es2 s : run (es1 ++ es2) s = run es2 (run es1 s).
Proof. apply fold_left_app. Qed.

Lemma run_listening es s :
  Forall (λ e, e ≠ Unmount) es → listening s = true → listening (run es s) = true.
Proof.
  revert s. induction es as [|e es IH]; intros s Hf Hl; [done|].
  apply Forall_cons in Hf as [He Hf]. apply IH; [done|].
  destruct e; cbn; [done| |done]. rewrite Hl. unfold handleScroll. by case_match.
Qed.

(** ** Theorems *)

(** While the hero is mounted, the image carries "scrolled" exactly when
    the last scroll position is past 100, whatever came before; 100
    itself does not count. *)
Theorem hero_scrolled_last es y :
  Forall (λ e, e ≠ Unmount) es →
  scrolled (run (Mount :: es ++ [Scroll y]) init) = (100 <? y).
Proof.
  intros Hf. unfold run. cbn [fold_left]. rewrite fold_left_app. cbn [fold_left].
  pose proof (run_listening es (step init Mount) Hf eq_refl) as Hl. unfold run in Hl.
  destruct (fold_left step es (step init Mount)) as [l b]. cbn in Hl |- *. rewrite Hl.
  unfold handleScroll. by case_match.
Qed.

(** After the hero unmounts, the cleanup has removed the listener: no
    scroll changes the image's class until it mounts again. *)
Theorem hero_unmount_stops es s :
  Forall (λ e, isScroll e = true) es → run (Unmount :: es) s = mkState false (scrolled s).
Proof.
  intros Hf. cbn [run fold_left step]. generalize (scrolled s) as b.
  induction Hf as [|e es He Hf IH]; intros b; [done|]. destruct e; try discriminate. apply IH.
Qed.

(** Scrolling to 150 and back to exactly 100 removes the class. *)
Lemma hero_scrolled_last_witness :
  scrolled (run (Mount :: [Scroll 150] ++ [Scroll 100]) init) = (100 <? 100).
Proof. exact (hero_scrolled_last [Scroll 150] 100 ltac:(repeat constructor; discriminate)). Defined.

Lemma hero_unmount_stops_witness :
  run (Unmount :: [Scroll 150; Scroll 20]) (mkState true true) = mkState false (scrolled (mkState true true)).
Proof. exact (hero_unmount_stops [Scroll 150; Scroll 20] (mkState true true) ltac:(repeat constructor)). Defined.

End Hero.

Module Header.

(** What the header renders besides the logo, in the order of the
    markup. *)
Inductive Item :=
  | Features | Testimonials | DashboardLink | AddTransaction | SignIn | UserMenu | MobileMenu.

Inductive Effect := CheckUser.

(** The target of a link, or the redirect of the sign-in button (lines
    22-71). *)
Definition href (i : Item) : option string :=
  match i with
  | Features => Some "#features"
  | Testimonials => Some "#testimonials"
  | DashboardLink => Some "/dashboard"
  | AddTransaction => Some "/transaction/create"
  | SignIn => Some "/dashboard"
  | UserMenu | MobileMenu => None
  end.

(** Lines 9-96: [await checkUser()] (line 10), then the [SignedOut] anchors, the
    [SignedIn] links, the [SignedOut] sign-in button, the [SignedIn] user
    button and mobile menu button, for the signed-in user of [auth()]. *)
Definition Header (auth : option string) : list Effect * list Item :=
  ([CheckUser],
   match auth with
   | Some _ => [DashboardLink; AddTransaction; UserMenu; MobileMenu]
   | None => [Features; Testimonials; SignIn]
   end).

(** The header offers the dashboard and the new-transaction page exactly
    to a signed-in user; a visitor sees the page's two anchors and the
    sign-in button, which leads to the dashboard; [checkUser] runs on
    every render. *)
Theorem header_by_auth auth :
  (Header auth).1 = [CheckUser]
  ∧ (DashboardLink ∈ (Header auth).2 ↔ is_Some auth)
  ∧ (AddTransaction ∈ (Header auth).2 ↔ is_Some auth)
  ∧ (auth = None → ∀ i, i ∈ (Header auth).2 → i = SignIn ∨ ∃ a, href i = Some ("#" +:+ a)%string)
  ∧ href SignIn = Some "/dashboard".
Proof.
  destruct auth as [u|]; cbn; split_and!; try done.
  - split; [intros; by eexists|intros _; apply list_elem_of_here].
  - split; [intros; by eexists|intros _; apply list_elem_of_further, list_elem_of_here].
  - split; [intros Hi|by intros []].
    repeat (apply elem_of_cons in Hi as [Hi|Hi]; [discriminate|]). by apply not_elem_of_nil in Hi.
  - split; [intros Hi|by intros []].
    repeat (apply elem_of_cons in Hi as [Hi|Hi]; [discriminate|]). by apply not_elem_of_nil in Hi.
  - intros _ i Hi. repeat (apply elem_of_cons in Hi as [->|Hi]; [cbn; first [by left|right; by eexists]|]).
    by apply not_elem_of_nil in Hi.
Qed.

End Header.
