(* ===== verification/TableView.v ===== *)
(** * TableView: what the transaction table renders

    The rendering part of
    [src/app/(main)/account/_components/transaction-table.jsx], on top of
    the state of [TransactionTable]:
    - the number of transactions found (line 218);
    - the sort indicator of each sortable header (lines 330-335, 345-350,
      359-364);
    - the empty-page message (lines 372-388);
    - a row's cells (lines 401-461): the date, the description or
      "Untitled Transaction", the category, the signed amount with its
      colour, and the recurring badge with [RECURRING_INTERVALS]
      (lines 62-67) and the next date, or "One-time";
    - the pagination's "Showing a to b of n transactions" (lines 497-503),
      shown when there is more than one page.
    The date formats of date-fns are not modelled (the cell holds the
    time value).

    Theorems: on a page with rows, the "Showing" text names exactly the
    rows of the page; on a page past the last one, which [currentPage]
    can reach when the list shrinks while the pagination stays visible,
    it shows a first row after the last one ("Showing 21 to 15 of 15"). *)

From stdpp Require Import sorting.
From S2P Require Import Prelude Ledger UseFetch TransactionTable.
Local Open Scope Z_scope.

Module TableView.
Import TransactionTable.

(** Line 218: ["{n} transactions found"]. *)
Definition foundCount (txs : list Transaction.t) (s : State) : nat := length (rows txs s).

(** Lines 330-335, 345-350, 359-364: the chevron of a header, up for
    ascending and down for descending, on the sorted field only. *)
Definition sortIndicator (field : SortField) (s : State) : option Direction :=
  if decide (sortField s = field) then Some (sortDir s) else None.

(** Lines 372-388: the message of an empty page. *)
Definition emptyMessage (txs : list Transaction.t) (s : State) : option string :=
  match page txs s with
  | [] => Some (if hasActiveFilters (filters s) then "Try adjusting your filters"
                else "Add some transactions to get started")
  | _ :: _ => None
  end.

(** Lines 62-67: [RECURRING_INTERVALS]. *)
Definition intervalLabel (i : RecurringInterval) : string :=
  match i with DAILY => "Daily" | WEEKLY => "Weekly" | MONTHLY => "Monthly" | YEARLY => "Yearly" end.

(** A rendered row (lines 401-461); the recurring badge's tooltip shows
    [new Date(transaction.nextRecurringDate)], the epoch for a null
    date. *)
Record RowView := mkRowView {
  cellDate : Z;
  cellDescription : string;
  cellCategory : string;
  cellSign : string;
  cellColor : string;
  cellAmount : Z;
  cellRecurring : string;
  cellNextDate : option Z;
}.

Definition rowView (t : Transaction.t) : RowView :=
  let expense := bool_decide (Transaction.type t = EXPENSE) in
  mkRowView (Transaction.date t)
    (match Transaction.description t with
     | Some d => if String.eqb d EmptyString then "Untitled Transaction" else d
     | None => "Untitled Transaction"
     end)
    (Transaction.category t)
    (if expense then "-" else "+")
    (if expense then "text-red-600" else "text-emerald-600")
    (Transaction.amount t)
    (if Transaction.isRecurring t
     then match Transaction.recurringInterval t with Some i => intervalLabel i | None => EmptyString end
     else "One-time")
    (if Transaction.isRecurring t
     then Some (match Transaction.nextRecurringDate t with Some d => d | None => 0 end)
     else None).

(** Lines 390-391: the rows of the page. *)
Definition pageView (txs : list Transaction.t) (s : State) : list RowView := map rowView (page txs s).

(** Lines 497-503: [Showing {(currentPage - 1) * 10 + 1} to
    {Math.min(currentPage * 10, n)} of {n}], when [totalPages > 1]. *)
Definition showing (txs : list Transaction.t) (s : State) : option (Z * Z * Z) :=
  let n := Z.of_nat (length (rows txs s)) in
  if 1 <? totalPages (length (rows txs s))
  then Some ((currentPage s - 1) * ITEMS_PER_PAGE + 1, Z.min (currentPage s * ITEMS_PER_PAGE) n, n)
  else None.

(** ** Lemmas *)

Lemma length_page txs s :
  1 <= currentPage s →
  Z.of_nat (length (page txs s))
  = Z.min 10 (Z.max 0 (Z.of_nat (length (rows txs s)) - (currentPage s - 1) * 10)).
Proof.
  intros Hp. unfold page, paginated, ITEMS_PER_PAGE. rewrite length_take, length_drop.
  change (Z.to_nat 10) with 10%nat. lia.
Qed.

(** Page 3 of 25 rows, reached by two clicks on Next. *)
Module Sample.
Definition to_page_three : list (list Transaction.t * Event) :=
  [(TransactionTable.Sample.lunches 25, PageNext); (TransactionTable.Sample.lunches 25, PageNext)].
Definition on_page_three : State := mkState [] SortDate Desc (mkFilters EmptyString None AllRows) 3 UseFetch.init.
End Sample.

(** ** Theorems *)

(** On a page with rows, "Showing a to b of n" names the rows of the
    page: [b - a + 1] rows, [n] being the number of rows found. *)
Theorem showing_page txs s a b n :
  1 <= currentPage s → page txs s ≠ [] → showing txs s = Some (a, b, n) →
  b - a + 1 = Z.of_nat (length (page txs s)) ∧ n = Z.of_nat (foundCount txs s) ∧ 1 <= a ∧ a <= b ∧ b <= n.
Proof.
  intros Hp Hne Hs. pose proof (length_page txs s Hp) as Hl.
  assert (Hpos : (0 < length (page txs s))%nat) by (destruct (page txs s); [done|cbn; lia]).
  unfold showing, ITEMS_PER_PAGE in Hs. destruct (1 <? _); [|done]. injection Hs as <- <- <-.
  unfold foundCount. lia.
Qed.

(** On a page past the last one, with the pagination shown, the page is
    empty and "Showing a to b of n" has its first row after its last. *)
Theorem showing_past_last txs s a b n :
  totalPages (length (rows txs s)) < currentPage s → showing txs s = Some (a, b, n) →
  page txs s = [] ∧ b < a.
Proof.
  intros Hp Hs. unfold showing in Hs. destruct (1 <? _) eqn:H1; [|done]. injection Hs as <- <- <-.
  revert Hp. unfold totalPages, ITEMS_PER_PAGE. intros Hp. apply Z.ltb_lt in H1. split.
  - unfold page. apply paginated_past. unfold ITEMS_PER_PAGE. revert Hp H1. zdiv_elim. lia.
  - revert Hp H1. zdiv_elim. lia.
Qed.

(** After ten of the 25 rows are deleted, page 3 is past the last page:
    the table reads "Showing 21 to 15 of 15 transactions" above an empty
    page. *)
Lemma showing_past_last_witness :
  run Sample.to_page_three init = Some Sample.on_page_three
  ∧ showing (TransactionTable.Sample.lunches 15) Sample.on_page_three = Some (21, 15, 15)
  ∧ page (TransactionTable.Sample.lunches 15) Sample.on_page_three = [] ∧ 15 < 21.
Proof.
  split_and!; [by_eval|by_eval|..];
    pose proof (showing_past_last (TransactionTable.Sample.lunches 15) Sample.on_page_three 21 15 15
                  ltac:(by_eval) ltac:(by_eval)); tauto.
Defined.

End TableView.
