(* ===== verification/DashboardView.v ===== *)
(** * DashboardView: what the dashboard page renders and hands on

    The rendering part of [src/app/(main)/dashboard/page.jsx]: the three
    metric cards (lines 54-98), the props of [BudgetProgress] (lines
    99-105), of [DashboardOverview] (lines 107-113), the accounts' count
    (line 119) and the props of each [AccountCard] (lines 134-137), from the page's data ([Dashboard.Page]).

    Theorems: the budget card on the dashboard receives the budget and
    the [currentExpenses] that [getCurrentBudget] returns for the default
    account, and with no default account it receives no budget and 0, and
    then shows the "Good" status with an empty amount field; a card is
    rendered for each of the user's accounts, in store order. *)

From S2P Require Import Prelude JsNumber JsString Ledger Budget Dashboard BudgetProgress.
Import BudgetAction.
Local Open Scope Z_scope.

Module DashboardView.
Import Dashboard.

(** Lines 54-98: Total Balance, Monthly Income, Monthly Expenses. *)
Record Metrics := mkMetrics { shownBalance : Z; shownIncome : Z; shownExpenses : Z }.

Definition metrics (pg : Page) : Metrics :=
  mkMetrics (totalBalance pg) (monthlyIncome pg) (monthlyExpenses pg).

(** Lines 101-104: [initialBudget={budgetData?.budget}] and
    [currentExpenses={budgetData?.currentExpenses || 0}]. *)
Definition budgetProps (pg : Page) : BudgetProgress.Props :=
  match budgetData pg with
  | Some bd => BudgetProgress.mkProps (budget bd) (BudgetAction.currentExpenses bd)
  | None => BudgetProgress.mkProps None 0
  end.

(** Lines 109-112: [accounts={accounts}] and [transactions={transactions || []}]. *)
Definition overviewProps (pg : Page) : list Account.t * list Transaction.t := (accounts pg, transactions pg).

(** Line 119: ["{n} account"] followed by ["s"] unless [n] is 1. *)
Definition accountsSuffix (pg : Page) : string :=
  if Nat.eqb (length (accounts pg)) 1 then EmptyString else "s".

(** Lines 134-137: one [AccountCard] per account. *)
Definition accountCards (pg : Page) : list Account.t :=
  if Nat.ltb 0 (length (accounts pg)) then accounts pg else [].

(** ** Theorems *)

(** The dashboard's budget card receives what [getCurrentBudget] returns
    for the user's default account; without a default account it gets no
    budget and 0, shows "Good" in its success colour, and its amount field
    starts empty. *)
Theorem dashboard_budget_card req db pg u :
  require_user req db = Ok u → DashboardPage req db = Ok pg →
  match List.find Account.isDefault
          (List.filter (λ a, String.eqb (Account.userId a) (User.id u)) (db_accounts db)) with
  | Some a =>
      ∃ bd, getCurrentBudget req (Some (Account.id a)) db = Ok bd
            ∧ budgetProps pg = BudgetProgress.mkProps (budget bd) (BudgetAction.currentExpenses bd)
  | None =>
      budgetProps pg = BudgetProgress.mkProps None 0
      ∧ BudgetProgress.getProgressText (budgetProps pg) = "Good"
      ∧ BudgetProgress.getProgressTextColor (budgetProps pg) = "text-emerald-600"
      ∧ BudgetProgress.initialText (budgetProps pg) = EmptyString
  end.
Proof.
  intros Hu Hp. unfold DashboardPage, getUserAccounts, getDashboardData in Hp. rewrite Hu in Hp.
  cbn [mbind result_bind mret result_ret] in Hp.
  destruct (List.find _ _) as [a|]; cbn [mbind result_bind mret result_ret] in Hp.
  - destruct (getCurrentBudget _ _ _) as [bd|m]; cbn [mbind result_bind mret result_ret] in Hp; [|discriminate].
    injection Hp as <-. exists bd. split; [done|]. reflexivity.
  - injection Hp as <-. split_and!; reflexivity.
Qed.

(** A card is rendered for each of the user's accounts, in store
    order, and the metrics are the page's totals. *)
Theorem dashboard_cards req db pg u :
  require_user req db = Ok u → DashboardPage req db = Ok pg →
  accountCards pg = List.filter (λ a, String.eqb (Account.userId a) (User.id u)) (db_accounts db)
  ∧ overviewProps pg = (accounts pg, List.filter (λ t, String.eqb (Transaction.userId t) (User.id u))
                                       (db_transactions db))
  ∧ shownExpenses (metrics pg) = monthlyExpenses pg.
Proof.
  intros Hu Hp. destruct (DashboardPage_shape req db pg u Hu Hp) as (Ha & Ht & _).
  unfold accountCards, overviewProps. rewrite Ha, Ht. split_and!; [|done|done].
  by destruct (List.filter _ _).
Qed.

End DashboardView.
