(* ===== verification/OverviewView.v ===== *)
(** * OverviewView: what the dashboard's overview card renders

    The rendering part of
    [src/app/(main)/dashboard/_components/transaction-overview.jsx], on
    top of [TransactionOverview]:
    - the recent list (lines 118-171): "No recent transactions" when it is
      empty, else per row the description or "Untitled Transaction", the
      date, the signed amount with its colour, and the category;
    - the expense breakdown (lines 194-262): "No expenses this month" when
      the pie has no slice, else the month's total and one legend entry
      per slice with its colour [COLORS[index % COLORS.length]].
    The date and number formats are not modelled.

    Theorems: the breakdown is shown exactly when the selected account
    has an expense dated in the clock's month; and the legend's colours
    repeat every seven slices, so with eight categories or more two
    slices share a colour. *)

From stdpp Require Import sorting.
From S2P Require Import Prelude JsDate Ledger MonthlyStats TransactionOverview.
Local Open Scope Z_scope.

Module OverviewView.
Import TransactionOverview.

(** Lines 130-169: a row of the recent list; the date cell holds the
    time value. *)
Record RecentRow := mkRecentRow {
  rowSign : string;
  rowDescription : string;
  rowDate : Z;
  rowColor : string;
  rowAmount : Z;
  rowCategory : string;
}.

Definition recentRow (t : Transaction.t) : RecentRow :=
  let expense := bool_decide (Transaction.type t = EXPENSE) in
  mkRecentRow (if expense then "-" else "+")
    (match Transaction.description t with
     | Some d => if String.eqb d EmptyString then "Untitled Transaction" else d
     | None => "Untitled Transaction"
     end)
    (Transaction.date t)
    (if expense then "text-red-600" else "text-emerald-600")
    (Transaction.amount t) (Transaction.category t).

Inductive RecentView := NoRecent | RecentList (rows : list RecentRow).

(** Lines 118-171. *)
Definition recentView (sel : option string) (txs : list Transaction.t) : RecentView :=
  match recentTransactions sel txs with
  | [] => NoRecent
  | l => RecentList (map recentRow l)
  end.

Inductive PieView := NoExpenses | Breakdown (total : Z) (legend : list (string * string * Z)).

(** Lines 194-262: the total and the legend's (name, colour, value)
    entries (lines 248-261). *)
Definition pieView (sel : option string) (txs : list Transaction.t) (now : Z) : PieView :=
  match pieChartData sel txs now with
  | [] => NoExpenses
  | pie => Breakdown (totalExpenses sel txs now) (map (λ s, (name s, color s, value s)) pie)
  end.

(** ** Lemmas *)

Lemma addCategory_nonempty c a acc : addCategory c a acc ≠ [].
Proof. destruct acc as [|[k v] acc]; cbn; [done|]. by destruct (String.eqb k c). Qed.

Lemma fold_categories_nil l acc :
  fold_left categoryStep l acc = [] ↔ acc = [] ∧ l = [].
Proof.
  revert acc. induction l as [|t l IH]; intros acc; cbn; [naive_solver|].
  rewrite IH. split; [intros [H _]; by apply addCategory_nonempty in H|by intros [_ ?]].
Qed.

Lemma pieChartData_nil sel txs now : pieChartData sel txs now = [] ↔ expensesByCategory sel txs now = [].
Proof.
  rewrite <- pie_pairs. split; [by intros ->|]. by intros ?%map_eq_nil.
Qed.

Lemma lookup_map_fst (l : list (string * Z)) i c v : l !! i = Some (c, v) → map fst l !! i = Some c.
Proof. revert i. induction l as [|[k w] l IH]; intros [|i]; cbn; [done|done|by intros [= -> _]|apply IH]. Qed.

Lemma pieChartData_lookup sel txs now i :
  pieChartData sel txs now !! i
  = (λ '(c, v), mkSlice c v (nth (i mod length COLORS) COLORS EmptyString)) <$> expensesByCategory sel txs now !! i.
Proof. unfold pieChartData. by rewrite list_lookup_imap. Qed.

(** Eight expenses of acc_1 in March 2024, one per category. *)
Module Sample.
Definition spend (id c : string) : Transaction.t :=
  Transaction.mk id EXPENSE 100 None (MonthlyStats.Sample.mar 5 12) c false None None "user_1" "acc_1".
Definition eight : list Transaction.t :=
  [spend "e1" "food"; spend "e2" "rent"; spend "e3" "travel"; spend "e4" "health";
   spend "e5" "shopping"; spend "e6" "utilities"; spend "e7" "education"; spend "e8" "gifts"].
End Sample.

(** ** Theorems *)

(** The recent list reads "No recent transactions" exactly when the
    selected account has no transaction. *)
Theorem recent_empty_iff sel txs : recentView sel txs = NoRecent ↔ accountTransactions sel txs = [].
Proof.
  unfold recentView, recentTransactions, sortedTransactions.
  pose proof (merge_sort_Permutation newerFirst (accountTransactions sel txs)) as Hp.
  destruct (merge_sort newerFirst (accountTransactions sel txs)) as [|t l] eqn:E; cbn.
  - split; [intros _|done]. by apply Permutation_nil.
  - split; [discriminate|]. intros Hn. rewrite Hn in Hp. symmetry in Hp. by apply Permutation_nil_cons in Hp.
Qed.


(** The breakdown is shown exactly when the selected account has an
    expense dated in the clock's month. *)
Theorem pie_shown_iff sel txs now :
  pieView sel txs now = NoExpenses
  ↔ List.filter (isCurrentMonthExpense now) (accountTransactions sel txs) = [].
Proof.
  unfold pieView. transitivity (pieChartData sel txs now = []).
  { destruct (pieChartData sel txs now); [done|]. split; discriminate. }
  rewrite pieChartData_nil. unfold expensesByCategory. rewrite fold_categories_nil.
  unfold currentMonthExpenses, sortedTransactions.
  pose proof (List_filter_Permutation (isCurrentMonthExpense now) _ _
                (merge_sort_Permutation newerFirst (accountTransactions sel txs))) as Hp.
  split; [intros [_ H]; rewrite H in Hp; by apply Permutation_nil|].
  intros H. rewrite H in Hp. split; [done|]. by apply Permutation_nil, symmetry.
Qed.

(** The legend's colours repeat every seven slices: the slices [i] and
    [i + 7] have the same colour. *)
Theorem legend_colors_cycle sel txs now i s1 s2 :
  pieChartData sel txs now !! i = Some s1 → pieChartData sel txs now !! (i + 7)%nat = Some s2 →
  color s1 = color s2 ∧ name s1 ≠ name s2.
Proof.
  assert (Hmod : ((i + 7) mod length COLORS = i mod length COLORS)%nat).
  { change (length COLORS) with 7%nat.
    rewrite Nat.Div0.add_mod, Nat.Div0.mod_same, Nat.add_0_r, Nat.Div0.mod_mod. reflexivity. }
  rewrite !pieChartData_lookup. rewrite Hmod. intros H1 H2.
  destruct (expensesByCategory sel txs now !! i) as [[c1 v1]|] eqn:E1; [|done].
  destruct (expensesByCategory sel txs now !! (i + 7)%nat) as [[c2 v2]|] eqn:E2; [|done].
  simplify_eq/=. split; [done|].
  intros ->. pose proof (NoDup_fold (currentMonthExpenses sel txs now) [] ltac:(constructor)) as Hnd.
  fold (expensesByCategory sel txs now) in Hnd.
  apply lookup_map_fst in E1, E2. pose proof (NoDup_lookup _ _ _ _ Hnd E1 E2). lia.
Qed.

(** The first and the eighth slice of eight categories, "food" and
    "gifts", are drawn in the same blue. *)
Lemma legend_colors_cycle_witness :
  pieChartData (Some "acc_1") Sample.eight (MonthlyStats.Sample.mar 20 10) !! 0%nat
    = Some (mkSlice "food" 100 "#3B82F6")
  ∧ pieChartData (Some "acc_1") Sample.eight (MonthlyStats.Sample.mar 20 10) !! (0 + 7)%nat
    = Some (mkSlice "gifts" 100 "#3B82F6")
  ∧ color (mkSlice "food" 100 "#3B82F6") = color (mkSlice "gifts" 100 "#3B82F6")
  ∧ name (mkSlice "food" 100 "#3B82F6") ≠ name (mkSlice "gifts" 100 "#3B82F6").
Proof.
  assert (H0 : pieChartData (Some "acc_1") Sample.eight (MonthlyStats.Sample.mar 20 10) !! 0%nat
               = Some (mkSlice "food" 100 "#3B82F6")) by by_eval.
  assert (H7 : pieChartData (Some "acc_1") Sample.eight (MonthlyStats.Sample.mar 20 10) !! (0 + 7)%nat
               = Some (mkSlice "gifts" 100 "#3B82F6")) by by_eval.
  exact (conj H0 (conj H7 (legend_colors_cycle _ _ _ 0%nat _ _ H0 H7))).
Defined.

End OverviewView.
